(** * FlightForge admin panel: the bot lifecycle manager

    A shallow embedding of the bot-lifecycle part of [admin-panel/app.py]
    ([determine_personality], [get_country_for_airline], [reset_bots],
    [reset_single_bot], [create_bot]) and the properties of it that the
    design document states.

    - Python values that reach the classifier are the inductive [pyval];
      Python floats are IEEE binary64, i.e. Rocq's primitive [float].
      Strings are byte strings; [str.lower] changes the ASCII letters.
    - The MySQL database is a record of tables (lists of row records), read
      and written through one connection with [autocommit = False]: the
      statements change a working copy, which [commit] publishes and
      [rollback] or [close] drops. The AUTO_INCREMENT counters are outside
      the transaction. Rows are read in table order, and [ORDER BY] is a
      stable sort.
    - A statement can fail; which one does, and with what message, is
      decided by a fault oracle in the environment, over which the
      theorems quantify.
    - [random.sample] draws, without replacement, with numbers taken from
      a sequence in the environment. *)

From Stdlib Require Import ZArith NArith List String Ascii Bool Lia.
From Stdlib Require Import Permutation Sorted.
From Stdlib Require Import Floats.
From Stdlib Require Import DecimalString.
Import ListNotations.

Local Open Scope string_scope.
Local Open Scope list_scope.
Local Open Scope Z_scope.

(** ** Python values and the built-ins the code calls *)

Module Py.

(** An outcome of evaluating Python code: a value or a raised exception. *)
Inductive exn : Type :=
| ValueError
| TypeError
| OverflowError.

Inductive res (A : Type) : Type :=
| Ok (a : A)
| Raise (e : exn).
Arguments Ok {A} a.
Arguments Raise {A} e.

(** The values a result-set column or a caller can hand to the classifier:
    [None] (SQL NULL), [int], [float], a finite [decimal.Decimal] (sign,
    coefficient, exponent), [str], and a [datetime.date] as an example of an
    object that is not a number. *)
Inductive pyval : Type :=
| PyNone
| PyInt (z : Z)
| PyFloat (f : float)
| PyDecimal (neg : bool) (coeff : N) (exp : Z)
| PyStr (s : string)
| PyDate (y m d : Z).

(** [bool(v)]: the truth value used by [x if v else y]. *)
Definition truthy (v : pyval) : bool :=
  match v with
  | PyNone => false
  | PyInt z => negb (z =? 0)
  | PyFloat f => negb (PrimFloat.eqb f 0)
  | PyDecimal _ c _ => negb (N.eqb c 0)
  | PyStr s => negb (String.eqb s "")
  | PyDate _ _ _ => true
  end.

(** The binary64 number nearest to [(-1)^neg * m * 10^e], ties to even. *)
Definition float_of_decimal (neg : bool) (m : N) (e : Z) : float :=
  match m with
  | N0 => if neg then (-0)%float else 0%float
  | Npos p =>
      match e with
      | Zneg k =>
          SF2Prim (SFdiv prec emax (S754_finite neg p 0)
                                   (S754_finite false (Pos.pow 10 k) 0))
      | _ => SF2Prim (binary_normalize prec emax
                        ((if neg then Zneg p else Zpos p) * 10 ^ e) 0 neg)
      end
  end.

(** [float(z)] for an [int]: the nearest binary64 number, and
    [OverflowError] when that is not finite. *)
Definition float_of_int (z : Z) : res float :=
  let f := float_of_decimal (z <? 0) (Z.abs_N z) 0 in
  if PrimFloat.is_infinity f then Raise OverflowError else Ok f.

(** *** [float(s)] for a string

    The grammar of the language reference, for ASCII text: optional white
    space, an optional sign, then [inf], [infinity], [nan] (any case) or a
    decimal number with an optional fraction and exponent, digits optionally
    grouped by single underscores. The value is rounded to the nearest
    float. [float] also reads the digits and the white space of other
    scripts; text with such characters is not [ascii_text], and nothing is
    stated about it. *)

(** The white space that [float] strips from ASCII text: tab, line feed,
    vertical tab, form feed, carriage return and space. *)
Definition is_space (c : ascii) : bool :=
  let n := nat_of_ascii c in
  ((9 <=? n) && (n <=? 13))%nat || (n =? 32)%nat.

(** Text of ASCII characters only. The strings of this development hold one
    character per byte: they stand for such text, and what is stated about
    a string argument is stated for [ascii_text]. *)
Definition ascii_text (s : string) : bool :=
  forallb (fun c => (nat_of_ascii c <? 128)%nat) (list_ascii_of_string s).

Definition digit_of (c : ascii) : option N :=
  let n := N_of_ascii c in
  if ((48 <=? n) && (n <=? 57))%N then Some (n - 48)%N else None.

Definition lower_ascii (c : ascii) : ascii :=
  let n := nat_of_ascii c in
  if ((65 <=? n) && (n <=? 90))%nat then ascii_of_nat (n + 32) else c.

(** [s.lower()], on the ASCII letters. *)
Fixpoint lower (s : string) : string :=
  match s with
  | EmptyString => EmptyString
  | String c s' => String (lower_ascii c) (lower s')
  end.

Fixpoint lstrip (l : list ascii) : list ascii :=
  match l with
  | c :: l' => if is_space c then lstrip l' else l
  | [] => []
  end.

Definition strip (l : list ascii) : list ascii :=
  rev (lstrip (rev (lstrip l))).

(** Digits after the first one of a digit part: [acc] is the value read so
    far, [n] the number of digits read. *)
Fixpoint more_digits (acc : N) (n : nat) (l : list ascii)
  : N * nat * list ascii :=
  match l with
  | c :: l' =>
      match digit_of c with
      | Some d => more_digits (acc * 10 + d)%N (S n) l'
      | None =>
          if Ascii.eqb c "_" then
            match l' with
            | c' :: l'' =>
                match digit_of c' with
                | Some d => more_digits (acc * 10 + d)%N (S n) l''
                | None => (acc, n, l)
                end
            | [] => (acc, n, l)
            end
          else (acc, n, l)
      end
  | [] => (acc, n, l)
  end.

(** A digit part continuing the value [acc]; [None] when no digit is there. *)
Definition digitpart (acc : N) (l : list ascii)
  : option (N * nat * list ascii) :=
  match l with
  | c :: l' =>
      match digit_of c with
      | Some d => Some (more_digits (acc * 10 + d)%N 1 l')
      | None => None
      end
  | [] => None
  end.

(** The exponent part, or 0 when there is none. *)
Definition exponent (l : list ascii) : option Z :=
  match l with
  | [] => Some 0
  | c :: l' =>
      if Ascii.eqb (lower_ascii c) "e" then
        let '(neg, l1) :=
          match l' with
          | "+"%char :: l1 => (false, l1)
          | "-"%char :: l1 => (true, l1)
          | _ => (false, l')
          end in
        match digitpart 0 l1 with
        | Some (v, _, []) => Some (if neg then - Z.of_N v else Z.of_N v)
        | _ => None
        end
      else None
  end.

(** [number [exponent]]: coefficient and decimal exponent. *)
Definition floatnumber (l : list ascii) : option (N * Z) :=
  match digitpart 0 l with
  | Some (ip, _, "."%char :: l1) =>
      match digitpart ip l1 with
      | Some (v, k, l2) =>
          option_map (fun e => (v, e - Z.of_nat k)) (exponent l2)
      | None => option_map (fun e => (ip, e)) (exponent l1)
      end
  | Some (ip, _, l1) => option_map (fun e => (ip, e)) (exponent l1)
  | None =>
      match l with
      | "."%char :: l1 =>
          match digitpart 0 l1 with
          | Some (v, k, l2) =>
              option_map (fun e => (v, e - Z.of_nat k)) (exponent l2)
          | None => None
          end
      | _ => None
      end
  end.

Definition float_of_string (s : string) : res float :=
  let l := strip (list_ascii_of_string s) in
  let '(neg, body) :=
    match l with
    | "+"%char :: l1 => (false, l1)
    | "-"%char :: l1 => (true, l1)
    | _ => (false, l)
    end in
  let word := lower (string_of_list_ascii body) in
  if String.eqb word "inf" || String.eqb word "infinity" then
    Ok (if neg then neg_infinity else infinity)
  else if String.eqb word "nan" then Ok nan
  else
    match floatnumber body with
    | Some (m, e) => Ok (float_of_decimal neg m e)
    | None => Raise ValueError
    end.

(** The built-in [float(v)]. *)
Definition float (v : pyval) : res PrimFloat.float :=
  match v with
  | PyNone => Raise TypeError
  | PyInt z => float_of_int z
  | PyFloat f => Ok f
  | PyDecimal neg c e => Ok (float_of_decimal neg c e)
  | PyStr s => float_of_string s
  | PyDate _ _ _ => Raise TypeError
  end.

(** [needle in hay] for strings. *)
Fixpoint contains (needle hay : string) : bool :=
  String.prefix needle hay ||
  match hay with
  | EmptyString => false
  | String _ hay' => contains needle hay'
  end.

(** [str(z)] for an [int]. *)
Definition str_of_int (z : Z) : string :=
  NilZero.string_of_int (Z.to_int z).

End Py.

(** ** The personality classifier *)

Inductive personality : Type :=
| PREMIUM
| BUDGET
| CONSERVATIVE
| AGGRESSIVE
| REGIONAL
| BALANCED.

(** [float(v) if v else 0]. The integer 0 of the [else] branch is only
    divided by a float and compared with numbers, where it behaves as 0.0. *)
Definition float_or_zero (v : Py.pyval) : Py.res float :=
  if Py.truthy v then Py.float v else Py.Ok 0%float.

(** The [try] block: the three conversions, in order. *)
Definition convert_stats (balance reputation service_quality : Py.pyval)
  : Py.res (float * float * float) :=
  match float_or_zero balance with
  | Py.Raise e => Py.Raise e
  | Py.Ok b =>
      match float_or_zero reputation with
      | Py.Raise e => Py.Raise e
      | Py.Ok r =>
          match float_or_zero service_quality with
          | Py.Raise e => Py.Raise e
          | Py.Ok s => Py.Ok (b, r, s)
          end
      end
  end.

(** The [if]/[elif] chain on the converted numbers. *)
Definition personality_of (balance reputation service_quality : float)
  : personality :=
  let cash_ratio := (balance / 10000000)%float in
  if (70 <? service_quality)%float then PREMIUM
  else if (cash_ratio <? 2)%float && (reputation <? 30)%float then BUDGET
  else if (70 <? reputation)%float then CONSERVATIVE
  else if (10 <? cash_ratio)%float then AGGRESSIVE
  else if (service_quality <? 40)%float then REGIONAL
  else BALANCED.

(** [determine_personality]: [except (ValueError, TypeError)] replaces all
    three numbers by 0; any other exception propagates. *)
Definition determine_personality
  (balance reputation service_quality : Py.pyval) : Py.res personality :=
  match convert_stats balance reputation service_quality with
  | Py.Ok (b, r, s) => Py.Ok (personality_of b r s)
  | Py.Raise Py.ValueError | Py.Raise Py.TypeError =>
      Py.Ok (personality_of 0 0 0)
  | Py.Raise e => Py.Raise e
  end.

(** The decision list as the design document words it, first match wins. *)
Definition rule_matches (n : nat) (balance reputation service_quality : float)
  : bool :=
  match n with
  | 1%nat => (70 <? service_quality)%float
  | 2%nat => ((balance / 10000000 <? 2) && (reputation <? 30))%float
  | 3%nat => (70 <? reputation)%float
  | 4%nat => (10 <? balance / 10000000)%float
  | 5%nat => (service_quality <? 40)%float
  | _ => true
  end.

Definition rule_category (n : nat) : personality :=
  match n with
  | 1%nat => PREMIUM
  | 2%nat => BUDGET
  | 3%nat => CONSERVATIVE
  | 4%nat => AGGRESSIVE
  | 5%nat => REGIONAL
  | _ => BALANCED
  end.

Definition classify_spec (balance reputation service_quality : float)
  : personality :=
  match find (fun n => rule_matches n balance reputation service_quality)
             [1; 2; 3; 4; 5; 6]%nat with
  | Some n => rule_category n
  | None => BALANCED
  end.

(** ** The database *)

Module Db.

(** Rows, with the columns the lifecycle operations read or write. Integer
    and decimal columns are [Z]; a nullable column is an [option]. *)
Record airline_row := {
  al_id : Z; al_name : string; al_airline_type : Z }.

Record airline_info_row := {
  ai_airline : Z; ai_balance : Z; ai_service_quality : Z;
  ai_target_service_quality : Z; ai_reputation : Z;
  ai_country_code : option string; ai_initialized : Z }.

Record airline_base_row := {
  ab_airport : Z; ab_airline : Z; ab_scale : Z; ab_founded_cycle : Z;
  ab_headquarter : Z; ab_country : string }.

Record airplane_row := {
  ap_id : Z; ap_model : Z; ap_owner : Z; ap_constructed_cycle : Z;
  ap_purchased_cycle : Z; ap_airplane_condition : Z;
  ap_depreciation_rate : Z; ap_value : Z; ap_is_sold : Z;
  ap_dealer_ratio : Z; ap_home : option Z; ap_purchase_rate : Z;
  ap_version : Z }.

Record airplane_configuration_row := {
  ac_airplane : Z; ac_configuration : Z }.

Record airplane_model_row := {
  am_id : Z; am_name : string; am_price : Z }.

Record link_row := {
  ln_id : Z; ln_airline : Z; ln_from_airport : Z; ln_to_airport : Z }.

Record link_assignment_row := { la_link : Z; la_airplane : Z }.

Record link_consumption_row := { lc_link : Z; lc_cycle : Z }.

Record airline_appeal_row := { aa_airline : Z; aa_airport : Z }.

Record airport_row := {
  apt_id : Z; apt_iata : string; apt_country_code : string;
  apt_airport_size : Z; apt_population : Z }.

Record tables := {
  airline : list airline_row;
  airline_info : list airline_info_row;
  airline_base : list airline_base_row;
  airplane : list airplane_row;
  airplane_configuration : list airplane_configuration_row;
  airplane_model : list airplane_model_row;
  link : list link_row;
  link_assignment : list link_assignment_row;
  link_consumption : list link_consumption_row;
  airline_appeal : list airline_appeal_row;
  airport : list airport_row;
  cycle : list Z }.

(** The AUTO_INCREMENT counters of [airline.id] and [airplane.id]. They
    belong to the server, not to a transaction: a rollback does not restore
    them. *)
Record counters := { next_airline_id : Z; next_airplane_id : Z }.

Definition set_airline v t :=
  {| airline := v; airline_info := airline_info t;
     airline_base := airline_base t; airplane := airplane t;
     airplane_configuration := airplane_configuration t;
     airplane_model := airplane_model t; link := link t;
     link_assignment := link_assignment t;
     link_consumption := link_consumption t;
     airline_appeal := airline_appeal t; airport := airport t;
     cycle := cycle t |}.

Definition set_airline_info v t :=
  {| airline := airline t; airline_info := v;
     airline_base := airline_base t; airplane := airplane t;
     airplane_configuration := airplane_configuration t;
     airplane_model := airplane_model t; link := link t;
     link_assignment := link_assignment t;
     link_consumption := link_consumption t;
     airline_appeal := airline_appeal t; airport := airport t;
     cycle := cycle t |}.

Definition set_airline_base v t :=
  {| airline := airline t; airline_info := airline_info t;
     airline_base := v; airplane := airplane t;
     airplane_configuration := airplane_configuration t;
     airplane_model := airplane_model t; link := link t;
     link_assignment := link_assignment t;
     link_consumption := link_consumption t;
     airline_appeal := airline_appeal t; airport := airport t;
     cycle := cycle t |}.

Definition set_airplane v t :=
  {| airline := airline t; airline_info := airline_info t;
     airline_base := airline_base t; airplane := v;
     airplane_configuration := airplane_configuration t;
     airplane_model := airplane_model t; link := link t;
     link_assignment := link_assignment t;
     link_consumption := link_consumption t;
     airline_appeal := airline_appeal t; airport := airport t;
     cycle := cycle t |}.

Definition set_airplane_configuration v t :=
  {| airline := airline t; airline_info := airline_info t;
     airline_base := airline_base t; airplane := airplane t;
     airplane_configuration := v;
     airplane_model := airplane_model t; link := link t;
     link_assignment := link_assignment t;
     link_consumption := link_consumption t;
     airline_appeal := airline_appeal t; airport := airport t;
     cycle := cycle t |}.

Definition set_link v t :=
  {| airline := airline t; airline_info := airline_info t;
     airline_base := airline_base t; airplane := airplane t;
     airplane_configuration := airplane_configuration t;
     airplane_model := airplane_model t; link := v;
     link_assignment := link_assignment t;
     link_consumption := link_consumption t;
     airline_appeal := airline_appeal t; airport := airport t;
     cycle := cycle t |}.

Definition set_link_assignment v t :=
  {| airline := airline t; airline_info := airline_info t;
     airline_base := airline_base t; airplane := airplane t;
     airplane_configuration := airplane_configuration t;
     airplane_model := airplane_model t; link := link t;
     link_assignment := v;
     link_consumption := link_consumption t;
     airline_appeal := airline_appeal t; airport := airport t;
     cycle := cycle t |}.

Definition set_link_consumption v t :=
  {| airline := airline t; airline_info := airline_info t;
     airline_base := airline_base t; airplane := airplane t;
     airplane_configuration := airplane_configuration t;
     airplane_model := airplane_model t; link := link t;
     link_assignment := link_assignment t;
     link_consumption := v;
     airline_appeal := airline_appeal t; airport := airport t;
     cycle := cycle t |}.

Definition set_airline_appeal v t :=
  {| airline := airline t; airline_info := airline_info t;
     airline_base := airline_base t; airplane := airplane t;
     airplane_configuration := airplane_configuration t;
     airplane_model := airplane_model t; link := link t;
     link_assignment := link_assignment t;
     link_consumption := link_consumption t;
     airline_appeal := v; airport := airport t;
     cycle := cycle t |}.

(** [ORDER BY]: a stable insertion sort; [before x y] holds when [x] may
    precede [y]. Rows with equal keys keep their table order. *)
Fixpoint insert_by {A} (before : A -> A -> bool) (x : A) (l : list A)
  : list A :=
  match l with
  | [] => [x]
  | y :: l' => if before x y then x :: l else y :: insert_by before x l'
  end.

Definition order_by {A} (before : A -> A -> bool) (l : list A) : list A :=
  fold_right (insert_by before) [] l.

(** [DELETE ... WHERE p]: the rows left and [cursor.rowcount]. *)
Definition delete_where {A} (p : A -> bool) (l : list A) : list A * Z :=
  (filter (fun r => negb (p r)) l, Z.of_nat (List.length (filter p l))).

Definition mem (x : Z) (l : list Z) : bool := existsb (Z.eqb x) l.

End Db.

(** ** The SQL statements the operations send *)

Module Sql.
Import Db.

(** One constructor per statement text, with its bound parameters. *)
Inductive stmt : Type :=
| SelectBots
| SelectBot (id : Z)
| SelectMaxCycle
| SelectCheapModels
| DeleteLinkAssignments (airline : Z)
| DeleteLinkConsumptions (airline : Z)
| DeleteLinks (airline : Z)
| DeleteAirplaneConfigurations (owner : Z)
| DeleteAirplanes (owner : Z)
| DeleteBases (airline : Z)
| DeleteAppeal (airline : Z)
| UpdateAirlineInfo (airline : Z) (country_code : option string)
| SelectLargestAirport (country_code : string)
| SelectAirportByIata (iata : string)
| InsertBase (airport airline founded_cycle : Z) (country : string)
| InsertAirplane (model owner cycle value : Z) (home : option Z)
| InsertAirline (name : string)
| InsertAirlineInfo (airline : Z) (country_code : string)
| Commit.

(** A row of [SELECT a.id, a.name, a.airline_type, ai.country_code FROM
    airline a LEFT JOIN airline_info ai ON a.id = ai.airline] (the SELECT of
    [reset_bots] leaves [a.airline_type] out and does not read it). Rows
    come in the order of the tables. *)
Record bot_row := {
  b_id : Z; b_name : string; b_airline_type : Z;
  b_country_code : option string }.

Definition left_join_info (t : tables) (a : airline_row) : list bot_row :=
  let mk cc := {| b_id := al_id a; b_name := al_name a;
                  b_airline_type := al_airline_type a;
                  b_country_code := cc |} in
  match filter (fun i => ai_airline i =? al_id a) (airline_info t) with
  | [] => [mk None]
  | infos => map (fun i => mk (ai_country_code i)) infos
  end.

(** [... WHERE a.airline_type = 2] *)
Definition select_bots (t : tables) : list bot_row :=
  flat_map (left_join_info t)
           (filter (fun a => al_airline_type a =? 2) (airline t)).

(** [... WHERE a.id = %s] *)
Definition select_bot (id : Z) (t : tables) : list bot_row :=
  flat_map (left_join_info t) (filter (fun a => al_id a =? id) (airline t)).

(** [SELECT MAX(cycle) as current_cycle FROM cycle]: one row, whose column
    is NULL when the table is empty. *)
Definition select_max_cycle (t : tables) : list (option Z) :=
  [match cycle t with
   | [] => None
   | c :: cs => Some (fold_left Z.max cs c)
   end].

(** [SELECT id, name, price FROM airplane_model WHERE price < 40000000
    ORDER BY price] *)
Definition select_cheap_models (t : tables) : list airplane_model_row :=
  order_by (fun x y => am_price x <=? am_price y)
           (filter (fun m => am_price m <? 40000000) (airplane_model t)).

Definition links_of (a : Z) (t : tables) : list Z :=
  map ln_id (filter (fun l => ln_airline l =? a) (link t)).

Definition airplanes_of (a : Z) (t : tables) : list Z :=
  map ap_id (filter (fun p => ap_owner p =? a) (airplane t)).

(** [DELETE FROM link_assignment WHERE link IN (SELECT id FROM link WHERE
    airline = %s)] *)
Definition delete_link_assignments (a : Z) (t : tables) : Z * tables :=
  let '(rest, n) :=
    delete_where (fun r => mem (la_link r) (links_of a t))
                 (link_assignment t) in
  (n, set_link_assignment rest t).

(** [DELETE FROM link_consumption WHERE link IN (SELECT id FROM link WHERE
    airline = %s)] *)
Definition delete_link_consumptions (a : Z) (t : tables) : Z * tables :=
  let '(rest, n) :=
    delete_where (fun r => mem (lc_link r) (links_of a t))
                 (link_consumption t) in
  (n, set_link_consumption rest t).

(** [DELETE FROM link WHERE airline = %s] *)
Definition delete_links (a : Z) (t : tables) : Z * tables :=
  let '(rest, n) := delete_where (fun l => ln_airline l =? a) (link t) in
  (n, set_link rest t).

(** [DELETE FROM airplane_configuration WHERE airplane IN (SELECT id FROM
    airplane WHERE owner = %s)] *)
Definition delete_airplane_configurations (a : Z) (t : tables)
  : Z * tables :=
  let '(rest, n) :=
    delete_where (fun r => mem (ac_airplane r) (airplanes_of a t))
                 (airplane_configuration t) in
  (n, set_airplane_configuration rest t).

(** [DELETE FROM airplane WHERE owner = %s] *)
Definition delete_airplanes (a : Z) (t : tables) : Z * tables :=
  let '(rest, n) := delete_where (fun p => ap_owner p =? a) (airplane t) in
  (n, set_airplane rest t).

(** [DELETE FROM airline_base WHERE airline = %s] *)
Definition delete_bases (a : Z) (t : tables) : Z * tables :=
  let '(rest, n) :=
    delete_where (fun b => ab_airline b =? a) (airline_base t) in
  (n, set_airline_base rest t).

(** [DELETE FROM airline_appeal WHERE airline = %s] *)
Definition delete_appeal (a : Z) (t : tables) : Z * tables :=
  let '(rest, n) :=
    delete_where (fun r => aa_airline r =? a) (airline_appeal t) in
  (n, set_airline_appeal rest t).

(** [UPDATE airline_info SET balance = '200000', reputation = 0,
    service_quality = 50.00 [, country_code = %s] WHERE airline = %s] *)
Definition reset_info (cc : option string) (i : airline_info_row)
  : airline_info_row :=
  {| ai_airline := ai_airline i; ai_balance := 200000;
     ai_service_quality := 50;
     ai_target_service_quality := ai_target_service_quality i;
     ai_reputation := 0;
     ai_country_code :=
       match cc with Some c => Some c | None => ai_country_code i end;
     ai_initialized := ai_initialized i |}.

Definition update_airline_info (a : Z) (cc : option string) (t : tables)
  : Z * tables :=
  (Z.of_nat (List.length (filter (fun i => ai_airline i =? a)
                                 (airline_info t))),
   set_airline_info
     (map (fun i => if ai_airline i =? a then reset_info cc i else i)
          (airline_info t)) t).

(** [ORDER BY airport_size DESC, population DESC] *)
Definition larger (x y : airport_row) : bool :=
  (apt_airport_size y <? apt_airport_size x) ||
  ((apt_airport_size y =? apt_airport_size x) &&
   (apt_population y <=? apt_population x)).

(** [SELECT id FROM airport WHERE country_code = %s ORDER BY airport_size
    DESC, population DESC LIMIT 1]; codes are compared as they are written,
    and of the airports that tie on both keys the first of the table is
    taken. *)
Definition select_largest_airport (cc : string) (t : tables)
  : list airport_row :=
  firstn 1 (order_by larger
              (filter (fun a => String.eqb (apt_country_code a) cc)
                      (airport t))).

(** [SELECT id, country_code FROM airport WHERE iata = %s] *)
Definition select_airport_by_iata (iata : string) (t : tables)
  : list airport_row :=
  filter (fun a => String.eqb (apt_iata a) iata) (airport t).

(** [INSERT INTO airline_base (airport, airline, scale, founded_cycle,
    headquarter, country) VALUES (%s, %s, 1, %s, 1, %s)] *)
Definition insert_base (airport airline founded_cycle : Z) (country : string)
  (t : tables) : tables :=
  set_airline_base
    (airline_base t ++
     [{| ab_airport := airport; ab_airline := airline; ab_scale := 1;
         ab_founded_cycle := founded_cycle; ab_headquarter := 1;
         ab_country := country |}]) t.

(** [INSERT INTO airplane (model, owner, constructed_cycle, purchased_cycle,
    airplane_condition, depreciation_rate, value, is_sold, dealer_ratio,
    home, purchase_rate, version)
    VALUES (%s, %s, %s, %s, 100.0, 0, %s, 0, 1.0, %s, 1.0, 0)] *)
Definition new_airplane (id model owner cycle value : Z) (home : option Z)
  : airplane_row :=
  {| ap_id := id; ap_model := model; ap_owner := owner;
     ap_constructed_cycle := cycle; ap_purchased_cycle := cycle;
     ap_airplane_condition := 100; ap_depreciation_rate := 0;
     ap_value := value; ap_is_sold := 0; ap_dealer_ratio := 1;
     ap_home := home; ap_purchase_rate := 1; ap_version := 0 |}.

Definition insert_airplane (model owner cycle value : Z) (home : option Z)
  (t : tables) (n : counters) : tables * counters :=
  (set_airplane
     (airplane t ++
      [new_airplane (next_airplane_id n) model owner cycle value home]) t,
   {| next_airline_id := next_airline_id n;
      next_airplane_id := next_airplane_id n + 1 |}).

(** [INSERT INTO airline (name, airline_type) VALUES (%s, 2)], and
    [cursor.lastrowid]. *)
Definition insert_airline (name : string) (t : tables) (n : counters)
  : Z * tables * counters :=
  (next_airline_id n,
   set_airline
     (airline t ++
      [{| al_id := next_airline_id n; al_name := name;
          al_airline_type := 2 |}]) t,
   {| next_airline_id := next_airline_id n + 1;
      next_airplane_id := next_airplane_id n |}).

(** [INSERT INTO airline_info (airline, balance, service_quality,
    target_service_quality, reputation, country_code, initialized)
    VALUES (%s, 200000, 50.00, 50, 0, %s, 1)] *)
Definition insert_airline_info (a : Z) (cc : string) (t : tables) : tables :=
  set_airline_info
    (airline_info t ++
     [{| ai_airline := a; ai_balance := 200000; ai_service_quality := 50;
         ai_target_service_quality := 50; ai_reputation := 0;
         ai_country_code := Some cc; ai_initialized := 1 |}]) t.

End Sql.

(** ** A connection, its cursor and the transaction *)

Module Conn.
Import Db Sql.

(** What the operations cannot control. [fault n s] tells whether the
    statement [s], sent as the [n]-th statement the server receives, fails:
    [Some msg] when [cursor.execute] or [conn.commit] raises an exception
    with [str(e) = msg] (a constraint violation, a lost connection, a lock
    wait timeout, ...), [None] when the statement runs. [draw n] is the
    [n]-th number the random generator yields. *)
Record env := {
  fault : nat -> stmt -> option string;
  draw : nat -> nat }.

(** The server as the process sees it: the committed tables, the
    AUTO_INCREMENT counters, the statements received so far, and the number
    of random draws made so far. *)
Record world := {
  w_tables : tables;
  w_counters : counters;
  w_log : list stmt;
  w_rng : nat }.

(** An open connection with [autocommit = False]: statements change [work];
    [commit] publishes it, [rollback] and [close] drop it. *)
Record conn := {
  committed : tables;
  work : tables;
  auto : counters;
  log : list stmt;
  rng : nat }.

(** The result of running Python code: a value, or an exception [e] with
    its [str(e)]. *)
Inductive outcome (A : Type) : Type :=
| Returned (a : A)
| Raised (msg : string).
Arguments Returned {A} a.
Arguments Raised {A} msg.

Definition M (A : Type) : Type := env -> conn -> outcome A * conn.

Definition ret {A} (a : A) : M A := fun _ c => (Returned a, c).

Definition bind {A B} (m : M A) (k : A -> M B) : M B :=
  fun e c =>
    match m e c with
    | (Returned a, c') => k a e c'
    | (Raised msg, c') => (Raised msg, c')
    end.

Declare Scope conn_scope.
Delimit Scope conn_scope with conn.
Notation "x <- m ;; k" := (bind m (fun x => k))
  (at level 61, m at next level, right associativity) : conn_scope.
Notation "m ;;; k" := (bind m (fun _ => k))
  (at level 61, right associativity) : conn_scope.
Local Open Scope conn_scope.

(** [cursor.execute(s)]: the statement reaches the server, and either fails
    or runs [run] on the transaction's tables. *)
Definition execute {A} (s : stmt)
  (run : tables -> counters -> A * tables * counters) : M A :=
  fun e c =>
    let c1 := {| committed := committed c; work := work c; auto := auto c;
                 log := log c ++ [s]; rng := rng c |} in
    match fault e (List.length (log c)) s with
    | Some msg => (Raised msg, c1)
    | None =>
        let '(a, t, n) := run (work c) (auto c) in
        (Returned a,
         {| committed := committed c; work := t; auto := n;
            log := log c ++ [s]; rng := rng c |})
    end.

(** A SELECT followed by [fetchall()]. *)
Definition fetchall {A} (s : stmt) (q : tables -> list A) : M (list A) :=
  execute s (fun t n => (q t, t, n)).

(** A SELECT followed by [fetchone()]. *)
Definition fetchone {A} (s : stmt) (q : tables -> list A) : M (option A) :=
  execute s (fun t n => (hd_error (q t), t, n)).

(** A DELETE or UPDATE; the value is [cursor.rowcount]. *)
Definition modify (s : stmt) (f : tables -> Z * tables) : M Z :=
  execute s (fun t n => let '(k, t') := f t in (k, t', n)).

(** [conn.commit()] *)
Definition commit : M unit :=
  fun e c =>
    let lg := log c ++ [Commit] in
    match fault e (List.length (log c)) Commit with
    | Some msg =>
        (Raised msg,
         {| committed := committed c; work := work c; auto := auto c;
            log := lg; rng := rng c |})
    | None =>
        (Returned tt,
         {| committed := work c; work := work c; auto := auto c;
            log := lg; rng := rng c |})
    end.

(** [conn.rollback()], inside [try: ... except: pass]. *)
Definition rollback (c : conn) : conn :=
  {| committed := committed c; work := committed c; auto := auto c;
     log := log c; rng := rng c |}.

(** [get_db_connection()] and [conn.close()]. *)
Definition connect (w : world) : conn :=
  {| committed := w_tables w; work := w_tables w; auto := w_counters w;
     log := w_log w; rng := w_rng w |}.

Definition close (c : conn) : world :=
  {| w_tables := committed c; w_counters := auto c; w_log := log c;
     w_rng := rng c |}.

(** [for x in l: ...] with the variables the body updates as [s]. *)
Fixpoint for_each {A S} (l : list A) (body : A -> S -> M S) (s : S) : M S :=
  match l with
  | [] => ret s
  | x :: l' => s' <- body x s ;; for_each l' body s'
  end.

(** Sampling without replacement: each draw picks a position among the
    elements not chosen yet. *)
Fixpoint pick {A} (draw : nat -> nat) (pos : nat) (pool : list A) (k : nat)
  : list A :=
  match k with
  | O => []
  | S k' =>
      let j := (draw pos mod List.length pool)%nat in
      match nth_error pool j with
      | Some x =>
          x :: pick draw (S pos) (firstn j pool ++ skipn (S j) pool) k'
      | None => []
      end
  end.

(** [random.sample(population, k)] for [k <= len(population)]. *)
Definition random_sample {A} (population : list A) (k : nat) : M (list A) :=
  fun e c =>
    (Returned (pick (draw e) (rng c) population k),
     {| committed := committed c; work := work c; auto := auto c;
        log := log c; rng := (rng c + k)%nat |}).

End Conn.

(** ** The lifecycle operations of [app.py] *)

Import Db Sql Conn.
Local Open Scope conn_scope.

(** What a route handler returns: the HTTP status and the JSON body
    ([bots_reset] and [airline_id] are the optional keys). *)
Record response := {
  status : Z;
  success : bool;
  message : string;
  bots_reset : option (list string);
  airline_id : option Z }.

Definition jsonify (st : Z) (ok : bool) (msg : string) : response :=
  {| status := st; success := ok; message := msg;
     bots_reset := None; airline_id := None |}.

(** A handler: [conn = get_db_connection()], then
    [try: body  except Exception as e: rollback; return 500
     finally: conn.close()]. *)
Definition handler (body : M response) (e : env) (w : world)
  : response * world :=
  match body e (connect w) with
  | (Returned r, c) => (r, close c)
  | (Raised msg, c) => (jsonify 500 false msg, close (rollback c))
  end.

(** The truth value of an optional string. *)
Definition str_true (o : option string) : bool :=
  match o with
  | Some s => negb (String.eqb s "")
  | None => false
  end.

(** The string, and the row id, that [if o:] lets through. *)
Definition given (o : option string) : option string :=
  if str_true o then o else None.

Definition given_id (o : option Z) : option Z :=
  match o with
  | Some z => if z =? 0 then None else Some z
  | None => None
  end.

Definition AIRLINE_COUNTRY_MAP : list (string * string) :=
  [ ("Aeroflot", "RU");
    ("Aeromexico", "MX");
    ("Aerom√©xico", "MX");
    ("Air Canada", "CA");
    ("Air China", "CN");
    ("Air France", "FR");
    ("Air India", "IN");
    ("American Airlines", "US");
    ("American Supersonic", "US");
    ("Capital Airways", "US");
    ("Egyptair", "EG");
    ("EuroWings", "DE");
    ("Garuda Indonesia", "ID");
    ("Japan Airlines", "JP");
    ("Kiwi Air", "NZ");
    ("LATAM Brasil", "BR");
    ("MediFlight", "US");
    ("Mineral Express", "US");
    ("Ocean Freight", "US");
    ("Pacific Island", "US");
    ("Petroleum Air", "US");
    ("Qantas", "AU");
    ("Scandinavian Airlines", "DK");
    ("TechConnect", "US");
    ("Turkish Airlines", "TR");
    ("Vietnam Airlines", "VN") ].

Definition get_country_for_airline (name : string) : option string :=
  option_map snd
    (find (fun entry => Py.contains (Py.lower (fst entry)) (Py.lower name))
          AIRLINE_COUNTRY_MAP).

(** [cycle_result['current_cycle'] if cycle_result and
    cycle_result['current_cycle'] else 0] *)
Definition current_cycle_of (cycle_result : option (option Z)) : Z :=
  match cycle_result with
  | Some (Some c) => if c =? 0 then 0 else c
  | _ => 0
  end.

(** The running totals of [reset_bots]. *)
Record totals := {
  routes_deleted : Z;
  aircraft_deleted : Z;
  bases_deleted : Z;
  aircraft_added : Z;
  hqs_created : Z }.

Definition reset_bots_message (bots : nat) (n : totals) : string :=
  ("Reset " ++ Py.str_of_int (Z.of_nat bots) ++ " bot airlines. Deleted "
   ++ Py.str_of_int (routes_deleted n) ++ " routes, "
   ++ Py.str_of_int (aircraft_deleted n) ++ " aircraft, "
   ++ Py.str_of_int (bases_deleted n) ++ " bases. Created "
   ++ Py.str_of_int (hqs_created n) ++ " HQs. Added "
   ++ Py.str_of_int (aircraft_added n)
   ++ " new aircraft. Balance reset to $200,000, reputation to 0.")%string.

(** The blocks that [reset_bots] and [reset_single_bot] share, each under
    the comment that heads it in the source. *)

(** "Delete link assignments first (foreign key)" to "Delete airline appeal
    (loyalty/awareness)": seven DELETEs; the rowcounts of the links, the
    airplanes and the bases are kept. *)
Definition delete_dependents (bot_id : Z) : M (Z * Z * Z) :=
  modify (DeleteLinkAssignments bot_id) (delete_link_assignments bot_id) ;;;
  modify (DeleteLinkConsumptions bot_id) (delete_link_consumptions bot_id) ;;;
  routes <- modify (DeleteLinks bot_id) (delete_links bot_id) ;;
  modify (DeleteAirplaneConfigurations bot_id)
         (delete_airplane_configurations bot_id) ;;;
  aircraft <- modify (DeleteAirplanes bot_id) (delete_airplanes bot_id) ;;
  bases <- modify (DeleteBases bot_id) (delete_bases bot_id) ;;
  modify (DeleteAppeal bot_id) (delete_appeal bot_id) ;;;
  ret (routes, aircraft, bases).

(** "Reset balance to 200,000, reputation to 0, and update country_code if
    we have one" *)
Definition reset_airline_info (bot_id : Z) (country_code : option string)
  : M Z :=
  modify (UpdateAirlineInfo bot_id (given country_code))
         (update_airline_info bot_id (given country_code)).

(** "Find the largest airport in the bot's country for HQ" *)
Definition find_hq_airport (country_code : option string) : M (option Z) :=
  match given country_code with
  | Some cc =>
      airport_result <-
        fetchone (SelectLargestAirport cc) (select_largest_airport cc) ;;
      ret (option_map apt_id airport_result)
  | None => ret None
  end.

Definition exec_insert_base (airport airline cycle : Z) (country : string)
  : M unit :=
  execute (InsertBase airport airline cycle country)
          (fun t c => (tt, insert_base airport airline cycle country t, c)).

(** "Create new HQ base at scale 1": [if hq_airport and country_code:];
    the value tells whether the INSERT was sent. *)
Definition create_hq_base (hq_airport : option Z)
  (country_code : option string) (bot_id current_cycle : Z) : M bool :=
  match given_id hq_airport, given country_code with
  | Some a, Some cc =>
      exec_insert_base a bot_id current_cycle cc ;;; ret true
  | _, _ => ret false
  end.

Definition exec_insert_airplane (model owner cycle value : Z)
  (home : option Z) : M unit :=
  execute (InsertAirplane model owner cycle value home)
          (fun t c =>
             let '(t', c') := insert_airplane model owner cycle value home t c
             in (tt, t', c')).

(** "Add 5 random cheap airplanes" (also in [create_bot]); [added] is
    [aircraft_added] before the block, the value is [aircraft_added] after
    it. *)
Definition add_cheap_airplanes (cheap_models : list airplane_model_row)
  (owner current_cycle : Z) (hq_airport : option Z) (added : Z) : M Z :=
  match cheap_models with
  | [] => ret added
  | _ :: _ =>
      selected_models <-
        random_sample cheap_models (Nat.min 5 (List.length cheap_models)) ;;
      for_each selected_models
        (fun model added =>
           exec_insert_airplane (am_id model) owner current_cycle
                                (am_price model) hq_airport ;;;
           ret (added + 1))
        added
  end.

(** [if not country_code: country_code = get_country_for_airline(bot_name)] *)
Definition infer_country (country_code : option string) (bot_name : string)
  : option string :=
  if negb (str_true country_code) then get_country_for_airline bot_name
  else country_code.

(** The body of [for bot in bots:] in [reset_bots]. *)
Definition reset_bots_step (current_cycle : Z)
  (cheap_models : list airplane_model_row) (bot : bot_row) (n : totals)
  : M totals :=
  let bot_id := b_id bot in
  let bot_name := b_name bot in
  let country_code := infer_country (b_country_code bot) bot_name in
  deleted <- delete_dependents bot_id ;;
  let '(routes, aircraft, bases) := deleted in
  reset_airline_info bot_id country_code ;;;
  hq_airport <- find_hq_airport country_code ;;
  created <- create_hq_base hq_airport country_code bot_id current_cycle ;;
  added <- add_cheap_airplanes cheap_models bot_id current_cycle hq_airport
                               (aircraft_added n) ;;
  ret {| routes_deleted := routes_deleted n + routes;
         aircraft_deleted := aircraft_deleted n + aircraft;
         bases_deleted := bases_deleted n + bases;
         aircraft_added := added;
         hqs_created := hqs_created n + (if created then 1 else 0) |}.

Definition reset_bots_body : M response :=
  bots <- fetchall SelectBots select_bots ;;
  match bots with
  | [] => ret (jsonify 200 true "No bot airlines found to reset")
  | _ :: _ =>
      let bot_names := map b_name bots in
      cycle_result <- fetchone SelectMaxCycle select_max_cycle ;;
      let current_cycle := current_cycle_of cycle_result in
      cheap_models <- fetchall SelectCheapModels select_cheap_models ;;
      n <- for_each bots (reset_bots_step current_cycle cheap_models)
             {| routes_deleted := 0; aircraft_deleted := 0;
                bases_deleted := 0; aircraft_added := 0;
                hqs_created := 0 |} ;;
      commit ;;;
      ret {| status := 200; success := true;
             message := reset_bots_message (List.length bots) n;
             bots_reset := Some bot_names; airline_id := None |}
  end.

(** [POST /api/admin/reset-bots] *)
Definition reset_bots : env -> world -> response * world :=
  handler reset_bots_body.

Definition reset_single_bot_message (name : string)
  (routes aircraft bases added : Z) : string :=
  ("Reset bot airline " ++ name ++ ". Deleted "
   ++ Py.str_of_int routes ++ " routes, "
   ++ Py.str_of_int aircraft ++ " aircraft, "
   ++ Py.str_of_int bases ++ " bases. Created new HQ. Added "
   ++ Py.str_of_int added
   ++ " new aircraft. Balance reset to $200,000, reputation to 0.")%string.

Definition reset_single_bot_body (bot_id : Z) : M response :=
  bot <- fetchone (SelectBot bot_id) (select_bot bot_id) ;;
  match bot with
  | None =>
      ret (jsonify 404 false
             ("Airline with ID " ++ Py.str_of_int bot_id ++ " not found")%string)
  | Some bot =>
      if negb (b_airline_type bot =? 2) then
        ret (jsonify 400 false
               ("Airline " ++ b_name bot ++ " is not a bot airline")%string)
      else
        let bot_name := b_name bot in
        let country_code := infer_country (b_country_code bot) bot_name in
        cycle_result <- fetchone SelectMaxCycle select_max_cycle ;;
        let current_cycle := current_cycle_of cycle_result in
        cheap_models <- fetchall SelectCheapModels select_cheap_models ;;
        deleted <- delete_dependents bot_id ;;
        let '(routes_deleted, aircraft_deleted, bases_deleted) := deleted in
        reset_airline_info bot_id country_code ;;;
        hq_airport <- find_hq_airport country_code ;;
        create_hq_base hq_airport country_code bot_id current_cycle ;;;
        aircraft_added <-
          add_cheap_airplanes cheap_models bot_id current_cycle hq_airport 0 ;;
        commit ;;;
        ret (jsonify 200 true
               (reset_single_bot_message (b_name bot) routes_deleted
                  aircraft_deleted bases_deleted aircraft_added))
  end.

(** [POST /api/admin/reset-bot/<int:bot_id>] *)
Definition reset_single_bot (bot_id : Z) : env -> world -> response * world :=
  handler (reset_single_bot_body bot_id).

(** The JSON body of a create request: an object whose values are strings,
    as the list of its members, each key once, or no body at all. What is
    stated about [create_bot] is stated for these requests. *)
Definition request_json := option (list (string * string)).

(** [data.get(key)] *)
Definition dict_get (data : list (string * string)) (key : string)
  : option string :=
  option_map snd (find (fun kv => String.eqb (fst kv) key) data).

Definition create_bot_message (name : string) (airline_id : Z)
  (country_code : string) (added : Z) : string :=
  ("Created bot airline " ++ String (ascii_of_nat 34) name
   ++ String (ascii_of_nat 34) " (ID: " ++ Py.str_of_int airline_id
   ++ ") with HQ in " ++ country_code ++ ". Added "
   ++ Py.str_of_int added ++ " aircraft.")%string.

Definition create_bot_body (body : request_json) : M response :=
  let data := match body with Some d => d | None => [] end in
  let name :=
    match dict_get data "name" with Some v => v | None => "New Bot Airline"
    end in
  let country_code :=
    match dict_get data "country_code" with Some v => v | None => "US" end in
  let airport_iata := dict_get data "airport_iata" in
  cycle_result <- fetchone SelectMaxCycle select_max_cycle ;;
  let current_cycle := current_cycle_of cycle_result in
  let create (hq_airport : Z) (country_code : string) : M response :=
    airline_id <-
      execute (InsertAirline name) (fun t c => insert_airline name t c) ;;
    execute (InsertAirlineInfo airline_id country_code)
            (fun t c => (tt, insert_airline_info airline_id country_code t, c))
    ;;;
    exec_insert_base hq_airport airline_id current_cycle country_code ;;;
    cheap_models <- fetchall SelectCheapModels select_cheap_models ;;
    aircraft_added <-
      add_cheap_airplanes cheap_models airline_id current_cycle
                          (Some hq_airport) 0 ;;
    commit ;;;
    ret {| status := 200; success := true;
           message := create_bot_message name airline_id country_code
                                         aircraft_added;
           bots_reset := None; airline_id := Some airline_id |} in
  match given airport_iata with
  | Some iata =>
      airport_result <-
        fetchone (SelectAirportByIata iata) (select_airport_by_iata iata) ;;
      match airport_result with
      | Some row => create (apt_id row) (apt_country_code row)
      | None =>
          ret (jsonify 404 false ("Airport " ++ iata ++ " not found")%string)
      end
  | None =>
      airport_result <-
        fetchone (SelectLargestAirport country_code)
                 (select_largest_airport country_code) ;;
      match airport_result with
      | Some row => create (apt_id row) country_code
      | None =>
          ret (jsonify 404 false
                 ("No airport found in country " ++ country_code)%string)
      end
  end.

(** [POST /api/admin/create-bot] *)
Definition create_bot (body : request_json) : env -> world -> response * world :=
  handler (create_bot_body body).

(** ** The game clock of [app.py] *)

(** The JSON object that [get_current_cycle] returns. *)
Record cycle_json := { cj_cycle : Z; cj_week : Z; cj_year : Z }.

(** [SELECT cycle FROM cycle LIMIT 1] *)
Definition select_cycle (t : tables) : list Z := firstn 1 (cycle t).

(** [GET /api/game/cycle]. The handler has no [except] clause: when its
    statement fails the exception leaves the handler; this is the answer
    when the statement runs. [%] and [//] round towards minus infinity, as
    [mod] and [/] on [Z] do. *)
Definition get_current_cycle (t : tables) : cycle_json :=
  let result := hd_error (select_cycle t) in
  let cycle := match result with Some c => c | None => 0 end in
  {| cj_cycle := cycle; cj_week := cycle mod 52 + 1;
     cj_year := cycle / 52 + 1 |}.

(** ** Sample data, used to run the operations *)

Module Sample.

Definition row (id : Z) : airline_info_row :=
  {| ai_airline := id; ai_balance := 7300000; ai_service_quality := 61;
     ai_target_service_quality := 60; ai_reputation := 44;
     ai_country_code := None; ai_initialized := 1 |}.

(** Three bots and a player. Bot 1 has a route, an airplane and a base; the
    bots store no country code: the name of bot 1 is in the country table,
    the names of bots 2 and 4 are not. *)
Definition t0 : tables := {|
  airline :=
    [ {| al_id := 1; al_name := "Air France Regional";
         al_airline_type := 2 |};
      {| al_id := 2; al_name := "Zeta Air"; al_airline_type := 2 |};
      {| al_id := 3; al_name := "A Player"; al_airline_type := 0 |};
      {| al_id := 4; al_name := "Omega Wings"; al_airline_type := 2 |} ];
  airline_info := [ row 1; row 2; row 3; row 4 ];
  airline_base :=
    [ {| ab_airport := 7; ab_airline := 1; ab_scale := 4;
         ab_founded_cycle := 1; ab_headquarter := 1; ab_country := "FR" |} ];
  airplane :=
    [ new_airplane 1 10 1 0 5 None; new_airplane 2 10 3 0 5 None ];
  airplane_configuration :=
    [ {| ac_airplane := 1; ac_configuration := 0 |};
      {| ac_airplane := 2; ac_configuration := 0 |} ];
  airplane_model :=
    [ {| am_id := 10; am_name := "Jumbo"; am_price := 50000000 |};
      {| am_id := 11; am_name := "Turboprop"; am_price := 3000000 |};
      {| am_id := 12; am_name := "Piston"; am_price := 2000000 |} ];
  link :=
    [ {| ln_id := 100; ln_airline := 1; ln_from_airport := 7;
         ln_to_airport := 8 |} ];
  link_assignment := [ {| la_link := 100; la_airplane := 1 |} ];
  link_consumption := [ {| lc_link := 100; lc_cycle := 3 |} ];
  airline_appeal := [ {| aa_airline := 1; aa_airport := 7 |} ];
  airport :=
    [ {| apt_id := 7; apt_iata := "ORY"; apt_country_code := "FR";
         apt_airport_size := 5; apt_population := 10 |};
      {| apt_id := 8; apt_iata := "LYS"; apt_country_code := "FR";
         apt_airport_size := 7; apt_population := 10 |};
      {| apt_id := 9; apt_iata := "CDG"; apt_country_code := "FR";
         apt_airport_size := 7; apt_population := 12 |};
      {| apt_id := 20; apt_iata := "JFK"; apt_country_code := "US";
         apt_airport_size := 8; apt_population := 20 |} ];
  cycle := [4; 9; 2] |}.

Definition w0 : world :=
  {| w_tables := t0;
     w_counters := {| next_airline_id := 5; next_airplane_id := 3 |};
     w_log := []; w_rng := 0 |}.

(** The same database without its airplane models. *)
Definition w_no_models : world :=
  {| w_tables :=
       {| airline := airline t0; airline_info := airline_info t0;
          airline_base := airline_base t0; airplane := airplane t0;
          airplane_configuration := airplane_configuration t0;
          airplane_model := []; link := link t0;
          link_assignment := link_assignment t0;
          link_consumption := link_consumption t0;
          airline_appeal := airline_appeal t0; airport := airport t0;
          cycle := cycle t0 |};
     w_counters := w_counters w0; w_log := []; w_rng := 0 |}.

(** No storage failure. *)
Definition e_ok : env :=
  {| fault := fun _ _ => None; draw := fun n => n |}.

(** The storage fails when bot [a]'s airplanes are deleted. *)
Definition e_fail (a : Z) : env :=
  {| fault := fun _ s =>
       match s with
       | DeleteAirplanes b => if b =? a then Some "Lock wait timeout exceeded"
                              else None
       | _ => None
       end;
     draw := fun n => n |}.

End Sample.

(** ** The vocabulary of the properties *)

(** *** The transaction discipline *)

(** [msg] is the message of a failure that the storage can answer with. *)
Definition storage_error (e : env) (msg : string) : Prop :=
  exists n s, fault e n s = Some msg.

(** [quiet m]: [m] never commits, and an exception it raises is a storage
    failure with that failure's message. *)
Definition quiet {A} (m : M A) : Prop :=
  forall e c o c', m e c = (o, c') ->
    committed c' = committed c /\
    match o with
    | Returned _ => True
    | Raised msg => storage_error e msg
    end.

(** [atomic refusal m]: when [m] stops, either it has returned a success
    response, or it has returned a response that [refusal] describes and
    nothing is committed, or it has raised a storage failure and nothing is
    committed. *)
Definition atomic (refusal : response -> Prop) (m : M response) : Prop :=
  forall e c o c', m e c = (o, c') ->
    match o with
    | Returned r =>
        success r = true \/ (committed c' = committed c /\ refusal r)
    | Raised msg => committed c' = committed c /\ storage_error e msg
    end.

(** *** The arguments of the classifier *)

(** A string argument is ASCII text. *)
Definition plain (v : Py.pyval) : bool :=
  match v with
  | Py.PyStr s => Py.ascii_text s
  | _ => true
  end.

(** [rejected v]: [v] is true and [float(v)] raises [ValueError] or
    [TypeError]: [v] is an object that is not a number, or ASCII text that
    is not a numeral. *)
Definition rejected (v : Py.pyval) : bool :=
  plain v &&
  match float_or_zero v with
  | Py.Raise Py.ValueError | Py.Raise Py.TypeError => true
  | _ => false
  end.

(** [converts v]: [float(v) if v else 0] gives a number. *)
Definition converts (v : Py.pyval) : bool :=
  match float_or_zero v with
  | Py.Ok _ => true
  | Py.Raise _ => false
  end.

(** [above v q]: the number that the [int] or the [Decimal] [v] denotes is
    greater than the whole number [q]; the comparison is on the number
    itself, not on its float. *)
Definition above (v : Py.pyval) (q : Z) : bool :=
  match v with
  | Py.PyInt z => q <? z
  | Py.PyDecimal neg c e =>
      let m := if neg then - Z.of_N c else Z.of_N c in
      if 0 <=? e then q <? m * 10 ^ e else q * 10 ^ (- e) <? m
  | _ => false
  end.

(** [overflows v]: [v] is an [int] too large for a float. *)
Definition overflows (v : Py.pyval) : bool :=
  match float_or_zero v with
  | Py.Raise Py.OverflowError => true
  | _ => false
  end.

(** *** The effect of the statements of an operation *)

(** The connection after the statements [s] that left the tables [t] and
    the counters [n]. *)
Definition after (c : conn) (s : list stmt) (t : tables) (n : counters)
  : conn :=
  {| committed := committed c; work := t; auto := n; log := log c ++ s;
     rng := rng c |}.

(** The seven DELETEs of [delete_dependents]. *)
Definition teardown (a : Z) (t : tables) : tables :=
  let t := snd (delete_link_assignments a t) in
  let t := snd (delete_link_consumptions a t) in
  let t := snd (delete_links a t) in
  let t := snd (delete_airplane_configurations a t) in
  let t := snd (delete_airplanes a t) in
  let t := snd (delete_bases a t) in
  snd (delete_appeal a t).

Definition teardown_log (a : Z) : list stmt :=
  [ DeleteLinkAssignments a; DeleteLinkConsumptions a; DeleteLinks a;
    DeleteAirplaneConfigurations a; DeleteAirplanes a; DeleteBases a;
    DeleteAppeal a ].

(** The INSERTs of the airplanes of [models], one after the other. *)
Fixpoint insert_fleet (models : list airplane_model_row)
  (owner cycle : Z) (home : option Z) (t : tables) (n : counters)
  : tables * counters :=
  match models with
  | [] => (t, n)
  | m :: models' =>
      let '(t', n') :=
        insert_airplane (am_id m) owner cycle (am_price m) home t n in
      insert_fleet models' owner cycle home t' n'
  end.

Definition fleet_log (models : list airplane_model_row) (owner cycle : Z)
  (home : option Z) : list stmt :=
  map (fun m => InsertAirplane (am_id m) owner cycle (am_price m) home)
      models.

(** The rows that [insert_fleet] appends, the first with id [start]. *)
Fixpoint fleet_rows (start : Z) (models : list airplane_model_row)
  (owner cycle : Z) (home : option Z) : list airplane_row :=
  match models with
  | [] => []
  | m :: models' =>
      new_airplane start (am_id m) owner cycle (am_price m) home
      :: fleet_rows (start + 1) models' owner cycle home
  end.

(** The models that [add_cheap_airplanes] draws. *)
Definition drawn_models (draw : nat -> nat) (pos : nat)
  (cheap_models : list airplane_model_row) : list airplane_model_row :=
  match cheap_models with
  | [] => []
  | _ :: _ => pick draw pos cheap_models
                   (Nat.min 5 (List.length cheap_models))
  end.

(** The airport id that [find_hq_airport] returns, and its statement. *)
Definition hq_airport_of (country_code : option string) (t : tables)
  : option Z :=
  match given country_code with
  | Some cc => option_map apt_id (hd_error (select_largest_airport cc t))
  | None => None
  end.

Definition hq_log (country_code : option string) : list stmt :=
  match given country_code with
  | Some cc => [SelectLargestAirport cc]
  | None => []
  end.

(** The tables that [create_hq_base] leaves, and its statement. *)
Definition base_tables (hq_airport : option Z) (country_code : option string)
  (a cycle : Z) (t : tables) : tables :=
  match given_id hq_airport, given country_code with
  | Some h, Some cc => insert_base h a cycle cc t
  | _, _ => t
  end.

Definition base_log (hq_airport : option Z) (country_code : option string)
  (a cycle : Z) : list stmt :=
  match given_id hq_airport, given country_code with
  | Some h, Some cc => [InsertBase h a cycle cc]
  | _, _ => []
  end.

(** The connection after [k] random draws. *)
Definition drew (c : conn) (k : nat) : conn :=
  {| committed := committed c; work := work c; auto := auto c;
     log := log c; rng := (rng c + k)%nat |}.

Definition draws (cheap_models : list airplane_model_row) : nat :=
  match cheap_models with
  | [] => 0%nat
  | _ :: _ => Nat.min 5 (List.length cheap_models)
  end.

(** The tables, and the statements, of a reset of bot [a], whose row of the
    first SELECT is [bot], that reaches its commit. *)
Definition reset_country (bot : bot_row) : option string :=
  infer_country (b_country_code bot) (b_name bot).

Definition reset_cycle (t : tables) : Z :=
  current_cycle_of (hd_error (select_max_cycle t)).

Definition reset_fleet (e : env) (w : world) : list airplane_model_row :=
  drawn_models (draw e) (w_rng w) (select_cheap_models (w_tables w)).

Definition reset_tables (a : Z) (bot : bot_row) (e : env) (w : world)
  : tables :=
  let t := w_tables w in
  let cc := reset_country bot in
  let hq := hq_airport_of cc t in
  let t1 := snd (update_airline_info a (given cc) (teardown a t)) in
  let t2 := base_tables hq cc a (reset_cycle t) t1 in
  fst (insert_fleet (reset_fleet e w) a (reset_cycle t) hq t2
                    (w_counters w)).

Definition reset_log (a : Z) (bot : bot_row) (e : env) (w : world)
  : list stmt :=
  let t := w_tables w in
  let cc := reset_country bot in
  let hq := hq_airport_of cc t in
  [SelectBot a; SelectMaxCycle; SelectCheapModels] ++ teardown_log a
  ++ [UpdateAirlineInfo a (given cc)] ++ hq_log cc
  ++ base_log hq cc a (reset_cycle t)
  ++ fleet_log (reset_fleet e w) a (reset_cycle t) hq ++ [Commit].

(** The request of a create as [create_bot] reads it: the JSON object, the
    name and the country code with their defaults. *)
Definition create_data (body : request_json) : list (string * string) :=
  match body with Some d => d | None => [] end.

Definition create_name (body : request_json) : string :=
  match dict_get (create_data body) "name" with
  | Some v => v
  | None => "New Bot Airline"
  end.

Definition create_country (body : request_json) : string :=
  match dict_get (create_data body) "country_code" with
  | Some v => v
  | None => "US"
  end.

(** The SELECT of "Find airport for HQ", and the [hq_airport] and
    [country_code] it gives, if it finds a row. *)
Definition home_query (body : request_json) : stmt :=
  match given (dict_get (create_data body) "airport_iata") with
  | Some iata => SelectAirportByIata iata
  | None => SelectLargestAirport (create_country body)
  end.

Definition create_home (body : request_json) (t : tables)
  : option (Z * string) :=
  match given (dict_get (create_data body) "airport_iata") with
  | Some iata =>
      option_map (fun row => (apt_id row, apt_country_code row))
                 (hd_error (select_airport_by_iata iata t))
  | None =>
      option_map (fun row => (apt_id row, create_country body))
                 (hd_error (select_largest_airport (create_country body) t))
  end.

(** The tables, and the statements, of a create with the home airport [hq]
    in the country [cc] that reaches its commit. *)
Definition create_tables (body : request_json) (hq : Z) (cc : string)
  (e : env) (w : world) : tables :=
  let t := w_tables w in
  let id := next_airline_id (w_counters w) in
  let t1 := snd (fst (insert_airline (create_name body) t (w_counters w))) in
  let n1 := snd (insert_airline (create_name body) t (w_counters w)) in
  let t2 := insert_airline_info id cc t1 in
  let t3 := insert_base hq id (reset_cycle t) cc t2 in
  fst (insert_fleet (reset_fleet e w) id (reset_cycle t) (Some hq) t3 n1).

Definition create_log (body : request_json) (hq : Z) (cc : string)
  (e : env) (w : world) : list stmt :=
  let t := w_tables w in
  let id := next_airline_id (w_counters w) in
  [SelectMaxCycle; home_query body; InsertAirline (create_name body);
   InsertAirlineInfo id cc; InsertBase hq id (reset_cycle t) cc;
   SelectCheapModels]
  ++ fleet_log (reset_fleet e w) id (reset_cycle t) (Some hq) ++ [Commit].

(** *** Runs without failures *)

(** No statement fails. *)
Definition no_faults (e : env) : Prop := forall n s, fault e n s = None.

(** [runs m]: without failures [m] returns a value; [succeeds m]: and the
    value is a success response. *)
Definition runs {A} (m : M A) : Prop :=
  forall e c, no_faults e -> exists a c', m e c = (Returned a, c').

Definition succeeds (m : M response) : Prop :=
  forall e c, no_faults e ->
    exists r c', m e c = (Returned r, c') /\ success r = true.

(** *** The state of a provisioned bot *)

(** The financial profile, the base and an airplane of a provisioned bot. *)
Definition profile_reset (i : airline_info_row) : Prop :=
  ai_balance i = 200000 /\ ai_reputation i = 0 /\ ai_service_quality i = 50.

Definition hq_base (b : airline_base_row) : Prop :=
  ab_headquarter b = 1 /\ ab_scale b = 1.

Definition fresh_asset (p : airplane_row) : Prop :=
  ap_airplane_condition p = 100 /\ ap_is_sold p = 0.

Definition profiles_of (a : Z) (t : tables) : list airline_info_row :=
  filter (fun i => ai_airline i =? a) (airline_info t).

Definition bases_of (a : Z) (t : tables) : list airline_base_row :=
  filter (fun b => ab_airline b =? a) (airline_base t).

Definition fleet_of (a : Z) (t : tables) : list airplane_row :=
  filter (fun p => ap_owner p =? a) (airplane t).

(** [provisioned a home t]: in [t] the profile of [a] has the starting
    balance, reputation 0 and the default service quality; [a] has exactly
    one base, a headquarters of scale 1, if [home] and no base otherwise;
    and [a] has at most 5 airplanes, all in condition 100 and not sold. *)
Definition provisioned (a : Z) (home : bool) (t : tables) : Prop :=
  Forall profile_reset (profiles_of a t) /\
  (if home then exists b, bases_of a t = [b] /\ hq_base b
   else bases_of a t = []) /\
  (List.length (fleet_of a t) <= 5)%nat /\
  Forall fresh_asset (fleet_of a t).

(** Whether the reset of a bot with the row [bot] finds a home airport. *)
Definition home_resolved (bot : bot_row) (t : tables) : bool :=
  match hq_airport_of (reset_country bot) t with
  | Some _ => true
  | None => false
  end.

(** [own_assignments a t]: the airplanes of [a] are assigned to routes of
    [a] only. *)
Definition own_assignments (a : Z) (t : tables) : bool :=
  forallb (fun r => implb (mem (la_airplane r) (airplanes_of a t))
                          (mem (la_link r) (links_of a t)))
          (link_assignment t).

(** Row ids start at 1. *)
Definition valid_airport_ids (t : tables) : bool :=
  forallb (fun p => negb (apt_id p =? 0)) (airport t).

(** No row refers to the airline id [a] yet. *)
Definition unused_airline_id (a : Z) (t : tables) : bool :=
  forallb (fun i => negb (ai_airline i =? a)) (airline_info t) &&
  forallb (fun b => negb (ab_airline b =? a)) (airline_base t) &&
  forallb (fun p => negb (ap_owner p =? a)) (airplane t).

(** *** The effect of the reset of one bot *)

(** The tables and counters after the teardown of bot [a], the UPDATE of
    its profile with the country [cc], the INSERT of its base and the
    INSERTs of the airplanes of the models [drawn], in the cycle [cy]. *)
Definition rebuild (a : Z) (cc : option string) (cy : Z)
  (drawn : list airplane_model_row) (t : tables) (n : counters)
  : tables * counters :=
  let hq := hq_airport_of cc t in
  let t1 := snd (update_airline_info a (given cc) (teardown a t)) in
  let t2 := base_tables hq cc a cy t1 in
  insert_fleet drawn a cy hq t2 n.

(** The loop of [reset_bots] over [bots], the first draw being draw [pos]. *)
Fixpoint batch (bots : list bot_row) (cy : Z)
  (pool : list airplane_model_row) (draw : nat -> nat) (pos : nat)
  (t : tables) (n : counters) : tables * counters :=
  match bots with
  | [] => (t, n)
  | bot :: bots' =>
      batch bots' cy pool draw (pos + draws pool)%nat
        (fst (rebuild (b_id bot) (reset_country bot) cy
                      (drawn_models draw pos pool) t n))
        (snd (rebuild (b_id bot) (reset_country bot) cy
                      (drawn_models draw pos pool) t n))
  end.

(** The rows of an airline in the tables keyed by airline. *)
Definition routes_of (a : Z) (t : tables) : list link_row :=
  filter (fun l => ln_airline l =? a) (link t).

Definition appeal_of (a : Z) (t : tables) : list airline_appeal_row :=
  filter (fun r => aa_airline r =? a) (airline_appeal t).

(** [same_rows a t t']: airline [a] has the same profile, bases, airplanes,
    routes and appeal records in [t'] as in [t]. *)
Definition same_rows (a : Z) (t t' : tables) : Prop :=
  profiles_of a t' = profiles_of a t /\
  bases_of a t' = bases_of a t /\
  fleet_of a t' = fleet_of a t /\
  routes_of a t' = routes_of a t /\
  appeal_of a t' = appeal_of a t.

(** [same_catalogs t t']: the airlines, the airports, the airplane models
    and the cycles are the same in [t'] as in [t]. *)
Definition same_catalogs (t t' : tables) : Prop :=
  airline t' = airline t /\ airport t' = airport t /\
  airplane_model t' = airplane_model t /\ cycle t' = cycle t.

(** Whether the row that [reset_single_bot] reads for [a] is that of a bot. *)
Definition is_bot (a : Z) (t : tables) : bool :=
  match hd_error (select_bot a t) with
  | Some bot => b_airline_type bot =? 2
  | None => false
  end.

(** *** The batch reset *)

(** The bots that [reset_bots] goes through. *)
Definition bot_ids (t : tables) : list Z := map b_id (select_bots t).

(** [wiped a t]: bot [a] is in the state in which a reset leaves it: no
    route and no appeal record, its profile at the starting values, at most
    one base, a headquarters of scale 1, and at most 5 airplanes, in
    condition 100 and not sold. *)
Definition wiped (a : Z) (t : tables) : Prop :=
  routes_of a t = [] /\ appeal_of a t = [] /\
  Forall profile_reset (profiles_of a t) /\
  (List.length (bases_of a t) <= 1)%nat /\ Forall hq_base (bases_of a t) /\
  (List.length (fleet_of a t) <= 5)%nat /\ Forall fresh_asset (fleet_of a t).

(** [balanced t t' n]: the totals [n] account for the rows that left and
    entered the tables between [t] and [t']. *)
Definition balanced (t t' : tables) (n0 n : totals) : Prop :=
  Z.of_nat (List.length (link t'))
  = Z.of_nat (List.length (link t))
    - (routes_deleted n - routes_deleted n0) /\
  Z.of_nat (List.length (airplane t'))
  = Z.of_nat (List.length (airplane t))
    - (aircraft_deleted n - aircraft_deleted n0)
    + (aircraft_added n - aircraft_added n0) /\
  Z.of_nat (List.length (airline_base t'))
  = Z.of_nat (List.length (airline_base t))
    - (bases_deleted n - bases_deleted n0)
    + (hqs_created n - hqs_created n0).

Definition no_totals : totals :=
  {| routes_deleted := 0; aircraft_deleted := 0; bases_deleted := 0;
     aircraft_added := 0; hqs_created := 0 |}.

(** ** The summary of the bots

    [get_bots_summary] only reads. Its queries are functions of the tables;
    an exception of the classifier is not caught and ends the request. *)

(** How the connector hands over a numeric column: an [int] for an integer
    column, a [decimal.Decimal] with the declared number of digits after the
    point for a DECIMAL column, a [float] for a DOUBLE column. *)
Inductive coltype : Type :=
| INTEGER
| DECIMAL (scale : N)
| DOUBLE.

Definition fetched (ty : coltype) (z : Z) : Py.pyval :=
  match ty with
  | INTEGER => Py.PyInt z
  | DECIMAL scale =>
      Py.PyDecimal (z <? 0) (Z.abs_N z * 10 ^ scale)%N (- Z.of_N scale)
  | DOUBLE => Py.PyFloat (Py.float_of_decimal (z <? 0) (Z.abs_N z) 0)
  end.

(** The types of the three columns of [airline_info] that the classifier
    reads. *)
Record schema := {
  balance_type : coltype;
  reputation_type : coltype;
  service_quality_type : coltype }.

Record stats_row := {
  s_id : Z; s_balance : Py.pyval; s_reputation : Py.pyval;
  s_service_quality : Py.pyval }.

(** [SELECT a.id, COALESCE(ai.balance, 0) as balance,
    COALESCE(ai.reputation, 0) as reputation,
    COALESCE(ai.service_quality, 0) as service_quality
    FROM airline a LEFT JOIN airline_info ai ON a.id = ai.airline]: an
    airline without a profile gives one row of zeros. *)
Definition left_join_stats (sc : schema) (t : tables) (a : airline_row)
  : list stats_row :=
  let mk b r s :=
    {| s_id := al_id a;
       s_balance := fetched (balance_type sc) b;
       s_reputation := fetched (reputation_type sc) r;
       s_service_quality := fetched (service_quality_type sc) s |} in
  match filter (fun i => ai_airline i =? al_id a) (airline_info t) with
  | [] => [mk 0 0 0]
  | infos =>
      map (fun i => mk (ai_balance i) (ai_reputation i)
                       (ai_service_quality i)) infos
  end.

(** [... WHERE a.airline_type = 2] *)
Definition select_bot_stats (sc : schema) (t : tables) : list stats_row :=
  flat_map (left_join_stats sc t)
           (filter (fun a => al_airline_type a =? 2) (airline t)).

(** [SELECT COUNT( * ) as total FROM airline WHERE airline_type = 2] *)
Definition count_bots (t : tables) : Z :=
  Z.of_nat (List.length (filter (fun a => al_airline_type a =? 2)
                                (airline t))).

(** [SELECT COUNT( * ) as total FROM link l JOIN airline a
    ON l.airline = a.id WHERE a.airline_type = 2] *)
Definition count_bot_routes (t : tables) : Z :=
  Z.of_nat (List.length
    (flat_map (fun l => filter (fun a => (ln_airline l =? al_id a) &&
                                         (al_airline_type a =? 2))
                               (airline t))
              (link t))).

(** [SELECT COUNT( * ) as total FROM airplane ap JOIN airline a
    ON ap.owner = a.id WHERE a.airline_type = 2 AND ap.is_sold = 0] *)
Definition count_bot_aircraft (t : tables) : Z :=
  Z.of_nat (List.length
    (flat_map (fun p => filter (fun a => (ap_owner p =? al_id a) &&
                                         (al_airline_type a =? 2) &&
                                         (ap_is_sold p =? 0))
                               (airline t))
              (airplane t))).

Definition same_personality (p q : personality) : bool :=
  match p, q with
  | PREMIUM, PREMIUM | BUDGET, BUDGET | CONSERVATIVE, CONSERVATIVE
  | AGGRESSIVE, AGGRESSIVE | REGIONAL, REGIONAL | BALANCED, BALANCED => true
  | _, _ => false
  end.

(** [personality_counts]: the dictionary has the six categories as its keys
    from the start. *)
Definition no_counts : personality -> Z := fun _ => 0.

(** [personality_counts[personality] += 1] *)
Definition count_one (p : personality) (personality_counts : personality -> Z)
  : personality -> Z :=
  fun q => if same_personality q p then personality_counts q + 1
           else personality_counts q.

(** [for bot in bots_data: ...] *)
Fixpoint count_personalities (bots_data : list stats_row)
  (personality_counts : personality -> Z) : Py.res (personality -> Z) :=
  match bots_data with
  | [] => Py.Ok personality_counts
  | bot :: rest =>
      match determine_personality (s_balance bot) (s_reputation bot)
                                  (s_service_quality bot) with
      | Py.Ok p => count_personalities rest (count_one p personality_counts)
      | Py.Raise e => Py.Raise e
      end
  end.

Record summary := {
  total_bots : Z;
  total_routes : Z;
  total_aircraft : Z;
  personality_distribution : personality -> Z }.

Definition get_bots_summary (sc : schema) (t : tables) : Py.res summary :=
  let total_bots := count_bots t in
  let total_routes := count_bot_routes t in
  let total_aircraft := count_bot_aircraft t in
  let bots_data := select_bot_stats sc t in
  match count_personalities bots_data no_counts with
  | Py.Ok personality_counts =>
      Py.Ok {| total_bots := total_bots; total_routes := total_routes;
               total_aircraft := total_aircraft;
               personality_distribution := personality_counts |}
  | Py.Raise e => Py.Raise e
  end.

(** [known sc]: the DECIMAL columns have at most 30 digits after the
    point. *)
Definition known_type (ty : coltype) : bool :=
  match ty with
  | DECIMAL scale => (scale <=? 30)%N
  | _ => true
  end.

Definition known (sc : schema) : bool :=
  known_type (balance_type sc) && known_type (reputation_type sc) &&
  known_type (service_quality_type sc).

(** One of the three columns is an integer column. *)
Definition has_integer (sc : schema) : Prop :=
  balance_type sc = INTEGER \/ reputation_type sc = INTEGER \/
  service_quality_type sc = INTEGER.

(** The bots counted, over all six categories. *)
Definition classified (counts : personality -> Z) : Z :=
  counts PREMIUM + counts BUDGET + counts CONSERVATIVE + counts AGGRESSIVE
  + counts REGIONAL + counts BALANCED.

(** A schema with an integer balance and two decimal columns with two digits
    after the point. *)
Definition game_schema : schema :=
  {| balance_type := INTEGER; reputation_type := DECIMAL 2;
     service_quality_type := DECIMAL 2 |}.

(** The sample with the clock at cycle [c]. *)
Definition at_cycle (c : Z) : tables :=
  {| airline := airline Sample.t0; airline_info := airline_info Sample.t0;
     airline_base := airline_base Sample.t0; airplane := airplane Sample.t0;
     airplane_configuration := airplane_configuration Sample.t0;
     airplane_model := airplane_model Sample.t0; link := link Sample.t0;
     link_assignment := link_assignment Sample.t0;
     link_consumption := link_consumption Sample.t0;
     airline_appeal := airline_appeal Sample.t0;
     airport := airport Sample.t0; cycle := [c] |}.

(** ** The alerts

    [get_alerts] compares three readings of [psutil] with its thresholds and
    tries to connect to the database. A reading is a float, or fails with an
    exception, which ends the request with status 500; a connection that
    fails is reported as an alert. Every alert takes the time of the clock
    when it is made: [now k] is the [k]-th reading of the clock. *)

Inductive reading : Type :=
| Measured (percent : float)
| Failed (error : string).

(** [f'{text}{percent}%'], where Python formats the float, or a plain
    text. *)
Inductive alert_text : Type :=
| Percent (text : string) (percent : float)
| Plain (text : string).

Record alert := {
  level : string;
  alert_message : alert_text;
  timestamp : string }.

Inductive alerts_response : Type :=
| Alerts (alerts : list alert)
| Error500 (error : string).

(** [alerts.append({'level': ..., 'message': ..., 'timestamp':
    datetime.now().isoformat()})] *)
Definition append_alert (now : nat -> string) (lvl : string)
  (msg : alert_text) (alerts : list alert) : list alert :=
  alerts ++ [{| level := lvl; alert_message := msg;
                timestamp := now (List.length alerts) |}].

(** [if percent > 90: ... elif percent > warn: ...], the form of the three
    usage checks. *)
Definition check_usage (now : nat -> string) (name : string) (warn : float)
  (percent : float) (alerts : list alert) : list alert :=
  if (90 <? percent)%float then
    append_alert now "critical"
      (Percent (name ++ " usage is critically high: ") percent) alerts
  else if (warn <? percent)%float then
    append_alert now "warning"
      (Percent (name ++ " usage is high: ") percent) alerts
  else alerts.

Definition get_alerts (cpu memory disk : reading) (db : option string)
  (now : nat -> string) : alerts_response :=
  let alerts := [] in
  match cpu with
  | Failed e => Error500 e
  | Measured cpu_percent =>
      let alerts := check_usage now "CPU" 75 cpu_percent alerts in
      match memory with
      | Failed e => Error500 e
      | Measured memory_percent =>
          let alerts := check_usage now "Memory" 75 memory_percent alerts in
          match disk with
          | Failed e => Error500 e
          | Measured disk_percent =>
              let alerts := check_usage now "Disk" 80 disk_percent alerts in
              let alerts :=
                match db with
                | Some e =>
                    append_alert now "critical"
                      (Plain ("Database connection failed: " ++ e)) alerts
                | None => alerts
                end in
              let alerts :=
                match alerts with
                | [] => append_alert now "info"
                          (Plain "All systems operational") alerts
                | _ => alerts
                end in
              Alerts alerts
          end
      end
  end.

(** A usage that is above neither threshold. *)
Definition calm (warn percent : float) : bool :=
  negb ((90 <? percent)%float || (warn <? percent)%float).

(** ** More sample data *)

Module Sample_one.

(** The sample with bot 1 as its only bot. *)
Definition w1 : world :=
  {| w_tables :=
       set_airline
         [ {| al_id := 1; al_name := "Air France Regional";
              al_airline_type := 2 |};
           {| al_id := 3; al_name := "A Player"; al_airline_type := 0 |} ]
         Sample.t0;
     w_counters := w_counters Sample.w0; w_log := []; w_rng := 0 |}.

Definition bot1 : bot_row :=
  {| b_id := 1; b_name := "Air France Regional"; b_airline_type := 2;
     b_country_code := None |}.

End Sample_one.

Module Sample_edge.

(** The sample without a financial profile for bot 2. *)
Definition w_no_profile : world :=
  {| w_tables :=
       set_airline_info [ Sample.row 1; Sample.row 3; Sample.row 4 ]
                        Sample.t0;
     w_counters := w_counters Sample.w0; w_log := []; w_rng := 0 |}.

(** The sample with a route 200 of the player, airline 3, that airplane 1,
    an airplane of bot 1, is assigned to. *)
Definition w_crossed : world :=
  {| w_tables :=
       set_link
         (link Sample.t0
          ++ [ {| ln_id := 200; ln_airline := 3; ln_from_airport := 8;
                  ln_to_airport := 9 |} ])
         (set_link_assignment
            (link_assignment Sample.t0
             ++ [ {| la_link := 200; la_airplane := 1 |} ])
            Sample.t0);
     w_counters := w_counters Sample.w0; w_log := []; w_rng := 0 |}.

End Sample_edge.

(** ** Running a computation: what a returned value tells *)

Section Monad_facts.

Context {A B : Type}.

Lemma bind_returned (m : M A) (k : A -> M B) e c b c' :
  bind m k e c = (Returned b, c') ->
  exists a c1, m e c = (Returned a, c1) /\ k a e c1 = (Returned b, c').
Proof.
  unfold bind. destruct (m e c) as [[a | msg] c1]; intros H.
  - exists a, c1. split; [reflexivity | exact H].
  - discriminate H.
Qed.

Lemma bind_raised (m : M A) (k : A -> M B) e c msg c' :
  bind m k e c = (Raised msg, c') ->
  m e c = (Raised msg, c') \/
  exists a c1, m e c = (Returned a, c1) /\ k a e c1 = (Raised msg, c').
Proof.
  unfold bind. destruct (m e c) as [[a | msg'] c1]; intros H.
  - right. exists a, c1. split; [reflexivity | exact H].
  - left. inversion H; subst. reflexivity.
Qed.

Lemma execute_returned (s : stmt) run e c (a : A) c' :
  execute s run e c = (Returned a, c') ->
  fault e (List.length (log c)) s = None /\
  run (work c) (auto c) = (a, work c', auto c') /\
  committed c' = committed c /\ log c' = log c ++ [s] /\ rng c' = rng c.
Proof.
  unfold execute. destruct (fault e (List.length (log c)) s); [discriminate|].
  destruct (run (work c) (auto c)) as [[a0 t] n]. intros H.
  inversion H; subst; simpl. auto.
Qed.

End Monad_facts.

Lemma quiet_ret {A} (a : A) : quiet (ret a).
Proof. intros e c o c' H. inversion H; subst. auto. Qed.

Lemma quiet_bind {A B} (m : M A) (k : A -> M B) :
  quiet m -> (forall a, quiet (k a)) -> quiet (bind m k).
Proof.
  intros Hm Hk e c o c' H. unfold bind in H.
  destruct (m e c) as [[a | msg] c1] eqn:E.
  - destruct (Hm _ _ _ _ E) as [E1 _].
    destruct (Hk a _ _ _ _ H) as [E2 Ho]. split; [congruence | exact Ho].
  - inversion H; subst. exact (Hm _ _ _ _ E).
Qed.

Lemma quiet_execute {A} s (run : tables -> counters -> A * tables * counters) :
  quiet (execute s run).
Proof.
  intros e c o c' H. unfold execute in H.
  destruct (fault e (List.length (log c)) s) as [msg|] eqn:F.
  - inversion H; subst; simpl. split; [reflexivity|].
    exists (List.length (log c)), s. exact F.
  - destruct (run (work c) (auto c)) as [[a t] n].
    inversion H; subst; simpl. auto.
Qed.

Lemma quiet_random_sample {A} (l : list A) k : quiet (random_sample l k).
Proof. intros e c o c' H. inversion H; subst; simpl. auto. Qed.

Lemma quiet_for_each {A S} (l : list A) (body : A -> S -> M S) :
  (forall x s, quiet (body x s)) -> forall s, quiet (for_each l body s).
Proof.
  intros Hb. induction l as [|x l IH]; intros s; simpl.
  - apply quiet_ret.
  - apply quiet_bind; [apply Hb | intros s'; apply IH].
Qed.

Lemma atomic_ret (P : response -> Prop) r :
  success r = true \/ P r -> atomic P (ret r).
Proof.
  intros Hr e c o c' H. inversion H; subst. destruct Hr; auto.
Qed.

Lemma atomic_bind {A} P (m : M A) (k : A -> M response) :
  quiet m -> (forall a, atomic P (k a)) -> atomic P (bind m k).
Proof.
  intros Hm Hk e c o c' H. unfold bind in H.
  destruct (m e c) as [[a | msg] c1] eqn:E.
  - destruct (Hm _ _ _ _ E) as [E1 _].
    specialize (Hk a _ _ _ _ H). destruct o as [r | msg].
    + destruct Hk as [Hs | [Hc Hp]];
        [left; exact Hs | right; split; [congruence | exact Hp]].
    + destruct Hk as [Hc Hs]. split; [congruence | exact Hs].
  - inversion H; subst. exact (Hm _ _ _ _ E).
Qed.

Lemma atomic_commit P r :
  success r = true -> atomic P (bind commit (fun _ => ret r)).
Proof.
  intros Hr e c o c' H. unfold bind, commit, ret in H.
  destruct (fault e (List.length (log c)) Commit) as [msg|] eqn:F;
    inversion H; subst; simpl.
  - split; [reflexivity|]. exists (List.length (log c)), Commit. exact F.
  - left. exact Hr.
Qed.

Create HintDb quiet.
#[local] Hint Resolve quiet_ret quiet_execute quiet_random_sample : quiet.

Ltac quiet_tac :=
  repeat first
    [ apply quiet_ret | apply quiet_execute | apply quiet_random_sample
    | apply quiet_bind; [| intros ?]
    | apply quiet_for_each; intros ? ?
    | match goal with
      | |- quiet (match ?x with _ => _ end) => destruct x
      | |- quiet (let '(_, _) := ?x in _) => destruct x
      end ].

Lemma quiet_delete_dependents a : quiet (delete_dependents a).
Proof. unfold delete_dependents, modify. quiet_tac. Qed.

Lemma quiet_reset_airline_info a cc : quiet (reset_airline_info a cc).
Proof. unfold reset_airline_info, modify. quiet_tac. Qed.

Lemma quiet_find_hq_airport cc : quiet (find_hq_airport cc).
Proof. unfold find_hq_airport, fetchone. quiet_tac. Qed.

Lemma quiet_create_hq_base hq cc a cy : quiet (create_hq_base hq cc a cy).
Proof. unfold create_hq_base, exec_insert_base. quiet_tac. Qed.

Lemma quiet_add_cheap_airplanes ms a cy hq n :
  quiet (add_cheap_airplanes ms a cy hq n).
Proof. unfold add_cheap_airplanes, exec_insert_airplane. quiet_tac. Qed.

#[local] Hint Resolve quiet_delete_dependents quiet_reset_airline_info
  quiet_find_hq_airport quiet_create_hq_base quiet_add_cheap_airplanes : quiet.

Lemma quiet_reset_bots_step cy ms bot n : quiet (reset_bots_step cy ms bot n).
Proof.
  unfold reset_bots_step.
  repeat first
    [ solve [auto with quiet]
    | apply quiet_bind; [| intros ?]
    | match goal with
      | |- quiet (let '(_, _) := ?x in _) => destruct x
      end ].
Qed.

Ltac atomic_tac :=
  repeat first
    [ apply atomic_ret; simpl; solve [auto]
    | apply atomic_commit; reflexivity
    | apply atomic_bind;
      [ first [ solve [auto with quiet]
              | unfold fetchone, fetchall; solve [auto with quiet] ]
      | intros ? ]
    | match goal with
      | |- atomic _ (match ?x with _ => _ end) => destruct x
      | |- atomic _ (if ?x then _ else _) => destruct x
      | |- atomic _ (let '(_, _) := ?x in _) => destruct x
      end ].

Lemma atomic_reset_single_bot_body a :
  atomic (fun r => status r = 404 \/ status r = 400)
         (reset_single_bot_body a).
Proof. unfold reset_single_bot_body. atomic_tac. Qed.

Lemma atomic_reset_bots_body : atomic (fun _ => False) reset_bots_body.
Proof.
  unfold reset_bots_body. apply atomic_bind.
  - unfold fetchall. auto with quiet.
  - intros bots. destruct bots as [|b bots];
      [apply atomic_ret; left; reflexivity|].
    apply atomic_bind; [unfold fetchone; auto with quiet | intros cy].
    apply atomic_bind; [unfold fetchall; auto with quiet | intros ms].
    apply atomic_bind.
    + apply quiet_for_each. intros x s. apply quiet_reset_bots_step.
    + intros n. apply atomic_commit. reflexivity.
Qed.

Lemma atomic_create_bot_body body :
  atomic (fun r => status r = 404) (create_bot_body body).
Proof.
  unfold create_bot_body, exec_insert_base. atomic_tac.
Qed.

(** A handler whose body is atomic leaves the committed tables as they were
    unless it answers with a success; its failure answers are the body's
    refusals, or status 500 with the message of a storage failure. *)
Lemma handler_atomic P (m : M response) e w :
  atomic P m ->
  success (fst (handler m e w)) = false ->
  w_tables (snd (handler m e w)) = w_tables w /\
  (P (fst (handler m e w)) \/
   exists msg, fst (handler m e w) = jsonify 500 false msg /\
               storage_error e msg).
Proof.
  intros Hm. unfold handler.
  destruct (m e (connect w)) as [[r | msg] c] eqn:E; simpl; intros Hs.
  - specialize (Hm _ _ _ _ E). simpl in Hm. destruct Hm as [Hm | [Hc Hp]].
    + congruence.
    + split; [exact Hc | left; exact Hp].
  - specialize (Hm _ _ _ _ E). simpl in Hm. destruct Hm as [Hc Hst].
    split; [exact Hc | right; exists msg; split; [reflexivity | exact Hst]].
Qed.

(** C2. If [reset_single_bot] fails, at whatever statement, the transaction
    is rolled back: the committed tables are exactly those before the
    request, and the answer is the error: status 500 with the storage
    failure's message (or one of the two refusals, 404 and 400, that precede
    the teardown). *)
Theorem reset_single_bot_all_or_nothing (bot_id : Z) (e : env) (w : world) :
  success (fst (reset_single_bot bot_id e w)) = false ->
  w_tables (snd (reset_single_bot bot_id e w)) = w_tables w /\
  ((status (fst (reset_single_bot bot_id e w)) = 404 \/
    status (fst (reset_single_bot bot_id e w)) = 400) \/
   exists msg,
     fst (reset_single_bot bot_id e w) = jsonify 500 false msg /\
     storage_error e msg).
Proof.
  intros H.
  exact (handler_atomic _ _ e w (atomic_reset_single_bot_body bot_id) H).
Qed.

(** The reset of bot 1 fails when its airplanes are deleted, after its
    routes and their dependents were: nothing of it is committed. *)
Lemma reset_single_bot_all_or_nothing_witness :
  success (fst (reset_single_bot 1 (Sample.e_fail 1) Sample.w0)) = false /\
  w_tables (snd (reset_single_bot 1 (Sample.e_fail 1) Sample.w0))
  = Sample.t0.
Proof.
  split; [reflexivity|].
  apply (reset_single_bot_all_or_nothing 1 (Sample.e_fail 1) Sample.w0).
  reflexivity.
Defined.

(** C1, as amended. [reset_bots] resets all bots in one transaction that is
    committed once, after the last bot: if the processing of any bot fails,
    nothing is committed, also not the bots processed before it, and the
    answer is one error (status 500 with the storage failure's message)
    without a list of bots. *)
Theorem reset_bots_all_or_nothing (e : env) (w : world) :
  success (fst (reset_bots e w)) = false ->
  w_tables (snd (reset_bots e w)) = w_tables w /\
  bots_reset (fst (reset_bots e w)) = None /\
  exists msg,
    fst (reset_bots e w) = jsonify 500 false msg /\ storage_error e msg.
Proof.
  intros H.
  destruct (handler_atomic _ _ e w atomic_reset_bots_body H)
    as [Ht [[] | (msg & Hr & Hm)]].
  split; [exact Ht|]. split.
  - unfold reset_bots. rewrite Hr. reflexivity.
  - exists msg. split; [exact Hr | exact Hm].
Qed.

Lemma reset_bots_all_or_nothing_witness :
  success (fst (reset_bots (Sample.e_fail 2) Sample.w0)) = false /\
  w_tables (snd (reset_bots (Sample.e_fail 2) Sample.w0)) = Sample.t0.
Proof.
  split; [reflexivity|].
  apply (reset_bots_all_or_nothing (Sample.e_fail 2) Sample.w0).
  reflexivity.
Defined.

(** C1 as stated fails. Of the bots 1, 2 and 4 the second meets a storage
    failure. Bot 1 had been processed in full (its new headquarters was
    inserted), yet nothing of it is committed: its route and its balance are
    those from before, whereas a reset of bot 1 alone removes the route; bot
    4 is never processed; the answer carries no list of bots. *)
Lemma reset_bots_not_partial :
  let r := reset_bots (Sample.e_fail 2) Sample.w0 in
  map b_id (select_bots Sample.t0) = [1; 2; 4] /\
  fst r = jsonify 500 false "Lock wait timeout exceeded" /\
  In (InsertBase 9 1 9 "FR") (w_log (snd r)) /\
  last (w_log (snd r)) Commit = DeleteAirplanes 2 /\
  w_tables (snd r) = Sample.t0 /\
  links_of 1 (w_tables (snd r)) = [100] /\
  map ai_balance (airline_info (w_tables (snd r)))
  = [7300000; 7300000; 7300000; 7300000] /\
  links_of 1 (w_tables (snd (reset_single_bot 1 (Sample.e_fail 2) Sample.w0)))
  = [].
Proof.
  vm_compute. repeat split; auto 20.
Qed.

(** ** The classifier *)

(** A float equal to zero is one of the two zeros. *)
Lemma float_zero_cases (f : float) :
  PrimFloat.eqb f 0 = true -> f = 0%float \/ f = (-0)%float.
Proof.
  intros H. rewrite eqb_spec in H.
  rewrite <- (SF2Prim_Prim2SF f).
  destruct (Prim2SF f) as [[|] | [|] | | sg m ex]; simpl in H;
    try discriminate H; try (left; reflexivity); try (right; reflexivity).
  destruct sg; discriminate H.
Qed.

Lemma classify_spec_personality_of (b r s : float) :
  classify_spec b r s = personality_of b r s.
Proof.
  unfold classify_spec, personality_of, find, rule_matches.
  destruct (70 <? s)%float; [reflexivity|].
  destruct ((b / 10000000 <? 2)%float && (r <? 30)%float);
    [reflexivity|].
  destruct (70 <? r)%float; [reflexivity|].
  destruct (10 <? b / 10000000)%float; [reflexivity|].
  destruct (s <? 40)%float; reflexivity.
Qed.

(** The classifier does not tell the two zeros apart. *)
Lemma personality_of_zero (z b r s : float) :
  z = 0%float \/ z = (-0)%float ->
  personality_of z r s = personality_of 0 r s /\
  personality_of b z s = personality_of b 0 s /\
  personality_of b r z = personality_of b r 0.
Proof.
  intros [-> | ->]; [repeat split|].
  unfold personality_of.
  change ((-0) / 10000000 <? 2)%float with true.
  change (0 / 10000000 <? 2)%float with true.
  change (10 <? (-0) / 10000000)%float with false.
  change (10 <? 0 / 10000000)%float with false.
  change (70 <? (-0))%float with false.
  change (70 <? 0)%float with false.
  change ((-0) <? 30)%float with true.
  change (0 <? 30)%float with true.
  change ((-0) <? 40)%float with true.
  change (0 <? 40)%float with true.
  repeat split.
Qed.

(** On a value that [float] accepts, [float(v) if v else 0] is [float(v)],
    up to the sign of a zero. *)
Lemma float_or_zero_numeric (v : Py.pyval) (f : float) :
  Py.float v = Py.Ok f ->
  float_or_zero v = Py.Ok f \/
  (float_or_zero v = Py.Ok 0%float /\ (f = 0%float \/ f = (-0)%float)).
Proof.
  unfold float_or_zero. destruct (Py.truthy v) eqn:T; [left; assumption|].
  intros H. right. split; [reflexivity|].
  destruct v as [| z | g | neg c ex | s | y m d]; simpl in *;
    try discriminate H.
  - apply negb_false_iff, Z.eqb_eq in T. subst z.
    vm_compute in H. inversion H. left; reflexivity.
  - inversion H; subst. apply float_zero_cases.
    apply negb_false_iff in T. exact T.
  - apply negb_false_iff, N.eqb_eq in T. subst c.
    inversion H. destruct neg; [right | left]; reflexivity.
  - apply negb_false_iff, String.eqb_eq in T. subst s.
    vm_compute in H. discriminate H.
Qed.

(** C4, as amended. On arguments that [float] converts (an [int] within the
    range of floats, a float, a Decimal, a numeral in ASCII text) the
    classifier returns the category of the first matching rule of the
    decision list PREMIUM, BUDGET, CONSERVATIVE, AGGRESSIVE, REGIONAL,
    BALANCED with the thresholds of the design document, the comparisons
    being made on the floats that [float] gives for the arguments; and the
    six test vectors get these six categories. *)
Theorem determine_personality_decision_list :
  (forall b r s fb fr fs,
     Py.float b = Py.Ok fb -> Py.float r = Py.Ok fr ->
     Py.float s = Py.Ok fs ->
     determine_personality b r s = Py.Ok (classify_spec fb fr fs)) /\
  determine_personality (Py.PyInt 0) (Py.PyInt 0) (Py.PyInt 80)
  = Py.Ok PREMIUM /\
  determine_personality (Py.PyInt 5000000) (Py.PyInt 10) (Py.PyInt 50)
  = Py.Ok BUDGET /\
  determine_personality (Py.PyInt 0) (Py.PyInt 80) (Py.PyInt 50)
  = Py.Ok CONSERVATIVE /\
  determine_personality (Py.PyInt 150000000) (Py.PyInt 50) (Py.PyInt 50)
  = Py.Ok AGGRESSIVE /\
  determine_personality (Py.PyInt 0) (Py.PyInt 50) (Py.PyInt 30)
  = Py.Ok REGIONAL /\
  determine_personality (Py.PyInt 0) (Py.PyInt 50) (Py.PyInt 50)
  = Py.Ok BALANCED.
Proof.
  split; [| repeat split].
  intros b r s fb fr fs Hb Hr Hs.
  rewrite classify_spec_personality_of.
  unfold determine_personality, convert_stats.
  destruct (float_or_zero_numeric _ _ Hb) as [-> | [-> Zb]];
  destruct (float_or_zero_numeric _ _ Hr) as [-> | [-> Zr]];
  destruct (float_or_zero_numeric _ _ Hs) as [-> | [-> Zs]];
  f_equal;
  repeat match goal with
  | Z : ?z = 0%float \/ ?z = (-0)%float |- _ =>
      let P := fresh in
      pose proof (personality_of_zero z) as P;
      specialize (fun b r s => P b r s Z); clear Z
  end;
  repeat match goal with
  | P : forall b r s : float, _ |- _ =>
      first [ rewrite <- (proj1 (P 0%float _ _))
            | rewrite <- (proj1 (proj2 (P _ 0%float _)))
            | rewrite <- (proj2 (proj2 (P _ _ 0%float))) ];
      clear P
  end; reflexivity.
Qed.

(** A Decimal balance, a float reputation and a string service quality. *)
Lemma determine_personality_decision_list_witness :
  determine_personality (Py.PyDecimal false 1234567 (-2)) (Py.PyFloat 12.5)
                        (Py.PyStr "45")
  = Py.Ok BUDGET.
Proof.
  exact (proj1 determine_personality_decision_list
           (Py.PyDecimal false 1234567 (-2)) (Py.PyFloat 12.5)
           (Py.PyStr "45") _ _ _ eq_refl eq_refl eq_refl).
Defined.

(** C4 as stated fails on two kinds of numbers. The service quality
    70.000000000000000001, a Decimal, is above 70, and the classifier does
    not say PREMIUM: its float is 70. And with the service quality 80 and
    the balance 2^1024, an [int] beyond the range of floats, the classifier
    returns no category: it raises [OverflowError]. *)
Lemma determine_personality_not_on_all_numbers :
  above (Py.PyDecimal false 70000000000000000001 (-18)) 70 = true /\
  determine_personality (Py.PyInt 0) (Py.PyInt 0)
                        (Py.PyDecimal false 70000000000000000001 (-18))
  = Py.Ok BUDGET /\
  above (Py.PyInt 80) 70 = true /\
  determine_personality (Py.PyInt (2 ^ 1024)) (Py.PyInt 0) (Py.PyInt 80)
  = Py.Raise Py.OverflowError.
Proof. vm_compute. repeat split. Qed.

Lemma float_or_zero_false (v : Py.pyval) :
  Py.truthy v = false -> float_or_zero v = float_or_zero (Py.PyInt 0).
Proof. unfold float_or_zero. intros ->. reflexivity. Qed.

(** C5, as amended. The classifier converts the balance, the reputation and
    the service quality, in this order. An argument that is missing or
    otherwise false ([None], an empty string, a zero) counts as zero by
    itself, the other two unchanged. The first argument that does not
    convert decides: when [float] rejects it, all three arguments are
    replaced by zero and the result is that of (0, 0, 0), BUDGET, whatever
    the arguments after it are; when it is an [int] beyond the range of
    floats, the classifier raises [OverflowError]. When all three convert,
    the classifier returns a category. *)
Theorem determine_personality_coercion (b r s : Py.pyval) :
  (Py.truthy b = false ->
   determine_personality b r s = determine_personality (Py.PyInt 0) r s) /\
  (Py.truthy r = false ->
   determine_personality b r s = determine_personality b (Py.PyInt 0) s) /\
  (Py.truthy s = false ->
   determine_personality b r s = determine_personality b r (Py.PyInt 0)) /\
  (rejected b = true \/
   (converts b = true /\ rejected r = true) \/
   (converts b = true /\ converts r = true /\ rejected s = true) ->
   determine_personality b r s = Py.Ok BUDGET /\
   determine_personality (Py.PyInt 0) (Py.PyInt 0) (Py.PyInt 0)
   = Py.Ok BUDGET) /\
  (overflows b = true \/
   (converts b = true /\ overflows r = true) \/
   (converts b = true /\ converts r = true /\ overflows s = true) ->
   determine_personality b r s = Py.Raise Py.OverflowError) /\
  (converts b = true -> converts r = true -> converts s = true ->
   exists p, determine_personality b r s = Py.Ok p).
Proof.
  split; [| split; [| split; [| split; [| split]]]].
  - intros H. unfold determine_personality, convert_stats.
    rewrite (float_or_zero_false _ H). reflexivity.
  - intros H. unfold determine_personality, convert_stats.
    rewrite (float_or_zero_false _ H). reflexivity.
  - intros H. unfold determine_personality, convert_stats.
    rewrite (float_or_zero_false _ H). reflexivity.
  - split; [| reflexivity]. revert H.
    unfold determine_personality, convert_stats, rejected, converts.
    destruct (float_or_zero b) as [fb | []];
      destruct (float_or_zero r) as [fr | []];
      destruct (float_or_zero s) as [fs | []];
      rewrite ?andb_false_r;
      intros [H | [[H1 H] | (H1 & H2 & H)]];
      try discriminate; reflexivity.
  - unfold determine_personality, convert_stats, overflows, converts.
    destruct (float_or_zero b) as [fb | []];
      destruct (float_or_zero r) as [fr | []];
      destruct (float_or_zero s) as [fs | []];
      intros [H | [[H1 H] | (H1 & H2 & H)]];
      try discriminate; reflexivity.
  - unfold determine_personality, convert_stats, converts.
    destruct (float_or_zero b) as [fb | eb]; [| discriminate].
    destruct (float_or_zero r) as [fr | er]; [| discriminate].
    destruct (float_or_zero s) as [fs | es]; [| discriminate].
    intros _ _ _. eexists. reflexivity.
Qed.

(** A balance of 5, no reputation, a text as the service quality: the 5 is
    dropped with the text. And a text in the balance decides before the
    [int] beyond the range of floats that comes after it. *)
Lemma determine_personality_coercion_witness :
  determine_personality (Py.PyInt 5) Py.PyNone (Py.PyStr "n/a")
  = Py.Ok BUDGET /\
  determine_personality (Py.PyStr "n/a") (Py.PyInt (2 ^ 1024)) (Py.PyInt 80)
  = Py.Ok BUDGET.
Proof.
  split.
  - apply (determine_personality_coercion (Py.PyInt 5) Py.PyNone
             (Py.PyStr "n/a")).
    right. right. repeat split.
  - apply (determine_personality_coercion (Py.PyStr "n/a")
             (Py.PyInt (2 ^ 1024)) (Py.PyInt 80)).
    left. reflexivity.
Defined.

(** C5 as stated fails: a balance that is not a number does not count as
    zero by itself. With reputation 80 and service quality 50 the triple
    with balance 0 is CONSERVATIVE, and with the text in its place the
    classifier says BUDGET. *)
Lemma determine_personality_not_individual :
  Py.float (Py.PyStr "abc") = Py.Raise Py.ValueError /\
  determine_personality (Py.PyStr "abc") (Py.PyInt 80) (Py.PyInt 50)
  = Py.Ok BUDGET /\
  determine_personality (Py.PyInt 0) (Py.PyInt 80) (Py.PyInt 50)
  = Py.Ok CONSERVATIVE.
Proof. repeat split. Qed.

(** White space around a numeral is stripped; a file separator (byte 28) is
    not white space for [float]. *)
Lemma float_strips_white_space :
  Py.float (Py.PyStr (String (ascii_of_nat 9) " 80 "))
  = Py.Ok 80%float /\
  Py.float (Py.PyStr (String (ascii_of_nat 28) "80"))
  = Py.Raise Py.ValueError.
Proof. vm_compute. repeat split. Qed.

(** An [int] beyond the range of floats is not caught. *)
Lemma determine_personality_overflow :
  determine_personality (Py.PyInt (2 ^ 1024)) (Py.PyInt 80) (Py.PyInt 50)
  = Py.Raise Py.OverflowError.
Proof. vm_compute. reflexivity. Qed.

(** ** What the statements of an operation that reaches its commit leave *)

Lemma after_nil c : after c [] (work c) (auto c) = c.
Proof. destruct c. unfold after. simpl. rewrite app_nil_r. reflexivity. Qed.

Lemma after_after c s1 t1 n1 s2 t2 n2 :
  after (after c s1 t1 n1) s2 t2 n2 = after c (s1 ++ s2) t2 n2.
Proof. unfold after. simpl. rewrite app_assoc. reflexivity. Qed.

Lemma ret_returned {A} (a b : A) e c c' :
  ret a e c = (Returned b, c') -> b = a /\ c' = c.
Proof. intros H. inversion H; subst. auto. Qed.

Lemma execute_after {A} s (run : tables -> counters -> A * tables * counters)
  e c a c' :
  execute s run e c = (Returned a, c') ->
  a = fst (fst (run (work c) (auto c))) /\
  c' = after c [s] (snd (fst (run (work c) (auto c))))
                   (snd (run (work c) (auto c))).
Proof.
  unfold execute, after.
  destruct (fault e (List.length (log c)) s); [discriminate|].
  destruct (run (work c) (auto c)) as [[a0 t] n]. intros H.
  inversion H; subst. auto.
Qed.

Lemma fetchone_after {A} s (q : tables -> list A) e c a c' :
  fetchone s q e c = (Returned a, c') ->
  a = hd_error (q (work c)) /\ c' = after c [s] (work c) (auto c).
Proof. intros H. apply execute_after in H. exact H. Qed.

Lemma fetchall_after {A} s (q : tables -> list A) e c a c' :
  fetchall s q e c = (Returned a, c') ->
  a = q (work c) /\ c' = after c [s] (work c) (auto c).
Proof. intros H. apply execute_after in H. exact H. Qed.

Lemma modify_after s f e c k c' :
  modify s f e c = (Returned k, c') ->
  k = fst (f (work c)) /\ c' = after c [s] (snd (f (work c))) (auto c).
Proof.
  intros H. apply execute_after in H. simpl in H.
  destruct (f (work c)) as [k0 t]. exact H.
Qed.

Lemma commit_after e c u c' :
  commit e c = (Returned u, c') ->
  c' = {| committed := work c; work := work c; auto := auto c;
          log := log c ++ [Commit]; rng := rng c |}.
Proof.
  unfold commit. destruct (fault e (List.length (log c)) Commit);
    [discriminate|].
  intros H. inversion H; subst. reflexivity.
Qed.

Lemma delete_dependents_after a e c x c' :
  delete_dependents a e c = (Returned x, c') ->
  x = (fst (delete_links a (work c)),
       fst (delete_airplanes a (work c)),
       fst (delete_bases a (work c))) /\
  c' = after c (teardown_log a) (teardown a (work c)) (auto c).
Proof.
  unfold delete_dependents. intros H.
  repeat match goal with
  | H : bind _ _ _ _ = (Returned _, _) |- _ =>
      apply bind_returned in H; destruct H as (? & ? & ? & H)
  | H : modify _ _ _ _ = (Returned _, _) |- _ =>
      apply modify_after in H; destruct H as [? ?]
  | H : ret _ _ _ = (Returned _, _) |- _ =>
      apply ret_returned in H; destruct H as [? ?]
  end.
  subst. rewrite !after_after. split; reflexivity.
Qed.

Lemma find_hq_airport_after cc e c hq c' :
  find_hq_airport cc e c = (Returned hq, c') ->
  hq = hq_airport_of cc (work c) /\
  c' = after c (hq_log cc) (work c) (auto c).
Proof.
  unfold find_hq_airport, hq_airport_of, hq_log.
  destruct (given cc) as [code|]; intros H.
  - apply bind_returned in H. destruct H as (r & c1 & H1 & H).
    apply fetchone_after in H1. destruct H1 as [-> ->].
    apply ret_returned in H. destruct H as [-> ->]. split; reflexivity.
  - apply ret_returned in H. destruct H as [-> ->].
    rewrite after_nil. split; reflexivity.
Qed.

Lemma exec_insert_base_after h a cy cc e c u c' :
  exec_insert_base h a cy cc e c = (Returned u, c') ->
  c' = after c [InsertBase h a cy cc] (insert_base h a cy cc (work c))
             (auto c).
Proof. intros H. apply execute_after in H. apply H. Qed.

Lemma create_hq_base_after hq cc a cy e c b c' :
  create_hq_base hq cc a cy e c = (Returned b, c') ->
  c' = after c (base_log hq cc a cy) (base_tables hq cc a cy (work c))
             (auto c).
Proof.
  unfold create_hq_base, base_log, base_tables.
  destruct (given_id hq) as [h|]; [destruct (given cc) as [code|] |];
    intros H.
  - apply bind_returned in H. destruct H as (u & c1 & H1 & H).
    apply exec_insert_base_after in H1. subst c1.
    apply ret_returned in H. destruct H as [_ ->]. reflexivity.
  - apply ret_returned in H. destruct H as [_ ->].
    rewrite after_nil. reflexivity.
  - apply ret_returned in H. destruct H as [_ ->].
    rewrite after_nil. reflexivity.
Qed.

Lemma insert_loop_after owner cy home models :
  forall added e c n c',
    for_each models
      (fun model added =>
         bind (exec_insert_airplane (am_id model) owner cy (am_price model)
                                    home)
              (fun _ => ret (added + 1)))
      added e c = (Returned n, c') ->
    n = added + Z.of_nat (List.length models) /\
    c' = after c (fleet_log models owner cy home)
               (fst (insert_fleet models owner cy home (work c) (auto c)))
               (snd (insert_fleet models owner cy home (work c) (auto c))).
Proof.
  induction models as [|m models IH]; intros added e c n c' H.
  - simpl for_each in H.
    apply ret_returned in H. destruct H as [-> ->]. simpl.
    rewrite after_nil. split; [lia | reflexivity].
  - simpl for_each in H.
    apply bind_returned in H. destruct H as (a1 & c1 & H1 & H).
    apply bind_returned in H1. destruct H1 as (u & c2 & H1 & H2).
    apply ret_returned in H2. destruct H2 as [-> ->].
    apply execute_after in H1. destruct H1 as [_ ->].
    apply IH in H. destruct H as [-> ->].
    split; [simpl List.length; lia|].
    rewrite after_after. reflexivity.
Qed.

Lemma add_cheap_airplanes_after ms owner cy home added e c n c' :
  add_cheap_airplanes ms owner cy home added e c = (Returned n, c') ->
  let drawn := drawn_models (draw e) (rng c) ms in
  n = added + Z.of_nat (List.length drawn) /\
  c' = after (drew c (draws ms)) (fleet_log drawn owner cy home)
         (fst (insert_fleet drawn owner cy home (work c) (auto c)))
         (snd (insert_fleet drawn owner cy home (work c) (auto c))).
Proof.
  unfold add_cheap_airplanes, drawn_models, draws.
  destruct ms as [|m ms]; intros H.
  - apply ret_returned in H. destruct H as [-> ->]. simpl.
    split; [lia|]. destruct c. unfold after, drew. simpl.
    rewrite app_nil_r, Nat.add_0_r. reflexivity.
  - apply bind_returned in H. destruct H as (sel & c1 & H1 & H).
    unfold random_sample in H1. inversion H1; subst sel c1; clear H1.
    apply insert_loop_after in H. exact H.
Qed.

Ltac run_step :=
  match goal with
  | H : bind _ _ _ _ = (Returned _, _) |- _ =>
      apply bind_returned in H; destruct H as (? & ? & ? & H);
      cbv beta in H
  | H : fetchone _ _ _ _ = (Returned _, _) |- _ =>
      apply fetchone_after in H; destruct H as [? ?]
  | H : fetchall _ _ _ _ = (Returned _, _) |- _ =>
      apply fetchall_after in H; destruct H as [? ?]
  | H : modify _ _ _ _ = (Returned _, _) |- _ =>
      apply modify_after in H; destruct H as [? ?]
  | H : reset_airline_info _ _ _ _ = (Returned _, _) |- _ =>
      apply modify_after in H; destruct H as [? ?]
  | H : delete_dependents _ _ _ = (Returned _, _) |- _ =>
      apply delete_dependents_after in H; destruct H as [? ?]
  | H : find_hq_airport _ _ _ = (Returned _, _) |- _ =>
      apply find_hq_airport_after in H; destruct H as [? ?]
  | H : create_hq_base _ _ _ _ _ _ = (Returned _, _) |- _ =>
      apply create_hq_base_after in H
  | H : exec_insert_base _ _ _ _ _ _ = (Returned _, _) |- _ =>
      apply exec_insert_base_after in H
  | H : add_cheap_airplanes _ _ _ _ _ _ _ = (Returned _, _) |- _ =>
      apply add_cheap_airplanes_after in H; cbv zeta in H;
      destruct H as [? ?]
  | H : execute _ _ _ _ = (Returned _, _) |- _ =>
      apply execute_after in H; destruct H as [? ?]
  | H : commit _ _ = (Returned _, _) |- _ => apply commit_after in H
  | H : ret _ _ _ = (Returned _, _) |- _ =>
      apply ret_returned in H; destruct H as [? ?]
  | H : (let '(_, _) := ?x in _) _ _ = (Returned _, _) |- _ =>
      destruct x
  end.

Lemma reset_single_bot_success (a : Z) (e : env) (w : world) :
  success (fst (reset_single_bot a e w)) = true ->
  exists bot,
    hd_error (select_bot a (w_tables w)) = Some bot /\
    b_airline_type bot = 2 /\
    w_tables (snd (reset_single_bot a e w)) = reset_tables a bot e w /\
    w_log (snd (reset_single_bot a e w)) = w_log w ++ reset_log a bot e w.
Proof.
  unfold reset_single_bot, handler.
  destruct (reset_single_bot_body a e (connect w)) as [[r | msg] c] eqn:E;
    simpl; [| discriminate].
  intros Hr. unfold reset_single_bot_body in E.
  run_step. run_step. subst.
  destruct (hd_error (select_bot a (work (connect w)))) as [bot|] eqn:Hb.
  2:{ run_step. subst. discriminate Hr. }
  destruct (b_airline_type bot =? 2) eqn:Ht; cbn [negb] in E.
  2:{ run_step. subst. discriminate Hr. }
  exists bot. split; [exact Hb|]. split; [apply Z.eqb_eq; exact Ht|].
  repeat run_step. subst. simpl.
  unfold reset_tables, reset_log. simpl.
  rewrite <- !app_assoc. split; reflexivity.
Qed.

(** [insert_fleet] appends [fleet_rows] to the airplanes and leaves the
    other tables alone. *)
Lemma insert_fleet_tables ms owner cy home :
  forall t n,
    let t' := fst (insert_fleet ms owner cy home t n) in
    airplane t' = airplane t
                  ++ fleet_rows (next_airplane_id n) ms owner cy home /\
    airline t' = airline t /\
    airline_info t' = airline_info t /\
    airline_base t' = airline_base t /\
    airplane_configuration t' = airplane_configuration t /\
    link t' = link t /\
    link_assignment t' = link_assignment t /\
    link_consumption t' = link_consumption t.
Proof.
  induction ms as [|m ms IH]; intros t n; simpl.
  - rewrite app_nil_r. repeat split.
  - specialize (IH
      (set_airplane
         (airplane t ++
          [new_airplane (next_airplane_id n) (am_id m) owner cy (am_price m)
                        home]) t)
      {| next_airline_id := next_airline_id n;
         next_airplane_id := next_airplane_id n + 1 |}).
    simpl in IH. destruct IH as (H1 & H2 & H3 & H4 & H5 & H6 & H7 & H8).
    rewrite H1, <- app_assoc. repeat split; assumption.
Qed.

Lemma fleet_rows_length start ms owner cy home :
  List.length (fleet_rows start ms owner cy home) = List.length ms.
Proof.
  revert start. induction ms as [|m ms IH]; intros start; simpl;
    [reflexivity | rewrite IH; reflexivity].
Qed.

Lemma fleet_rows_owned start ms owner cy home :
  filter (fun p => ap_owner p =? owner) (fleet_rows start ms owner cy home)
  = fleet_rows start ms owner cy home.
Proof.
  revert start. induction ms as [|m ms IH]; intros start; simpl;
    [reflexivity|].
  rewrite Z.eqb_refl, IH. reflexivity.
Qed.

(** Each new airplane is the airplane of the model at its position. *)
Lemma fleet_rows_models start ms owner cy home :
  Forall2
    (fun p m =>
       ap_model p = am_id m /\ ap_value p = am_price m /\
       ap_owner p = owner /\ ap_airplane_condition p = 100 /\
       ap_depreciation_rate p = 0 /\ ap_is_sold p = 0 /\
       ap_constructed_cycle p = cy /\ ap_purchased_cycle p = cy /\
       ap_home p = home)
    (fleet_rows start ms owner cy home) ms.
Proof.
  revert start. induction ms as [|m ms IH]; intros start; simpl;
    constructor; [repeat split | apply IH].
Qed.

(** Rows that a DELETE left are not found by its condition. *)
Lemma filter_deleted {A} (p : A -> bool) (l : list A) :
  filter p (filter (fun r => negb (p r)) l) = [].
Proof.
  induction l as [|x l IH]; simpl; [reflexivity|].
  destruct (p x) eqn:E; simpl; [exact IH | rewrite E; exact IH].
Qed.

(** *** The tables after a reset *)

Section Reset_tables.

Variables (a : Z) (bot : bot_row) (e : env) (w : world).

Let t := w_tables w.
Let cc := reset_country bot.
Let hq := hq_airport_of cc t.
Let cy := reset_cycle t.

Lemma reset_tables_airline_info :
  airline_info (reset_tables a bot e w)
  = map (fun i => if ai_airline i =? a then reset_info (given cc) i else i)
        (airline_info t).
Proof.
  unfold reset_tables.
  match goal with
  | |- airline_info (fst (insert_fleet ?ms ?o ?c ?h ?t0 ?n)) = _ =>
      destruct (insert_fleet_tables ms o c h t0 n)
        as (_ & _ & H & _)
  end.
  rewrite H. unfold base_tables.
  destruct (given_id _); [destruct (given _)|]; reflexivity.
Qed.

Lemma reset_tables_airline_base :
  airline_base (reset_tables a bot e w)
  = filter (fun b => negb (ab_airline b =? a)) (airline_base t)
    ++ match given_id hq, given cc with
       | Some h, Some c =>
           [{| ab_airport := h; ab_airline := a; ab_scale := 1;
               ab_founded_cycle := cy; ab_headquarter := 1;
               ab_country := c |}]
       | _, _ => []
       end.
Proof.
  unfold reset_tables.
  match goal with
  | |- airline_base (fst (insert_fleet ?ms ?o ?c ?h ?t0 ?n)) = _ =>
      destruct (insert_fleet_tables ms o c h t0 n)
        as (_ & _ & _ & H & _)
  end.
  rewrite H. unfold base_tables. fold t cc hq cy.
  destruct (given_id hq); [destruct (given cc)|]; simpl;
    rewrite ?app_nil_r; reflexivity.
Qed.

Lemma reset_tables_airplane :
  airplane (reset_tables a bot e w)
  = filter (fun p => negb (ap_owner p =? a)) (airplane t)
    ++ fleet_rows (next_airplane_id (w_counters w)) (reset_fleet e w) a cy hq.
Proof.
  unfold reset_tables.
  match goal with
  | |- airplane (fst (insert_fleet ?ms ?o ?c ?h ?t0 ?n)) = _ =>
      destruct (insert_fleet_tables ms o c h t0 n) as (H & _)
  end.
  rewrite H. unfold base_tables. fold t cc hq cy.
  destruct (given_id hq); [destruct (given cc)|]; reflexivity.
Qed.

Lemma reset_tables_dependents :
  link (reset_tables a bot e w)
  = filter (fun l => negb (ln_airline l =? a)) (link t) /\
  link_assignment (reset_tables a bot e w)
  = filter (fun r => negb (mem (la_link r) (links_of a t)))
           (link_assignment t) /\
  link_consumption (reset_tables a bot e w)
  = filter (fun r => negb (mem (lc_link r) (links_of a t)))
           (link_consumption t) /\
  airplane_configuration (reset_tables a bot e w)
  = filter (fun r => negb (mem (ac_airplane r) (airplanes_of a t)))
           (airplane_configuration t).
Proof.
  unfold reset_tables.
  match goal with
  | |- link (fst (insert_fleet ?ms ?o ?c ?h ?t0 ?n)) = _ /\ _ =>
      destruct (insert_fleet_tables ms o c h t0 n)
        as (_ & _ & _ & _ & H1 & H2 & H3 & H4)
  end.
  rewrite H1, H2, H3, H4. unfold base_tables. fold t cc hq cy.
  destruct (given_id hq); [destruct (given cc)|]; repeat split.
Qed.

End Reset_tables.

(** *** The tables after a create *)

Lemma create_bot_success (body : request_json) (e : env) (w : world) :
  success (fst (create_bot body e w)) = true ->
  exists hq cc,
    create_home body (w_tables w) = Some (hq, cc) /\
    airline_id (fst (create_bot body e w))
    = Some (next_airline_id (w_counters w)) /\
    w_tables (snd (create_bot body e w)) = create_tables body hq cc e w /\
    w_log (snd (create_bot body e w)) = w_log w ++ create_log body hq cc e w.
Proof.
  unfold create_bot, handler.
  destruct (create_bot_body body e (connect w)) as [[r | msg] c] eqn:E;
    simpl; [| discriminate].
  intros Hr. unfold create_bot_body in E. fold (create_data body) in E.
  unfold create_home, create_log, home_query.
  run_step. run_step. subst.
  destruct (given (dict_get (create_data body) "airport_iata")) as [iata|].
  - run_step. run_step. subst. cbn [work after connect] in E.
    destruct (hd_error (select_airport_by_iata iata (w_tables w)))
      as [row|].
    2:{ run_step. subst. discriminate Hr. }
    exists (apt_id row), (apt_country_code row).
    split; [reflexivity|].
    repeat run_step. subst. simpl.
    unfold create_tables, create_log. simpl.
    rewrite <- !app_assoc. repeat split; reflexivity.
  - run_step. run_step. subst. cbn [work after connect] in E.
    fold (create_country body) in E |- *.
    destruct (hd_error (select_largest_airport (create_country body)
                                               (w_tables w))) as [row|].
    2:{ run_step. subst. discriminate Hr. }
    exists (apt_id row), (create_country body).
    split; [reflexivity|].
    repeat run_step. subst. simpl.
    unfold create_tables, create_log. simpl.
    rewrite <- !app_assoc. repeat split; reflexivity.
Qed.

(** ** Sorting and sampling *)

Lemma insert_by_perm {A} (before : A -> A -> bool) x l :
  Permutation (insert_by before x l) (x :: l).
Proof.
  induction l as [|y l IH]; simpl; [apply Permutation_refl|].
  destruct (before x y); [apply Permutation_refl|].
  apply perm_trans with (y :: x :: l);
    [apply perm_skip; exact IH | apply perm_swap].
Qed.

Lemma order_by_perm {A} (before : A -> A -> bool) l :
  Permutation (order_by before l) l.
Proof.
  induction l as [|x l IH]; simpl; [apply perm_nil|].
  apply perm_trans with (x :: order_by before l);
    [apply insert_by_perm | apply perm_skip; exact IH].
Qed.

Section Order.

Context {A : Type} (before : A -> A -> bool).
Hypothesis before_total : forall x y, before x y = true \/ before y x = true.
Hypothesis before_trans :
  forall x y z, before x y = true -> before y z = true -> before x z = true.

Lemma insert_by_sorted x l :
  StronglySorted (fun u v => before u v = true) l ->
  StronglySorted (fun u v => before u v = true) (insert_by before x l).
Proof.
  induction 1 as [|y l Hs IH Hy]; simpl.
  - constructor; constructor.
  - destruct (before x y) eqn:E.
    + constructor; [constructor; assumption|].
      constructor; [exact E|].
      rewrite Forall_forall in Hy |- *. intros z Hz.
      apply before_trans with y; [exact E | apply Hy; exact Hz].
    + constructor; [exact IH|].
      assert (Hyx : before y x = true).
      { destruct (before_total x y) as [H | H]; [congruence | exact H]. }
      rewrite Forall_forall in Hy |- *. intros z Hz.
      apply (Permutation_in _ (insert_by_perm before x l)) in Hz.
      destruct Hz as [<- | Hz]; [exact Hyx | apply Hy; exact Hz].
Qed.

Lemma order_by_sorted l :
  StronglySorted (fun u v => before u v = true) (order_by before l).
Proof.
  induction l as [|x l IH]; simpl; [constructor|].
  apply insert_by_sorted. exact IH.
Qed.

(** The first row of an ordered result precedes every row of the table. *)
Lemma order_by_first l x :
  hd_error (order_by before l) = Some x ->
  In x l /\ forall y, In y l -> before x y = true.
Proof.
  intros H. pose proof (order_by_sorted l) as Hs.
  pose proof (order_by_perm before l) as Hp.
  destruct (order_by before l) as [|h rest]; [discriminate|].
  inversion H; subst h. split.
  - apply (Permutation_in _ Hp). left; reflexivity.
  - intros y Hy. apply (Permutation_in _ (Permutation_sym Hp)) in Hy.
    destruct Hy as [<- | Hy].
    + destruct (before_total x x); assumption.
    + inversion Hs as [|? ? _ Hall]; subst.
      rewrite Forall_forall in Hall. apply Hall. exact Hy.
Qed.

End Order.

Lemma larger_total x y : larger x y = true \/ larger y x = true.
Proof. unfold larger. lia. Qed.

Lemma larger_trans x y z :
  larger x y = true -> larger y z = true -> larger x z = true.
Proof. unfold larger. lia. Qed.

(** The candidate pool: the models under the price ceiling, cheapest
    first. *)
Lemma select_cheap_models_pool (t : tables) :
  Permutation (select_cheap_models t)
              (filter (fun m => am_price m <? 40000000) (airplane_model t)) /\
  StronglySorted (fun x y => am_price x <= am_price y)
                 (select_cheap_models t).
Proof.
  unfold select_cheap_models. split; [apply order_by_perm|].
  eapply StronglySorted_ind with
    (P := StronglySorted (fun x y => am_price x <= am_price y)).
  - constructor.
  - intros x l _ IH Hx. constructor; [exact IH|].
    rewrite Forall_forall in Hx |- *. intros y Hy.
    apply Z.leb_le. exact (Hx y Hy).
  - apply order_by_sorted.
    + intros x y. lia.
    + intros x y z. lia.
Qed.

(** The airport of the HQ: of its country, and no airport of the country
    has a larger size, or the same size and a larger population. *)
Lemma select_largest_airport_best (cc : string) (t : tables) row :
  hd_error (select_largest_airport cc t) = Some row ->
  In row (airport t) /\ apt_country_code row = cc /\
  forall other,
    In other (airport t) -> apt_country_code other = cc ->
    apt_airport_size other < apt_airport_size row \/
    (apt_airport_size other = apt_airport_size row /\
     apt_population other <= apt_population row).
Proof.
  unfold select_largest_airport. intros H.
  assert (H' : hd_error (order_by larger
                 (filter (fun a => String.eqb (apt_country_code a) cc)
                         (airport t))) = Some row).
  { destruct (order_by larger _); [discriminate | exact H]. }
  apply (order_by_first larger larger_total larger_trans) in H'.
  destruct H' as [Hin Hbest]. apply filter_In in Hin.
  destruct Hin as [Hin Hcc]. apply String.eqb_eq in Hcc.
  split; [exact Hin|]. split; [exact Hcc|].
  intros other Ho Hc.
  assert (Hl : larger row other = true).
  { apply Hbest. apply filter_In. split; [exact Ho|].
    apply String.eqb_eq. exact Hc. }
  unfold larger in Hl. lia.
Qed.

Lemma remove_nth_perm {A} (l : list A) :
  forall j x, nth_error l j = Some x ->
    Permutation (x :: firstn j l ++ skipn (S j) l) l.
Proof.
  induction l as [|y l IH]; intros [|j] x H; simpl in *;
    try discriminate H.
  - inversion H; subst. apply Permutation_refl.
  - apply perm_trans with (y :: x :: firstn j l ++ skipn (S j) l);
      [apply perm_swap | apply perm_skip; apply IH; exact H].
Qed.

(** Sampling draws without replacement: the sample and what is left make
    up the population. *)
Lemma pick_perm {A} (draw : nat -> nat) (k : nat) :
  forall pos (pool : list A),
  exists rest, Permutation (pick draw pos pool k ++ rest) pool.
Proof.
  induction k as [|k IH]; intros pos pool; simpl.
  - exists pool. apply Permutation_refl.
  - destruct (nth_error pool (draw pos mod List.length pool)) as [x|] eqn:E.
    + destruct (IH (S pos)
                   (firstn (draw pos mod List.length pool) pool
                    ++ skipn (S (draw pos mod List.length pool)) pool))
        as [rest Hrest].
      exists rest. simpl.
      apply perm_trans with (2 := remove_nth_perm pool _ x E).
      apply perm_skip. exact Hrest.
    + exists pool. apply Permutation_refl.
Qed.

Lemma pick_length {A} (draw : nat -> nat) (k : nat) :
  forall pos (pool : list A),
    (k <= List.length pool)%nat ->
    List.length (pick draw pos pool k) = k.
Proof.
  induction k as [|k IH]; intros pos pool Hk; simpl; [reflexivity|].
  assert (Hj : (draw pos mod List.length pool < List.length pool)%nat).
  { apply Nat.mod_upper_bound. lia. }
  destruct (nth_error pool (draw pos mod List.length pool)) as [x|] eqn:E.
  - simpl. f_equal. apply IH.
    pose proof (Permutation_length (remove_nth_perm pool _ x E)) as Hl.
    simpl in Hl. lia.
  - apply nth_error_None in E. lia.
Qed.

Lemma pick_ext {A} (d1 d2 : nat -> nat) (k : nat) :
  forall pos (pool : list A),
    (forall n, (pos <= n)%nat -> d1 n = d2 n) ->
    pick d1 pos pool k = pick d2 pos pool k.
Proof.
  induction k as [|k IH]; intros pos pool H; simpl; [reflexivity|].
  rewrite (H pos (Nat.le_refl pos)).
  destruct (nth_error pool (d2 pos mod List.length pool)); [| reflexivity].
  f_equal. apply IH. intros n Hn. apply H. lia.
Qed.

(** And every selection without replacement is the sample of some
    sequence of draws. *)
Lemma pick_any {A} (sel : list A) :
  forall pos (pool rest : list A),
    Permutation (sel ++ rest) pool ->
    exists draw, pick draw pos pool (List.length sel) = sel.
Proof.
  induction sel as [|x sel IH]; intros pos pool rest Hp; simpl.
  - exists (fun _ => 0%nat). reflexivity.
  - assert (Hin : In x pool).
    { apply (Permutation_in _ Hp). left; reflexivity. }
    apply In_nth_error in Hin. destruct Hin as [j Hj].
    assert (Hlt : (j < List.length pool)%nat).
    { apply nth_error_Some. congruence. }
    pose proof (remove_nth_perm pool j x Hj) as Hrem.
    assert (Hp' : Permutation (sel ++ rest)
                    (firstn j pool ++ skipn (S j) pool)).
    { apply Permutation_cons_inv with x.
      apply perm_trans with pool; [exact Hp | apply Permutation_sym, Hrem]. }
    destruct (IH (S pos) _ rest Hp') as [draw' Hd].
    exists (fun n => if (n =? pos)%nat then j else draw' n).
    rewrite Nat.eqb_refl, (Nat.mod_small _ _ Hlt), Hj. f_equal.
    etransitivity; [| exact Hd]. apply pick_ext. intros n Hn.
    destruct (n =? pos)%nat eqn:E; [| reflexivity].
    apply Nat.eqb_eq in E. lia.
Qed.

Lemma drawn_models_sample (draw : nat -> nat) (pos : nat)
  (pool : list airplane_model_row) :
  List.length (drawn_models draw pos pool)
  = Nat.min 5 (List.length pool) /\
  exists rest, Permutation (drawn_models draw pos pool ++ rest) pool.
Proof.
  unfold drawn_models. destruct pool as [|m pool].
  - split; [reflexivity|]. exists []. apply perm_nil.
  - split; [apply pick_length; apply Nat.le_min_r | apply pick_perm].
Qed.

(** ** Without storage failures the operations run to their end *)

Lemma runs_ret {A} (a : A) : runs (ret a).
Proof. intros e c _. exists a, c. reflexivity. Qed.

Lemma runs_bind {A B} (m : M A) (k : A -> M B) :
  runs m -> (forall a, runs (k a)) -> runs (bind m k).
Proof.
  intros Hm Hk e c He. destruct (Hm e c He) as (a & c1 & E).
  unfold bind. rewrite E. apply Hk. exact He.
Qed.

Lemma runs_execute {A} s (run : tables -> counters -> A * tables * counters) :
  runs (execute s run).
Proof.
  intros e c He. unfold execute. rewrite He.
  destruct (run (work c) (auto c)) as [[a t] n]. eexists _, _. reflexivity.
Qed.

Lemma runs_random_sample {A} (l : list A) k : runs (random_sample l k).
Proof. intros e c _. eexists _, _. reflexivity. Qed.

Lemma runs_for_each {A S} (l : list A) (body : A -> S -> M S) :
  (forall x s, runs (body x s)) -> forall s, runs (for_each l body s).
Proof.
  intros Hb. induction l as [|x l IH]; intros s; simpl.
  - apply runs_ret.
  - apply runs_bind; [apply Hb | intros s'; apply IH].
Qed.

Ltac runs_tac :=
  repeat first
    [ apply runs_ret | apply runs_execute | apply runs_random_sample
    | apply runs_bind; [| intros ?]
    | apply runs_for_each; intros ? ?
    | match goal with
      | |- runs (match ?x with _ => _ end) => destruct x
      | |- runs (let '(_, _) := ?x in _) => destruct x
      end ].

Lemma runs_delete_dependents a : runs (delete_dependents a).
Proof. unfold delete_dependents, modify. runs_tac. Qed.

Lemma runs_reset_airline_info a cc : runs (reset_airline_info a cc).
Proof. unfold reset_airline_info, modify. runs_tac. Qed.

Lemma runs_find_hq_airport cc : runs (find_hq_airport cc).
Proof. unfold find_hq_airport, fetchone. runs_tac. Qed.

Lemma runs_create_hq_base hq cc a cy : runs (create_hq_base hq cc a cy).
Proof. unfold create_hq_base, exec_insert_base. runs_tac. Qed.

Lemma runs_add_cheap_airplanes ms a cy hq n :
  runs (add_cheap_airplanes ms a cy hq n).
Proof. unfold add_cheap_airplanes, exec_insert_airplane. runs_tac. Qed.

Lemma succeeds_bind {A} (m : M A) (k : A -> M response) :
  runs m -> (forall a, succeeds (k a)) -> succeeds (bind m k).
Proof.
  intros Hm Hk e c He. destruct (Hm e c He) as (a & c1 & E).
  unfold bind. rewrite E. apply Hk. exact He.
Qed.

Lemma succeeds_commit r :
  success r = true -> succeeds (bind commit (fun _ => ret r)).
Proof.
  intros Hr e c He. unfold bind, commit, ret. rewrite He.
  eexists _, _. split; [reflexivity | exact Hr].
Qed.

(** Without storage failures the reset of a bot succeeds. *)
Lemma reset_single_bot_runs (a : Z) (e : env) (w : world) bot :
  no_faults e ->
  hd_error (select_bot a (w_tables w)) = Some bot ->
  b_airline_type bot = 2 ->
  success (fst (reset_single_bot a e w)) = true.
Proof.
  intros He Hb Ht.
  unfold reset_single_bot, handler, reset_single_bot_body.
  unfold bind at 1. unfold fetchone at 1. unfold execute at 1.
  rewrite He. cbn [work connect]. rewrite Hb, Ht.
  cbn [Z.eqb Pos.eqb negb].
  match goal with
  | |- success (fst (match ?m e ?c with _ => _ end)) = true =>
      assert (Hm : succeeds m)
  end.
  { apply succeeds_bind; [unfold fetchone; apply runs_execute | intros cy].
    apply succeeds_bind; [unfold fetchall; apply runs_execute | intros ms].
    apply succeeds_bind; [apply runs_delete_dependents | intros [[? ?] ?]].
    apply succeeds_bind; [apply runs_reset_airline_info | intros ?].
    apply succeeds_bind; [apply runs_find_hq_airport | intros hq].
    apply succeeds_bind; [apply runs_create_hq_base | intros ?].
    apply succeeds_bind; [apply runs_add_cheap_airplanes | intros n].
    apply succeeds_commit. reflexivity. }
  match goal with
  | |- success (fst (match ?m e ?c with _ => _ end)) = true =>
      destruct (Hm e c He) as (r & c' & E & Hr); rewrite E; exact Hr
  end.
Qed.

(** The airplanes of a bot after its reset are the rows inserted for the
    models drawn. *)
Lemma reset_tables_fleet a bot e w :
  filter (fun p => ap_owner p =? a) (airplane (reset_tables a bot e w))
  = fleet_rows (next_airplane_id (w_counters w)) (reset_fleet e w) a
               (reset_cycle (w_tables w))
               (hq_airport_of (reset_country bot) (w_tables w)).
Proof.
  rewrite reset_tables_airplane, filter_app, filter_deleted.
  apply fleet_rows_owned.
Qed.

(** C6. The candidate pool of a reset holds exactly the models with a price
    below 40,000,000, cheapest first. A reset that succeeds leaves the bot
    with min(5, size of the pool) airplanes, of models drawn from the pool
    without replacement, each with condition 100, depreciation rate 0, the
    price of its model as value, not sold, constructed and purchased in the
    current cycle. With an empty pool (and no storage failure) the reset of
    a bot succeeds and leaves it without airplanes. *)
Theorem fleet_provisioning (a : Z) (e : env) (w : world) :
  let t := w_tables w in
  let t' := w_tables (snd (reset_single_bot a e w)) in
  let pool := select_cheap_models t in
  let fleet := filter (fun p => ap_owner p =? a) (airplane t') in
  (Permutation pool
     (filter (fun m => am_price m <? 40000000) (airplane_model t)) /\
   StronglySorted (fun x y => am_price x <= am_price y) pool) /\
  (success (fst (reset_single_bot a e w)) = true ->
   exists drawn rest,
     Permutation (drawn ++ rest) pool /\
     List.length drawn = Nat.min 5 (List.length pool) /\
     Forall2
       (fun p m =>
          ap_model p = am_id m /\ ap_value p = am_price m /\
          ap_airplane_condition p = 100 /\ ap_depreciation_rate p = 0 /\
          ap_is_sold p = 0 /\
          ap_constructed_cycle p = reset_cycle t /\
          ap_purchased_cycle p = reset_cycle t)
       fleet drawn) /\
  (pool = [] -> no_faults e ->
   (exists bot, hd_error (select_bot a t) = Some bot /\
                b_airline_type bot = 2) ->
   success (fst (reset_single_bot a e w)) = true /\ fleet = []).
Proof.
  intros t t' pool fleet. split; [apply select_cheap_models_pool|].
  assert (Hfleet : success (fst (reset_single_bot a e w)) = true ->
    exists bot, fleet = fleet_rows (next_airplane_id (w_counters w))
                          (reset_fleet e w) a (reset_cycle t)
                          (hq_airport_of (reset_country bot) t)).
  { intros Hs. destruct (reset_single_bot_success a e w Hs)
      as (bot & _ & _ & Ht & _).
    exists bot. unfold fleet, t'. rewrite Ht. apply reset_tables_fleet. }
  split.
  - intros Hs. destruct (Hfleet Hs) as [bot ->].
    destruct (drawn_models_sample (draw e) (w_rng w) pool)
      as [Hlen [rest Hperm]].
    exists (reset_fleet e w), rest.
    split; [exact Hperm|]. split; [exact Hlen|].
    eapply Forall2_impl; [| apply fleet_rows_models].
    cbv beta. intros p m H. tauto.
  - intros Hpool He (bot & Hb & Hty).
    assert (Hs := reset_single_bot_runs a e w bot He Hb Hty).
    split; [exact Hs|].
    destruct (Hfleet Hs) as [bot' ->].
    unfold reset_fleet. fold t pool. rewrite Hpool. reflexivity.
Qed.

(** Bot 1 of the sample gets the two models under the ceiling; without
    models its reset succeeds and leaves it no airplane. *)
Lemma fleet_provisioning_witness :
  (exists drawn rest,
     Permutation (drawn ++ rest) (select_cheap_models Sample.t0) /\
     List.length drawn = 2%nat /\
     Forall2
       (fun p m =>
          ap_model p = am_id m /\ ap_value p = am_price m /\
          ap_airplane_condition p = 100 /\ ap_depreciation_rate p = 0 /\
          ap_is_sold p = 0 /\
          ap_constructed_cycle p = 9 /\ ap_purchased_cycle p = 9)
       (filter (fun p => ap_owner p =? 1)
          (airplane
             (w_tables (snd (reset_single_bot 1 Sample.e_ok Sample.w0)))))
       drawn) /\
  success (fst (reset_single_bot 1 Sample.e_ok Sample.w_no_models)) = true /\
  filter (fun p => ap_owner p =? 1)
    (airplane
       (w_tables (snd (reset_single_bot 1 Sample.e_ok Sample.w_no_models))))
  = [].
Proof.
  split.
  - exact (proj1 (proj2 (fleet_provisioning 1 Sample.e_ok Sample.w0))
             eq_refl).
  - exact (proj2 (proj2 (fleet_provisioning 1 Sample.e_ok
                           Sample.w_no_models))
             eq_refl (fun _ _ => eq_refl)
             (ex_intro _ _ (conj eq_refl eq_refl))).
Defined.

Lemma mem_In x l : mem x l = true <-> In x l.
Proof.
  unfold mem. rewrite existsb_exists. split.
  - intros (y & Hy & E). apply Z.eqb_eq in E. subst y. exact Hy.
  - intros H. exists x. split; [exact H | apply Z.eqb_refl].
Qed.

Lemma kept_not_mem {A} (key : A -> Z) (ids : list Z) (l : list A) r :
  In r (filter (fun r => negb (mem (key r) ids)) l) -> ~ In (key r) ids.
Proof.
  intros H Hin. apply filter_In in H. destruct H as [_ H].
  apply mem_In in Hin. rewrite Hin in H. discriminate H.
Qed.

(** C7, as amended. A reset that succeeds has sent its DELETEs in the order
    route assignments, route consumptions, routes, airplane configurations,
    airplanes, bases, appeal records, all before the UPDATE of the
    financial profile, and only a SELECT, INSERTs and the commit follow;
    afterwards the bot has no route, its airplanes are new rows, no route
    assignment and no route consumption refers to a deleted route, and no
    airplane configuration refers to a deleted airplane. The route
    assignments are deleted by route: none refers to a deleted airplane
    when, before the reset, the airplanes of the bot were assigned to
    routes of the bot only. *)
Theorem reset_deletes_in_dependency_order (a : Z) (e : env) (w : world) :
  let t := w_tables w in
  let t' := w_tables (snd (reset_single_bot a e w)) in
  success (fst (reset_single_bot a e w)) = true ->
  (exists cc rest,
     w_log (snd (reset_single_bot a e w))
     = w_log w
       ++ [ SelectBot a; SelectMaxCycle; SelectCheapModels;
            DeleteLinkAssignments a; DeleteLinkConsumptions a;
            DeleteLinks a; DeleteAirplaneConfigurations a;
            DeleteAirplanes a; DeleteBases a; DeleteAppeal a;
            UpdateAirlineInfo a cc ] ++ rest /\
     Forall (fun s => match s with
                      | SelectLargestAirport _ | InsertBase _ _ _ _
                      | InsertAirplane _ _ _ _ _ | Commit => True
                      | _ => False
                      end) rest) /\
  links_of a t' = [] /\
  (forall p, In p (airplane t') -> ap_owner p = a ->
             next_airplane_id (w_counters w) <= ap_id p) /\
  (forall r, In r (link_assignment t') -> ~ In (la_link r) (links_of a t)) /\
  (forall r, In r (link_consumption t') -> ~ In (lc_link r) (links_of a t)) /\
  (forall r, In r (airplane_configuration t') ->
             ~ In (ac_airplane r) (airplanes_of a t)) /\
  (own_assignments a t = true ->
   forall r, In r (link_assignment t') ->
             ~ In (la_airplane r) (airplanes_of a t)).
Proof.
  intros t t' Hs.
  destruct (reset_single_bot_success a e w Hs) as (bot & _ & _ & Ht & Hl).
  split.
  - exists (given (reset_country bot)). eexists. split.
    + rewrite Hl. unfold reset_log, teardown_log. reflexivity.
    + unfold hq_log, base_log, fleet_log.
      repeat (apply Forall_app; split).
      * destruct (given (reset_country bot)); repeat constructor.
      * destruct (given_id _); [destruct (given _)|]; repeat constructor.
      * apply Forall_forall. intros s Hs'. apply in_map_iff in Hs'.
        destruct Hs' as (m & <- & _). exact I.
      * repeat constructor.
  - unfold t'. rewrite Ht.
    destruct (reset_tables_dependents a bot e w) as (H1 & H2 & H3 & H4).
    split.
    { unfold links_of. rewrite H1, filter_deleted. reflexivity. }
    split.
    { intros p Hp Ho. rewrite reset_tables_airplane in Hp.
      apply in_app_or in Hp. destruct Hp as [Hp | Hp].
      - apply filter_In in Hp. destruct Hp as [_ Hp].
        apply Z.eqb_eq in Ho. rewrite Ho in Hp. discriminate Hp.
      - clear - Hp. revert Hp.
        generalize (next_airplane_id (w_counters w)) as start.
        induction (reset_fleet e w) as [|m ms IH]; intros start Hp;
          simpl in Hp; [contradiction|].
        destruct Hp as [<- | Hp]; [simpl; lia|].
        apply IH in Hp. lia. }
    rewrite H2, H3, H4.
    split; [intros r Hr; exact (kept_not_mem la_link _ _ r Hr)|].
    split; [intros r Hr; exact (kept_not_mem lc_link _ _ r Hr)|].
    split; [intros r Hr; exact (kept_not_mem ac_airplane _ _ r Hr)|].
    intros Ho r Hr Hin.
    pose proof (kept_not_mem la_link _ _ r Hr) as Hl'.
    apply filter_In in Hr. destruct Hr as [Hr _].
    unfold own_assignments in Ho. rewrite forallb_forall in Ho.
    specialize (Ho r Hr). apply mem_In in Hin. fold t in Ho.
    rewrite Hin in Ho. cbn [implb] in Ho.
    apply Hl'. apply mem_In. exact Ho.
Qed.

(** The reset of bot 1 of the sample, whose route 100 has an assignment
    and a consumption, and whose airplane 1 has a configuration. *)
Lemma reset_deletes_in_dependency_order_witness :
  links_of 1 (w_tables (snd (reset_single_bot 1 Sample.e_ok Sample.w0)))
  = [] /\
  forall r,
    In r (link_assignment
            (w_tables (snd (reset_single_bot 1 Sample.e_ok Sample.w0)))) ->
    ~ In (la_airplane r) (airplanes_of 1 Sample.t0).
Proof.
  destruct (reset_deletes_in_dependency_order 1 Sample.e_ok Sample.w0
              eq_refl) as (_ & Hl & _ & _ & _ & _ & Ha).
  split; [exact Hl | exact (Ha eq_refl)].
Defined.

(** C7 as stated fails for the route assignments: they are deleted by
    route. When airplane 1 of bot 1 flies the route 200 of another airline,
    the reset of bot 1 succeeds and deletes airplane 1, and the assignment
    of airplane 1 to route 200 is still there. *)
Lemma reset_leaves_assignment_of_deleted_airplane :
  let w := Sample_edge.w_crossed in
  let t' := w_tables (snd (reset_single_bot 1 Sample.e_ok w)) in
  success (fst (reset_single_bot 1 Sample.e_ok w)) = true /\
  In 1 (airplanes_of 1 (w_tables w)) /\
  ~ In 1 (map ap_id (airplane t')) /\
  In {| la_link := 200; la_airplane := 1 |} (link_assignment t').
Proof.
  vm_compute. split; [reflexivity|]. split; [left; reflexivity|].
  split; [| left; reflexivity].
  intros H. repeat (destruct H as [H | H]; [discriminate H|]). exact H.
Qed.

(** ** The state of a bot after a reset or a create *)

Lemma filter_none {A} (p : A -> bool) (l : list A) :
  forallb (fun x => negb (p x)) l = true -> filter p l = [].
Proof.
  induction l as [|x l IH]; simpl; [reflexivity|].
  intros H. apply andb_true_iff in H. destruct H as [Hx Hl].
  apply negb_true_iff in Hx. rewrite Hx. apply IH. exact Hl.
Qed.

Lemma fleet_rows_fresh start ms owner cy home :
  Forall fresh_asset (fleet_rows start ms owner cy home).
Proof.
  revert start. induction ms as [|m ms IH]; intros start; simpl;
    constructor; [split; reflexivity | apply IH].
Qed.

Lemma reset_fleet_bound e w : (List.length (reset_fleet e w) <= 5)%nat.
Proof.
  unfold reset_fleet.
  rewrite (proj1 (drawn_models_sample _ _ _)). apply Nat.le_min_l.
Qed.

Lemma profiles_after_update a cc l :
  Forall profile_reset
    (filter (fun i => ai_airline i =? a)
       (map (fun i => if ai_airline i =? a then reset_info cc i else i) l)) /\
  List.length
    (filter (fun i => ai_airline i =? a)
       (map (fun i => if ai_airline i =? a then reset_info cc i else i) l))
  = List.length (filter (fun i => ai_airline i =? a) l).
Proof.
  induction l as [|i l [IH1 IH2]]; simpl; [split; [constructor | reflexivity]|].
  destruct (ai_airline i =? a) eqn:E; simpl; rewrite E.
  - split; [constructor; [repeat split | exact IH1] | simpl; congruence].
  - split; assumption.
Qed.

Lemma create_tables_fields body hq cc e w :
  let t := w_tables w in
  let id := next_airline_id (w_counters w) in
  let t' := create_tables body hq cc e w in
  airline t' = airline t ++ [{| al_id := id; al_name := create_name body;
                                al_airline_type := 2 |}] /\
  airline_info t'
  = airline_info t
    ++ [{| ai_airline := id; ai_balance := 200000; ai_service_quality := 50;
           ai_target_service_quality := 50; ai_reputation := 0;
           ai_country_code := Some cc; ai_initialized := 1 |}] /\
  airline_base t'
  = airline_base t
    ++ [{| ab_airport := hq; ab_airline := id; ab_scale := 1;
           ab_founded_cycle := reset_cycle t; ab_headquarter := 1;
           ab_country := cc |}] /\
  airplane t'
  = airplane t
    ++ fleet_rows (next_airplane_id (w_counters w)) (reset_fleet e w) id
                  (reset_cycle t) (Some hq).
Proof.
  intros t id t'. unfold t', create_tables.
  match goal with
  | |- airline (fst (insert_fleet ?ms ?o ?c ?h ?t0 ?n)) = _ /\ _ =>
      destruct (insert_fleet_tables ms o c h t0 n)
        as (H1 & H2 & H3 & H4 & _)
  end.
  rewrite H1, H2, H3, H4. repeat split.
Qed.

Lemma hq_airport_of_valid cc t h :
  valid_airport_ids t = true ->
  hq_airport_of cc t = Some h ->
  given_id (Some h) = Some h /\ exists c, given cc = Some c.
Proof.
  unfold valid_airport_ids, hq_airport_of. intros Hv H.
  destruct (given cc) as [c|]; [| discriminate H].
  split; [| exists c; reflexivity].
  destruct (hd_error (select_largest_airport c t)) as [row|] eqn:E;
    [| discriminate H].
  inversion H; subst h.
  apply select_largest_airport_best in E. destruct E as [Hin _].
  rewrite forallb_forall in Hv. specialize (Hv row Hin).
  unfold given_id. apply negb_true_iff in Hv. rewrite Hv. reflexivity.
Qed.

(** C3, as amended. After a reset that succeeds, every row of the financial
    profile of the bot has balance 200,000, reputation 0 and service
    quality 50, and the bot has as many profile rows as before: the reset
    updates the profile and does not create one. The bot has exactly one
    base, a headquarters of scale 1, when a home airport was found, and no
    base otherwise; and at most 5 airplanes, each in condition 100 and not
    sold. After a create that succeeds, the new bot has exactly one profile
    row, with these values, its headquarters, and such airplanes. *)
Theorem provisioned_after_reset_or_create :
  (forall a e w bot,
     valid_airport_ids (w_tables w) = true ->
     hd_error (select_bot a (w_tables w)) = Some bot ->
     success (fst (reset_single_bot a e w)) = true ->
     provisioned a (home_resolved bot (w_tables w))
                 (w_tables (snd (reset_single_bot a e w))) /\
     List.length (profiles_of a (w_tables (snd (reset_single_bot a e w))))
     = List.length (profiles_of a (w_tables w))) /\
  (forall body e w,
     unused_airline_id (next_airline_id (w_counters w)) (w_tables w) = true ->
     success (fst (create_bot body e w)) = true ->
     exists a,
       airline_id (fst (create_bot body e w)) = Some a /\
       In {| al_id := a; al_name := create_name body; al_airline_type := 2 |}
          (airline (w_tables (snd (create_bot body e w)))) /\
       List.length (profiles_of a (w_tables (snd (create_bot body e w))))
       = 1%nat /\
       provisioned a true (w_tables (snd (create_bot body e w)))).
Proof.
  split.
  - intros a e w bot Hv Hb Hs.
    destruct (reset_single_bot_success a e w Hs)
      as (bot' & Hb' & _ & Ht & _).
    rewrite Hb in Hb'. inversion Hb'; subst bot'. rewrite Ht.
    unfold provisioned, profiles_of, bases_of, fleet_of.
    rewrite reset_tables_airline_info, reset_tables_fleet,
      reset_tables_airline_base, filter_app, filter_deleted.
    destruct (profiles_after_update a (given (reset_country bot))
                (airline_info (w_tables w))) as [Hp Hl].
    split; [| exact Hl]. split; [exact Hp|]. split.
    + unfold home_resolved.
      destruct (hq_airport_of (reset_country bot) (w_tables w)) as [h|] eqn:E.
      * destruct (hq_airport_of_valid _ _ _ Hv E) as [-> [c ->]].
        eexists. simpl. rewrite Z.eqb_refl. split; [reflexivity|].
        split; reflexivity.
      * reflexivity.
    + split; [rewrite fleet_rows_length; apply reset_fleet_bound
             | apply fleet_rows_fresh].
  - intros body e w Hu Hs.
    destruct (create_bot_success body e w Hs) as (hq & cc & _ & Hid & Ht & _).
    exists (next_airline_id (w_counters w)). split; [exact Hid|].
    rewrite Ht.
    destruct (create_tables_fields body hq cc e w) as (H1 & H2 & H3 & H4).
    unfold unused_airline_id in Hu.
    apply andb_true_iff in Hu. destruct Hu as [Hu Hu3].
    apply andb_true_iff in Hu. destruct Hu as [Hu1 Hu2].
    apply (filter_none (fun i => ai_airline i =? _)) in Hu1.
    apply (filter_none (fun b => ab_airline b =? _)) in Hu2.
    apply (filter_none (fun p => ap_owner p =? _)) in Hu3.
    split; [rewrite H1; apply in_or_app; right; left; reflexivity|].
    unfold provisioned, profiles_of, bases_of, fleet_of.
    rewrite H2, H3, H4, !filter_app, Hu1, Hu2, Hu3, fleet_rows_owned.
    simpl. rewrite Z.eqb_refl. simpl.
    split; [reflexivity|]. split; [repeat constructor|]. split.
    + eexists. split; [reflexivity | split; reflexivity].
    + split; [rewrite fleet_rows_length; apply reset_fleet_bound
             | apply fleet_rows_fresh].
Qed.

(** Bot 1 of the sample, whose name gives the country FR, is reset and
    has a headquarters; bot 2, whose name gives no country, is reset and
    has no base; a create with the airport hint JFK gives bot 5. *)
Lemma provisioned_after_reset_or_create_witness :
  provisioned 1 true
    (w_tables (snd (reset_single_bot 1 Sample.e_ok Sample.w0))) /\
  provisioned 2 false
    (w_tables (snd (reset_single_bot 2 Sample.e_ok Sample.w0))) /\
  exists a,
    airline_id (fst (create_bot (Some [("airport_iata", "JFK")])
                                Sample.e_ok Sample.w0)) = Some a /\
    provisioned a true
      (w_tables (snd (create_bot (Some [("airport_iata", "JFK")])
                                 Sample.e_ok Sample.w0))).
Proof.
  split; [| split].
  - exact (proj1 (proj1 provisioned_after_reset_or_create
                    1 Sample.e_ok Sample.w0 _ eq_refl eq_refl eq_refl)).
  - exact (proj1 (proj1 provisioned_after_reset_or_create
                    2 Sample.e_ok Sample.w0 _ eq_refl eq_refl eq_refl)).
  - destruct (proj2 provisioned_after_reset_or_create
                (Some [("airport_iata", "JFK")]) Sample.e_ok Sample.w0
                eq_refl eq_refl) as (a & Ha & _ & _ & Hp).
    exists a. split; [exact Ha | exact Hp].
Defined.

(** C3 as stated fails for a bot without a financial profile: its reset
    succeeds, and afterwards there is still no profile row of the bot, so
    no balance of 200,000. *)
Lemma reset_without_profile :
  let w := Sample_edge.w_no_profile in
  let t' := w_tables (snd (reset_single_bot 2 Sample.e_ok w)) in
  is_bot 2 (w_tables w) = true /\
  success (fst (reset_single_bot 2 Sample.e_ok w)) = true /\
  profiles_of 2 t' = [] /\
  ~ exists i, In i (airline_info t') /\ ai_airline i = 2 /\
              ai_balance i = 200000.
Proof.
  vm_compute. repeat split.
  intros (i & Hi & Ha & _).
  repeat (destruct Hi as [Hi | Hi]; [subst i; discriminate Ha|]).
  exact Hi.
Qed.

(** ** The create operation and its home airport *)

(** C9, as amended. When [create_bot] finds no home airport (no airport has
    the IATA code of the hint, or none is in the country), it creates
    nothing: the answer is a failure, status 404 unless a storage failure
    came first, and the committed tables are those from before: no airline,
    no financial profile, no base and no airplane are added. *)
Theorem create_bot_requires_home (body : request_json) (e : env) (w : world) :
  create_home body (w_tables w) = None ->
  success (fst (create_bot body e w)) = false /\
  w_tables (snd (create_bot body e w)) = w_tables w /\
  (status (fst (create_bot body e w)) = 404 \/
   exists msg, fst (create_bot body e w) = jsonify 500 false msg /\
               storage_error e msg) /\
  (no_faults e -> status (fst (create_bot body e w)) = 404).
Proof.
  intros Hh.
  assert (Hs : success (fst (create_bot body e w)) = false).
  { destruct (success (fst (create_bot body e w))) eqn:E; [| reflexivity].
    destruct (create_bot_success body e w E) as (hq & cc & H & _).
    congruence. }
  split; [exact Hs|].
  destruct (handler_atomic _ _ e w (atomic_create_bot_body body) Hs)
    as [Ht Hr].
  split; [exact Ht|]. split; [exact Hr|].
  intros He. unfold create_bot, handler, create_bot_body.
  fold (create_data body). unfold create_home in Hh.
  unfold bind at 1. unfold fetchone at 1. unfold execute at 1.
  rewrite He. cbn [work connect after].
  destruct (given (dict_get (create_data body) "airport_iata")) as [iata|].
  - unfold bind at 1. unfold fetchone at 1. unfold execute at 1.
    rewrite He. cbn [work connect after].
    destruct (hd_error (select_airport_by_iata iata (w_tables w)));
      [discriminate Hh | reflexivity].
  - unfold bind at 1. unfold fetchone at 1. unfold execute at 1.
    rewrite He. cbn [work connect after].
    fold (create_country body).
    destruct (hd_error (select_largest_airport (create_country body)
                                               (w_tables w)));
      [discriminate Hh | reflexivity].
Qed.

(** No airport of the sample is in the country ZZ. *)
Lemma create_bot_requires_home_witness :
  success (fst (create_bot (Some [("country_code", "ZZ")]) Sample.e_ok
                           Sample.w0)) = false /\
  w_tables (snd (create_bot (Some [("country_code", "ZZ")]) Sample.e_ok
                            Sample.w0)) = Sample.t0.
Proof.
  destruct (create_bot_requires_home (Some [("country_code", "ZZ")])
              Sample.e_ok Sample.w0 eq_refl) as (Hs & Ht & _).
  split; [exact Hs | exact Ht].
Defined.

(** C9 as stated fails: with a country that has no airport, and with an
    airport hint that matches no airport, [create_bot] answers 404 and
    returns before its first INSERT; the airlines are those from before. *)
Lemma create_bot_unresolved_is_fatal :
  let r1 := create_bot (Some [("name", "Nowhere Air"); ("country_code", "ZZ")])
                       Sample.e_ok Sample.w0 in
  let r2 := create_bot (Some [("name", "Nowhere Air"); ("airport_iata", "QQQ")])
                       Sample.e_ok Sample.w0 in
  fst r1 = jsonify 404 false "No airport found in country ZZ" /\
  w_log (snd r1) = [SelectMaxCycle; SelectLargestAirport "ZZ"] /\
  w_tables (snd r1) = Sample.t0 /\
  fst r2 = jsonify 404 false "Airport QQQ not found" /\
  w_log (snd r2) = [SelectMaxCycle; SelectAirportByIata "QQQ"] /\
  w_tables (snd r2) = Sample.t0 /\
  map al_id (airline Sample.t0) = [1; 2; 3; 4].
Proof. vm_compute. repeat split. Qed.

(** [create_bot] reads its request through the name, the country code
    and the airport hint only. *)
Lemma create_bot_body_ext (b1 b2 : request_json) :
  create_name b1 = create_name b2 ->
  create_country b1 = create_country b2 ->
  dict_get (create_data b1) "airport_iata"
  = dict_get (create_data b2) "airport_iata" ->
  create_bot_body b1 = create_bot_body b2.
Proof.
  intros Hn Hc Hi. unfold create_bot_body. cbv zeta.
  change (match b1 with Some d => d | None => [] end)
    with (create_data b1).
  change (match b2 with Some d => d | None => [] end)
    with (create_data b2).
  change (match dict_get (create_data b1) "name" with
          | Some v => v | None => "New Bot Airline" end)
    with (create_name b1).
  change (match dict_get (create_data b2) "name" with
          | Some v => v | None => "New Bot Airline" end)
    with (create_name b2).
  change (match dict_get (create_data b1) "country_code" with
          | Some v => v | None => "US" end)
    with (create_country b1).
  change (match dict_get (create_data b2) "country_code" with
          | Some v => v | None => "US" end)
    with (create_country b2).
  rewrite Hn, Hc, Hi. reflexivity.
Qed.

(** C10. A create request with neither [country_code] nor an airport hint
    is the request with the country code "US", and a request without a name
    is the request with the name "New Bot Airline". The name is not looked
    at for the country: when such a create succeeds, whatever its name, the
    home airport was looked up in "US", and the profile and the base of the
    new bot have the country "US". *)
Theorem create_bot_defaults (body : request_json) (e : env) (w : world) :
  dict_get (create_data body) "country_code" = None ->
  given (dict_get (create_data body) "airport_iata") = None ->
  create_bot body e w
  = create_bot (Some (("country_code", "US") :: create_data body)) e w /\
  (dict_get (create_data body) "name" = None ->
   create_bot body e w
   = create_bot (Some (("name", "New Bot Airline") :: create_data body)) e w) /\
  (success (fst (create_bot body e w)) = true ->
   exists a hq cycle rest,
     airline_id (fst (create_bot body e w)) = Some a /\
     w_log (snd (create_bot body e w))
     = w_log w ++ [SelectMaxCycle; SelectLargestAirport "US";
                   InsertAirline (create_name body);
                   InsertAirlineInfo a "US"; InsertBase hq a cycle "US"]
             ++ rest /\
     profiles_of a (w_tables (snd (create_bot body e w)))
     = profiles_of a (w_tables w)
       ++ [{| ai_airline := a; ai_balance := 200000;
              ai_service_quality := 50; ai_target_service_quality := 50;
              ai_reputation := 0; ai_country_code := Some "US";
              ai_initialized := 1 |}] /\
     bases_of a (w_tables (snd (create_bot body e w)))
     = bases_of a (w_tables w)
       ++ [{| ab_airport := hq; ab_airline := a; ab_scale := 1;
              ab_founded_cycle := cycle; ab_headquarter := 1;
              ab_country := "US" |}]).
Proof.
  intros Hc Hi. split; [| split].
  - unfold create_bot. f_equal. apply create_bot_body_ext.
    + reflexivity.
    + unfold create_country. rewrite Hc. reflexivity.
    + reflexivity.
  - intros Hn. unfold create_bot. f_equal. apply create_bot_body_ext.
    + unfold create_name. rewrite Hn. reflexivity.
    + reflexivity.
    + reflexivity.
  - intros Hs.
    destruct (create_bot_success body e w Hs)
      as (hq & cc & Hh & Hid & Ht & Hl).
    unfold create_home in Hh. rewrite Hi in Hh.
    assert (Hus : create_country body = "US").
    { unfold create_country. rewrite Hc. reflexivity. }
    rewrite Hus in Hh.
    destruct (hd_error (select_largest_airport "US" (w_tables w)))
      as [row|]; [| discriminate Hh].
    inversion Hh; subst hq cc.
    exists (next_airline_id (w_counters w)), (apt_id row),
           (reset_cycle (w_tables w)).
    eexists. split; [exact Hid|]. split.
    + rewrite Hl. unfold create_log, home_query. rewrite Hi, Hus.
      reflexivity.
    + rewrite Ht.
      destruct (create_tables_fields body (apt_id row) "US" e w)
        as (_ & H2 & H3 & _).
      unfold profiles_of, bases_of. rewrite H2, H3, !filter_app.
      simpl. rewrite Z.eqb_refl. split; reflexivity.
Qed.

(** A create for the name "Air France Express", a name that the country
    table maps to FR, without country code and airport hint: bot 5 is
    based at the US airport. *)
Lemma create_bot_defaults_witness :
  create_bot (Some [("name", "Air France Express")]) Sample.e_ok Sample.w0
  = create_bot (Some [("country_code", "US"); ("name", "Air France Express")])
               Sample.e_ok Sample.w0 /\
  get_country_for_airline "Air France Express" = Some "FR" /\
  bases_of 5 (w_tables (snd (create_bot (Some [("name", "Air France Express")])
                                        Sample.e_ok Sample.w0)))
  = [{| ab_airport := 20; ab_airline := 5; ab_scale := 1;
        ab_founded_cycle := 9; ab_headquarter := 1; ab_country := "US" |}].
Proof.
  split; [| split].
  - exact (proj1 (create_bot_defaults (Some [("name", "Air France Express")])
                    Sample.e_ok Sample.w0 eq_refl eq_refl)).
  - reflexivity.
  - reflexivity.
Defined.

(** ** The home airport of a reset *)

(** The country of a reset is the stored code when there is one, and else
    the code of the first entry of the table whose key, in lower case, is
    part of the name in lower case. *)
Lemma reset_country_fallback (bot : bot_row) :
  (forall cc, given (b_country_code bot) = Some cc ->
              reset_country bot = Some cc) /\
  (given (b_country_code bot) = None ->
   reset_country bot = get_country_for_airline (b_name bot)).
Proof.
  unfold reset_country, infer_country, given.
  destruct (b_country_code bot) as [s|]; simpl;
    [destruct (String.eqb s ""); simpl|]; split; intros; congruence.
Qed.

(** The base of a reset that succeeds: at the largest airport of the
    country, and none when there is no country or no airport in it. *)
Lemma reset_home_airport (a : Z) (e : env) (w : world) bot :
  valid_airport_ids (w_tables w) = true ->
  hd_error (select_bot a (w_tables w)) = Some bot ->
  success (fst (reset_single_bot a e w)) = true ->
  match given (reset_country bot) with
  | Some cc =>
      match hd_error (select_largest_airport cc (w_tables w)) with
      | Some row =>
          bases_of a (w_tables (snd (reset_single_bot a e w)))
          = [{| ab_airport := apt_id row; ab_airline := a; ab_scale := 1;
                ab_founded_cycle := reset_cycle (w_tables w);
                ab_headquarter := 1; ab_country := cc |}]
      | None => bases_of a (w_tables (snd (reset_single_bot a e w))) = []
      end
  | None => bases_of a (w_tables (snd (reset_single_bot a e w))) = []
  end.
Proof.
  intros Hv Hb Hs.
  destruct (reset_single_bot_success a e w Hs) as (bot' & Hb' & _ & Ht & _).
  rewrite Hb in Hb'. inversion Hb'; subst bot'. rewrite Ht.
  unfold bases_of.
  rewrite reset_tables_airline_base, filter_app, filter_deleted.
  pose proof (hq_airport_of_valid (reset_country bot) (w_tables w)) as Hq.
  unfold hq_airport_of in *.
  destruct (given (reset_country bot)) as [cc|]; [| reflexivity].
  destruct (hd_error (select_largest_airport cc (w_tables w))) as [row|];
    simpl option_map in *.
  - destruct (Hq _ Hv eq_refl) as [-> _]. simpl.
    rewrite Z.eqb_refl. reflexivity.
  - reflexivity.
Qed.

(** C8, at a bot without a home. Bot 2 of the sample, "Zeta Air", stores no
    country code and its name matches no entry of the country table. Its
    reset succeeds and creates no base; but the answer does not report
    that: it tells "Created new HQ.", the same text as for bot 1, whose
    reset does create a headquarters, while [reset_bots] counts the one
    headquarters it creates for the three bots. *)
Theorem reset_single_bot_reports_new_hq :
  let r2 := reset_single_bot 2 Sample.e_ok Sample.w0 in
  let r1 := reset_single_bot 1 Sample.e_ok Sample.w0 in
  map b_country_code (select_bot 2 Sample.t0) = [None] /\
  get_country_for_airline "Zeta Air" = None /\
  success (fst r2) = true /\
  bases_of 2 (w_tables (snd r2)) = [] /\
  message (fst r2)
  = "Reset bot airline Zeta Air. Deleted 0 routes, 0 aircraft, 0 bases. Created new HQ. Added 2 new aircraft. Balance reset to $200,000, reputation to 0." /\
  List.length (bases_of 1 (w_tables (snd r1))) = 1%nat /\
  message (fst r1)
  = "Reset bot airline Air France Regional. Deleted 1 routes, 1 aircraft, 1 bases. Created new HQ. Added 2 new aircraft. Balance reset to $200,000, reputation to 0." /\
  message (fst (reset_bots Sample.e_ok Sample.w0))
  = "Reset 3 bot airlines. Deleted 1 routes, 1 aircraft, 1 bases. Created 1 HQs. Added 6 new aircraft. Balance reset to $200,000, reputation to 0.".
Proof. vm_compute. repeat split. Qed.

(** ** Further properties of the lifecycle operations *)

(** [create_bot] is all or nothing too. For a request without a body, or
    with a JSON object of strings as its body: when it does not answer with
    a success, the committed tables are those from before, and the answer
    is its 404 or status 500 with the message of the storage failure. *)
Theorem create_bot_all_or_nothing (body : request_json) (e : env) (w : world) :
  success (fst (create_bot body e w)) = false ->
  w_tables (snd (create_bot body e w)) = w_tables w /\
  (status (fst (create_bot body e w)) = 404 \/
   exists msg,
     fst (create_bot body e w) = jsonify 500 false msg /\
     storage_error e msg).
Proof.
  intros H.
  exact (handler_atomic _ _ e w (atomic_create_bot_body body) H).
Qed.

(** The storage fails at the commit of a create. *)
Lemma create_bot_all_or_nothing_witness :
  w_tables
    (snd (create_bot (Some [("airport_iata", "JFK")])
            {| fault := fun _ s =>
                 match s with Commit => Some "Deadlock found" | _ => None end;
               draw := fun n => n |} Sample.w0))
  = Sample.t0.
Proof.
  apply create_bot_all_or_nothing. reflexivity.
Defined.

(** [reset_single_bot] touches bots only. For an id that is no airline, or
    the id of an airline that is not a bot, the one statement it sends is
    its first SELECT: no DELETE, UPDATE or INSERT, whatever the storage
    does; and when the SELECT runs, the answer is the 404 or the 400. *)
Theorem reset_single_bot_spares_non_bots (a : Z) (e : env) (w : world) :
  is_bot a (w_tables w) = false ->
  w_log (snd (reset_single_bot a e w)) = w_log w ++ [SelectBot a] /\
  w_tables (snd (reset_single_bot a e w)) = w_tables w /\
  w_counters (snd (reset_single_bot a e w)) = w_counters w /\
  success (fst (reset_single_bot a e w)) = false /\
  (fault e (List.length (w_log w)) (SelectBot a) = None ->
   fst (reset_single_bot a e w)
   = match hd_error (select_bot a (w_tables w)) with
     | None =>
         jsonify 404 false
           ("Airline with ID " ++ Py.str_of_int a ++ " not found")%string
     | Some bot =>
         jsonify 400 false
           ("Airline " ++ b_name bot ++ " is not a bot airline")%string
     end).
Proof.
  unfold is_bot. intros Hb.
  remember (reset_single_bot a e w) as r eqn:E.
  unfold reset_single_bot, handler, reset_single_bot_body in E.
  unfold bind at 1 in E. unfold fetchone at 1 in E.
  unfold execute at 1 in E. cbn [log connect] in E.
  destruct (fault e (List.length (w_log w)) (SelectBot a)) as [msg|].
  - subst r. cbn. repeat split. discriminate.
  - cbn [work connect auto] in E.
    destruct (hd_error (select_bot a (w_tables w))) as [bot|].
    + rewrite Hb in E. subst r. cbn. repeat split.
    + subst r. cbn. repeat split.
Qed.

(** Airline 3 of the sample is a player. *)
Lemma reset_single_bot_spares_non_bots_witness :
  w_log (snd (reset_single_bot 3 Sample.e_ok Sample.w0)) = [SelectBot 3] /\
  w_tables (snd (reset_single_bot 3 Sample.e_ok Sample.w0)) = Sample.t0.
Proof.
  destruct (reset_single_bot_spares_non_bots 3 Sample.e_ok Sample.w0
              eq_refl) as (Hl & Ht & _).
  split; [exact Hl | exact Ht].
Defined.

(** *** The effect of one reset on the tables *)

Lemma insert_fleet_rest ms owner cy home :
  forall t n,
    airplane_model (fst (insert_fleet ms owner cy home t n))
    = airplane_model t /\
    airline_appeal (fst (insert_fleet ms owner cy home t n))
    = airline_appeal t /\
    airport (fst (insert_fleet ms owner cy home t n)) = airport t /\
    cycle (fst (insert_fleet ms owner cy home t n)) = cycle t /\
    snd (insert_fleet ms owner cy home t n)
    = {| next_airline_id := next_airline_id n;
         next_airplane_id := next_airplane_id n + Z.of_nat (List.length ms) |}.
Proof.
  induction ms as [|m ms IH]; intros t n.
  - simpl. repeat split. destruct n. simpl. f_equal. lia.
  - cbn [insert_fleet insert_airplane].
    match goal with
    | |- context [insert_fleet ms owner cy home ?t0 ?n0] =>
        destruct (IH t0 n0) as (H1 & H2 & H3 & H4 & H5)
    end.
    rewrite H1, H2, H3, H4, H5. cbn. repeat split. f_equal. lia.
Qed.

Lemma reset_tables_rebuild a bot e w :
  reset_tables a bot e w
  = fst (rebuild a (reset_country bot) (reset_cycle (w_tables w))
                 (reset_fleet e w) (w_tables w) (w_counters w)).
Proof. reflexivity. Qed.

Section Rebuild.

Variables (a : Z) (cc : option string) (cy : Z).
Variables (drawn : list airplane_model_row) (t : tables) (n : counters).

Let t' := fst (rebuild a cc cy drawn t n).
Let hq := hq_airport_of cc t.

Lemma rebuild_catalogs : same_catalogs t t'.
Proof.
  unfold same_catalogs, t', rebuild.
  match goal with
  | |- context [insert_fleet ?ms ?o ?c ?h ?t0 ?n0] =>
      destruct (insert_fleet_tables ms o c h t0 n0) as (_ & H1 & _);
      destruct (insert_fleet_rest ms o c h t0 n0) as (H2 & _ & H3 & H4 & _)
  end.
  rewrite H1, H2, H3, H4. unfold base_tables.
  destruct (given_id _); [destruct (given _)|]; repeat split.
Qed.

Lemma rebuild_counters :
  snd (rebuild a cc cy drawn t n)
  = {| next_airline_id := next_airline_id n;
       next_airplane_id :=
         next_airplane_id n + Z.of_nat (List.length drawn) |}.
Proof. unfold rebuild. apply insert_fleet_rest. Qed.

Lemma rebuild_tables :
  airline_info t'
  = map (fun i => if ai_airline i =? a then reset_info (given cc) i else i)
        (airline_info t) /\
  airline_base t'
  = filter (fun b => negb (ab_airline b =? a)) (airline_base t)
    ++ match given_id hq, given cc with
       | Some h, Some c =>
           [{| ab_airport := h; ab_airline := a; ab_scale := 1;
               ab_founded_cycle := cy; ab_headquarter := 1;
               ab_country := c |}]
       | _, _ => []
       end /\
  airplane t'
  = filter (fun p => negb (ap_owner p =? a)) (airplane t)
    ++ fleet_rows (next_airplane_id n) drawn a cy hq /\
  link t' = filter (fun l => negb (ln_airline l =? a)) (link t) /\
  airline_appeal t'
  = filter (fun r => negb (aa_airline r =? a)) (airline_appeal t).
Proof.
  unfold t', rebuild.
  match goal with
  | |- context [insert_fleet ?ms ?o ?c ?h ?t0 ?n0] =>
      destruct (insert_fleet_tables ms o c h t0 n0)
        as (H1 & _ & H2 & H3 & _ & H4 & _);
      destruct (insert_fleet_rest ms o c h t0 n0) as (_ & H5 & _)
  end.
  rewrite H1, H2, H3, H4, H5. unfold base_tables. fold hq.
  destruct (given_id hq); [destruct (given cc)|]; simpl;
    rewrite ?app_nil_r; repeat split.
Qed.

End Rebuild.

Lemma filter_other {A} (key : A -> Z) (a x : Z) (l : list A) :
  x <> a ->
  filter (fun r => key r =? x) (filter (fun r => negb (key r =? a)) l)
  = filter (fun r => key r =? x) l.
Proof.
  intros Hx. induction l as [|r l IH]; simpl; [reflexivity|].
  destruct (key r =? a) eqn:Ea; simpl.
  - apply Z.eqb_eq in Ea. destruct (key r =? x) eqn:Ex.
    + apply Z.eqb_eq in Ex. congruence.
    + exact IH.
  - destruct (key r =? x); [f_equal|]; exact IH.
Qed.

Lemma fleet_rows_other start ms owner cy home x :
  x <> owner ->
  filter (fun p => ap_owner p =? x) (fleet_rows start ms owner cy home) = [].
Proof.
  intros Hx. revert start.
  induction ms as [|m ms IH]; intros start; simpl; [reflexivity|].
  destruct (owner =? x) eqn:E; [apply Z.eqb_eq in E; congruence | apply IH].
Qed.

Lemma profiles_other a x cc l :
  x <> a ->
  filter (fun i => ai_airline i =? x)
    (map (fun i => if ai_airline i =? a then reset_info cc i else i) l)
  = filter (fun i => ai_airline i =? x) l.
Proof.
  intros Hx. induction l as [|i l IH]; simpl; [reflexivity|].
  destruct (ai_airline i =? a) eqn:Ea; simpl.
  - apply Z.eqb_eq in Ea. rewrite Ea.
    destruct (a =? x) eqn:Ex; [apply Z.eqb_eq in Ex; congruence | exact IH].
  - destruct (ai_airline i =? x); [f_equal|]; exact IH.
Qed.

(** The reset of [a] leaves the rows of every other airline alone. *)
Lemma rebuild_same_rows a cc cy drawn t n x :
  x <> a -> same_rows x t (fst (rebuild a cc cy drawn t n)).
Proof.
  intros Hx.
  destruct (rebuild_tables a cc cy drawn t n) as (H1 & H2 & H3 & H4 & H5).
  unfold same_rows, profiles_of, bases_of, fleet_of, routes_of, appeal_of.
  rewrite H1, H2, H3, H4, H5, !filter_app.
  rewrite (profiles_other a x _ _ Hx).
  rewrite (filter_other ab_airline a x _ Hx).
  rewrite (filter_other ap_owner a x _ Hx).
  rewrite (filter_other ln_airline a x _ Hx).
  rewrite (filter_other aa_airline a x _ Hx).
  rewrite (fleet_rows_other _ _ _ _ _ x Hx), app_nil_r.
  repeat split.
  destruct (given_id _); [destruct (given _)|]; simpl;
    rewrite ?app_nil_r; try reflexivity.
  destruct (a =? x) eqn:E; [apply Z.eqb_eq in E; congruence|].
  rewrite app_nil_r. reflexivity.
Qed.

(** A reset that succeeds is confined to its bot: the airlines, airports,
    airplane models and cycles are as before, and so are the profile, the
    bases, the airplanes, the routes and the appeal records of every other
    airline. *)
Theorem reset_single_bot_frame (a : Z) (e : env) (w : world) :
  success (fst (reset_single_bot a e w)) = true ->
  same_catalogs (w_tables w) (w_tables (snd (reset_single_bot a e w))) /\
  forall x, x <> a ->
    same_rows x (w_tables w) (w_tables (snd (reset_single_bot a e w))).
Proof.
  intros Hs.
  destruct (reset_single_bot_success a e w Hs) as (bot & _ & _ & Ht & _).
  rewrite Ht, reset_tables_rebuild. split.
  - apply rebuild_catalogs.
  - intros x Hx. apply rebuild_same_rows. exact Hx.
Qed.

(** The reset of bot 1 of the sample leaves the airplane of player 3. *)
Lemma reset_single_bot_frame_witness :
  fleet_of 3 (w_tables (snd (reset_single_bot 1 Sample.e_ok Sample.w0)))
  = fleet_of 3 Sample.t0.
Proof.
  destruct (reset_single_bot_frame 1 Sample.e_ok Sample.w0 eq_refl)
    as [_ H].
  destruct (H 3) as (_ & _ & Hf & _); [lia | exact Hf].
Defined.

(** *** The answer of a reset *)

(** The whole outcome of a reset that succeeds. *)
Lemma reset_single_bot_run (a : Z) (e : env) (w : world) :
  success (fst (reset_single_bot a e w)) = true ->
  exists bot,
    hd_error (select_bot a (w_tables w)) = Some bot /\
    fst (reset_single_bot a e w)
    = jsonify 200 true
        (reset_single_bot_message (b_name bot)
           (fst (delete_links a (w_tables w)))
           (fst (delete_airplanes a (w_tables w)))
           (fst (delete_bases a (w_tables w)))
           (Z.of_nat (List.length (reset_fleet e w)))) /\
    w_counters (snd (reset_single_bot a e w))
    = snd (rebuild a (reset_country bot) (reset_cycle (w_tables w))
                   (reset_fleet e w) (w_tables w) (w_counters w)) /\
    w_rng (snd (reset_single_bot a e w))
    = (w_rng w + draws (select_cheap_models (w_tables w)))%nat.
Proof.
  unfold reset_single_bot, handler.
  destruct (reset_single_bot_body a e (connect w)) as [[r | msg] c] eqn:E;
    simpl; [| discriminate].
  intros Hr. unfold reset_single_bot_body in E.
  run_step. run_step. subst.
  destruct (hd_error (select_bot a (work (connect w)))) as [bot|] eqn:Hb.
  2:{ run_step. subst. discriminate Hr. }
  destruct (b_airline_type bot =? 2) eqn:Ht; cbn [negb] in E.
  2:{ run_step. subst. discriminate Hr. }
  exists bot. split; [exact Hb|].
  repeat run_step.
  repeat match goal with
  | H : (_, _) = (_, _) |- _ => inversion H; clear H
  end.
  subst. cbn [auto rng after drew work connect].
  repeat split.
Qed.

Lemma filter_split_length {A} (p : A -> bool) (l : list A) :
  (List.length (filter (fun r => negb (p r)) l)
   + List.length (filter p l) = List.length l)%nat.
Proof.
  induction l as [|x l IH]; simpl; [reflexivity|].
  destruct (p x); simpl; lia.
Qed.

(** The numbers in the answer of a reset are those of the rows: the routes,
    the airplanes and the bases the bot had before, and the airplanes it
    has now; the name is that of the airline. *)
Theorem reset_single_bot_counts (a : Z) (e : env) (w : world) :
  let t := w_tables w in
  let t' := w_tables (snd (reset_single_bot a e w)) in
  success (fst (reset_single_bot a e w)) = true ->
  exists bot,
    hd_error (select_bot a t) = Some bot /\
    message (fst (reset_single_bot a e w))
    = reset_single_bot_message (b_name bot)
        (Z.of_nat (List.length (routes_of a t)))
        (Z.of_nat (List.length (fleet_of a t)))
        (Z.of_nat (List.length (bases_of a t)))
        (Z.of_nat (List.length (fleet_of a t'))) /\
    (List.length (link t') + List.length (routes_of a t)
     = List.length (link t))%nat /\
    (List.length (airplane t') + List.length (fleet_of a t)
     = List.length (airplane t) + List.length (fleet_of a t'))%nat.
Proof.
  intros t t' Hs.
  destruct (reset_single_bot_run a e w Hs) as (bot & Hb & Hr & _).
  destruct (reset_single_bot_success a e w Hs) as (bot' & Hb' & _ & Ht & _).
  assert (bot' = bot) by congruence. subst bot'.
  exists bot. split; [exact Hb|].
  assert (Hf : fleet_of a t'
               = fleet_rows (next_airplane_id (w_counters w))
                   (reset_fleet e w) a (reset_cycle t)
                   (hq_airport_of (reset_country bot) t)).
  { unfold fleet_of, t'. rewrite Ht. apply reset_tables_fleet. }
  split; [| split].
  - rewrite Hr, Hf, fleet_rows_length. reflexivity.
  - unfold t'. rewrite Ht.
    rewrite (proj1 (reset_tables_dependents a bot e w)).
    apply filter_split_length.
  - rewrite Hf. unfold t'. rewrite Ht, reset_tables_airplane.
    rewrite length_app.
    pose proof (filter_split_length (fun p => ap_owner p =? a)
                  (airplane t)) as H.
    unfold fleet_of. fold t. lia.
Qed.

Lemma reset_single_bot_counts_witness :
  message (fst (reset_single_bot 1 Sample.e_ok Sample.w0))
  = reset_single_bot_message "Air France Regional" 1 1 1 2.
Proof.
  destruct (reset_single_bot_counts 1 Sample.e_ok Sample.w0 eq_refl)
    as (bot & Hb & Hm & _).
  vm_compute in Hb. inversion Hb; subst bot. exact Hm.
Defined.

(** *** The batch reset, bot by bot *)

Lemma create_hq_base_created hq cc a cy e c b c' :
  create_hq_base hq cc a cy e c = (Returned b, c') ->
  b = match given_id hq, given cc with
      | Some _, Some _ => true
      | _, _ => false
      end.
Proof.
  unfold create_hq_base.
  destruct (given_id hq) as [h|]; [destruct (given cc) as [code|] |];
    intros H.
  - apply bind_returned in H. destruct H as (u & c1 & _ & H).
    apply ret_returned in H. apply H.
  - apply ret_returned in H. apply H.
  - apply ret_returned in H. apply H.
Qed.

(** One turn of the loop of [reset_bots]. *)
Lemma reset_bots_step_after cy pool bot tot e c tot' c' :
  reset_bots_step cy pool bot tot e c = (Returned tot', c') ->
  let r := rebuild (b_id bot) (reset_country bot) cy
                   (drawn_models (draw e) (rng c) pool) (work c) (auto c) in
  work c' = fst r /\ auto c' = snd r /\
  rng c' = (rng c + draws pool)%nat /\ committed c' = committed c /\
  balanced (work c) (work c') tot tot'.
Proof.
  unfold reset_bots_step. intros H.
  run_step. run_step. destruct x as [[routes aircraft] bases].
  run_step. run_step. run_step. run_step.
  match goal with
  | H0 : create_hq_base _ _ _ _ _ _ = _ |- _ =>
      pose proof (create_hq_base_created _ _ _ _ _ _ _ _ H0) as Hc
  end.
  repeat run_step.
  repeat match goal with
  | H0 : (_, _) = (_, _) |- _ => inversion H0; clear H0
  end.
  subst. cbn [work auto rng committed after drew].
  fold (reset_country bot).
  split; [reflexivity|]. split; [reflexivity|].
  split; [reflexivity|]. split; [reflexivity|].
  match goal with
  | |- balanced ?t0 (fst (insert_fleet ?ms ?o ?cyc ?h ?t1 ?n1)) _ _ =>
      change (fst (insert_fleet ms o cyc h t1 n1))
        with (fst (rebuild (b_id bot) (reset_country bot) cy ms t0 n1))
  end.
  destruct (rebuild_tables (b_id bot) (reset_country bot) cy
              (drawn_models (draw e) (rng c) pool) (work c) (auto c))
    as (_ & H2 & H3 & H4 & _).
  unfold balanced. rewrite H2, H3, H4, !length_app, fleet_rows_length.
  cbn [routes_deleted aircraft_deleted bases_deleted aircraft_added
       hqs_created].
  pose proof (filter_split_length (fun l => ln_airline l =? b_id bot)
                (link (work c))) as L1.
  pose proof (filter_split_length (fun p => ap_owner p =? b_id bot)
                (airplane (work c))) as L2.
  pose proof (filter_split_length (fun b => ab_airline b =? b_id bot)
                (airline_base (work c))) as L3.
  unfold delete_links, delete_airplanes, delete_bases, delete_where.
  cbn [fst].
  repeat split; try lia.
  destruct (given_id _); [destruct (given _)|]; cbn [List.length]; lia.
Qed.

Lemma balanced_refl t n : balanced t t n n.
Proof. unfold balanced. lia. Qed.

Lemma balanced_trans t1 t2 t3 n1 n2 n3 :
  balanced t1 t2 n1 n2 -> balanced t2 t3 n2 n3 -> balanced t1 t3 n1 n3.
Proof. unfold balanced. lia. Qed.

(** The loop of [reset_bots]. *)
Lemma reset_bots_loop_after cy pool bots :
  forall tot e c tot' c',
    for_each bots (reset_bots_step cy pool) tot e c = (Returned tot', c') ->
    work c' = fst (batch bots cy pool (draw e) (rng c) (work c) (auto c)) /\
    auto c' = snd (batch bots cy pool (draw e) (rng c) (work c) (auto c)) /\
    committed c' = committed c /\
    balanced (work c) (work c') tot tot'.
Proof.
  induction bots as [|bot bots IH]; intros tot e c tot' c' H.
  - simpl for_each in H. apply ret_returned in H. destruct H as [-> ->].
    repeat split; apply balanced_refl.
  - simpl for_each in H. apply bind_returned in H.
    destruct H as (tot1 & c1 & H1 & H).
    apply reset_bots_step_after in H1. cbv zeta in H1.
    destruct H1 as (Hw & Ha & Hr & Hc & Hb).
    apply IH in H. destruct H as (Hw' & Ha' & Hc' & Hb').
    rewrite Hw, Ha, Hr in Hw', Ha'. cbn [batch].
    split; [exact Hw'|]. split; [exact Ha'|]. split; [congruence|].
    exact (balanced_trans _ _ _ _ _ _ Hb Hb').
Qed.

(** The whole outcome of a batch reset that succeeds. *)
Lemma reset_bots_run (e : env) (w : world) :
  let t := w_tables w in
  let bots := select_bots t in
  success (fst (reset_bots e w)) = true ->
  match bots with
  | [] =>
      reset_bots e w
      = (jsonify 200 true "No bot airlines found to reset",
         {| w_tables := t; w_counters := w_counters w;
            w_log := w_log w ++ [SelectBots]; w_rng := w_rng w |})
  | _ :: _ =>
      w_tables (snd (reset_bots e w))
      = fst (batch bots (reset_cycle t) (select_cheap_models t) (draw e)
                   (w_rng w) t (w_counters w)) /\
      exists n,
        fst (reset_bots e w)
        = {| status := 200; success := true;
             message := reset_bots_message (List.length bots) n;
             bots_reset := Some (map b_name bots); airline_id := None |} /\
        balanced t (w_tables (snd (reset_bots e w))) no_totals n
  end.
Proof.
  intros t bots. unfold reset_bots, handler.
  destruct (reset_bots_body e (connect w)) as [[r | msg] c] eqn:E;
    simpl; [| discriminate].
  intros Hr. unfold reset_bots_body in E.
  run_step. run_step. subst. cbn [work connect after] in E.
  fold t bots in E. destruct bots as [|bot bots'] eqn:Hbots.
  - run_step. subst. reflexivity.
  - run_step. run_step. run_step. run_step. run_step.
    match goal with
    | H : for_each _ _ _ _ _ = _ |- _ =>
        apply reset_bots_loop_after in H;
        destruct H as (Hw & Ha & Hc & Hb)
    end.
    repeat run_step. subst.
    cbn [work auto rng committed after connect close w_tables] in *.
    split; [exact Hw|].
    eexists. split; [reflexivity|]. rewrite Hw in Hb. rewrite Hw. exact Hb.
Qed.

Lemma same_rows_trans a t1 t2 t3 :
  same_rows a t1 t2 -> same_rows a t2 t3 -> same_rows a t1 t3.
Proof.
  unfold same_rows. intros (A1 & A2 & A3 & A4 & A5) (B1 & B2 & B3 & B4 & B5).
  repeat split; congruence.
Qed.

Lemma same_catalogs_trans t1 t2 t3 :
  same_catalogs t1 t2 -> same_catalogs t2 t3 -> same_catalogs t1 t3.
Proof.
  unfold same_catalogs. intros (A1 & A2 & A3 & A4) (B1 & B2 & B3 & B4).
  repeat split; congruence.
Qed.

Lemma wiped_same_rows a t t' : same_rows a t t' -> wiped a t -> wiped a t'.
Proof.
  unfold same_rows, wiped. intros (-> & -> & -> & -> & ->) H. exact H.
Qed.

Lemma drawn_models_bound draw pos pool :
  (List.length (drawn_models draw pos pool) <= 5)%nat.
Proof.
  rewrite (proj1 (drawn_models_sample draw pos pool)). apply Nat.le_min_l.
Qed.

(** Whatever the state of a bot, its reset leaves it wiped. *)
Lemma rebuild_wiped a cc cy drawn t n :
  (List.length drawn <= 5)%nat -> wiped a (fst (rebuild a cc cy drawn t n)).
Proof.
  intros Hd.
  destruct (rebuild_tables a cc cy drawn t n) as (H1 & H2 & H3 & H4 & H5).
  unfold wiped, profiles_of, bases_of, fleet_of, routes_of, appeal_of.
  rewrite H1, H2, H3, H4, H5, !filter_app, !filter_deleted.
  cbn [app]. rewrite fleet_rows_owned, fleet_rows_length.
  split; [reflexivity|]. split; [reflexivity|].
  split; [apply profiles_after_update|].
  split; [| split; [| split; [exact Hd | apply fleet_rows_fresh]]].
  - destruct (given_id _); [destruct (given _)|]; simpl;
      try rewrite Z.eqb_refl; simpl; lia.
  - destruct (given_id _); [destruct (given _)|]; simpl;
      try rewrite Z.eqb_refl; repeat constructor.
Qed.

Section Batch.

Variables (cy : Z) (pool : list airplane_model_row) (draw : nat -> nat).

Lemma batch_catalogs bots :
  forall pos t n, same_catalogs t (fst (batch bots cy pool draw pos t n)).
Proof.
  induction bots as [|bot bots IH]; intros pos t n; cbn [batch].
  - repeat split.
  - eapply same_catalogs_trans; [apply rebuild_catalogs | apply IH].
Qed.

Lemma batch_same_rows bots x :
  ~ In x (map b_id bots) ->
  forall pos t n, same_rows x t (fst (batch bots cy pool draw pos t n)).
Proof.
  induction bots as [|bot bots IH]; intros Hx pos t n; cbn [batch].
  - repeat split.
  - eapply same_rows_trans.
    + apply rebuild_same_rows. intros E. apply Hx. simpl. left.
      symmetry. exact E.
    + apply IH. intros Hi. apply Hx. right. exact Hi.
Qed.

Lemma batch_wiped bots a :
  In a (map b_id bots) ->
  forall pos t n, wiped a (fst (batch bots cy pool draw pos t n)).
Proof.
  induction bots as [|bot bots IH]; intros Ha pos t n; cbn [batch];
    [contradiction|].
  destruct (in_dec Z.eq_dec a (map b_id bots)) as [Hin | Hout].
  - apply IH. exact Hin.
  - destruct Ha as [<- | Ha]; [| contradiction].
    eapply wiped_same_rows; [apply batch_same_rows; exact Hout|].
    apply rebuild_wiped. apply drawn_models_bound.
Qed.

End Batch.

(** A batch reset that succeeds leaves every bot wiped, also a bot that the
    loop meets more than once, and is confined to the bots: the rows of the
    other airlines, and the airlines, airports, airplane models and cycles,
    are as before. *)
Theorem reset_bots_wipes_the_bots (e : env) (w : world) :
  let t := w_tables w in
  let t' := w_tables (snd (reset_bots e w)) in
  success (fst (reset_bots e w)) = true ->
  (forall a, In a (bot_ids t) -> wiped a t') /\
  (forall x, ~ In x (bot_ids t) -> same_rows x t t') /\
  same_catalogs t t'.
Proof.
  intros t t' Hs. pose proof (reset_bots_run e w Hs) as H.
  cbv zeta in H. unfold bot_ids, t'. fold t in H |- *.
  destruct (select_bots t) as [|bot bots] eqn:Hb.
  - rewrite H. cbn [snd w_tables map].
    split; [intros a0 [] |]. split; [intros x _|]; repeat split.
  - destruct H as [-> _]. split; [| split].
    + intros a Ha. apply batch_wiped. exact Ha.
    + intros x Hx. apply batch_same_rows. exact Hx.
    + apply batch_catalogs.
Qed.

(** In the sample, bot 1 loses its route and the player keeps its
    airplane. *)
Lemma reset_bots_wipes_the_bots_witness :
  wiped 1 (w_tables (snd (reset_bots Sample.e_ok Sample.w0))) /\
  fleet_of 3 (w_tables (snd (reset_bots Sample.e_ok Sample.w0)))
  = fleet_of 3 Sample.t0.
Proof.
  destruct (reset_bots_wipes_the_bots Sample.e_ok Sample.w0 eq_refl)
    as (Hw & Hf & _).
  split.
  - apply Hw. left. reflexivity.
  - destruct (Hf 3) as (_ & _ & H & _); [| exact H].
    intros [H | [H | [H | []]]]; discriminate H.
Defined.

(** The numbers in the answer of a batch reset that found bots account for
    the rows: the routes, airplanes and bases reported as deleted, and the
    headquarters and airplanes reported as created, are the differences of
    the table sizes; and the answer lists the names of the bots. *)
Theorem reset_bots_counts (e : env) (w : world) :
  let t := w_tables w in
  let t' := w_tables (snd (reset_bots e w)) in
  success (fst (reset_bots e w)) = true ->
  select_bots t <> [] ->
  bots_reset (fst (reset_bots e w)) = Some (map b_name (select_bots t)) /\
  exists n,
    message (fst (reset_bots e w))
    = reset_bots_message (List.length (select_bots t)) n /\
    Z.of_nat (List.length (link t'))
    = Z.of_nat (List.length (link t)) - routes_deleted n /\
    Z.of_nat (List.length (airplane t'))
    = Z.of_nat (List.length (airplane t)) - aircraft_deleted n
      + aircraft_added n /\
    Z.of_nat (List.length (airline_base t'))
    = Z.of_nat (List.length (airline_base t)) - bases_deleted n
      + hqs_created n.
Proof.
  intros t t' Hs Hne. pose proof (reset_bots_run e w Hs) as H.
  cbv zeta in H. fold t in H |- *.
  destruct (select_bots t) as [|bot bots]; [contradiction Hne; reflexivity|].
  destruct H as [_ (n & Hr & Hb)]. rewrite Hr. cbn [bots_reset message].
  split; [reflexivity|]. exists n. split; [reflexivity|].
  unfold balanced, no_totals in Hb.
  cbn [routes_deleted aircraft_deleted bases_deleted aircraft_added
       hqs_created] in Hb.
  unfold t'. lia.
Qed.

Lemma reset_bots_counts_witness :
  bots_reset (fst (reset_bots Sample.e_ok Sample.w0))
  = Some ["Air France Regional"; "Zeta Air"; "Omega Wings"].
Proof.
  apply (reset_bots_counts Sample.e_ok Sample.w0 eq_refl).
  discriminate.
Defined.

(** Without a bot, [reset_bots] sends its first SELECT and nothing else: no
    DELETE, no commit; and when the SELECT runs the answer is a success
    that says so. *)
Theorem reset_bots_without_bots (e : env) (w : world) :
  select_bots (w_tables w) = [] ->
  w_log (snd (reset_bots e w)) = w_log w ++ [SelectBots] /\
  w_tables (snd (reset_bots e w)) = w_tables w /\
  (fault e (List.length (w_log w)) SelectBots = None ->
   fst (reset_bots e w)
   = jsonify 200 true "No bot airlines found to reset").
Proof.
  intros Hb. remember (reset_bots e w) as r eqn:E.
  unfold reset_bots, handler, reset_bots_body in E.
  unfold bind at 1 in E. unfold fetchall at 1 in E.
  unfold execute at 1 in E. cbn [log connect] in E.
  destruct (fault e (List.length (w_log w)) SelectBots) as [msg|].
  - subst r. cbn. repeat split. discriminate.
  - cbn [work connect auto] in E. rewrite Hb in E. subst r. cbn.
    repeat split.
Qed.

Lemma reset_bots_without_bots_witness :
  fst (reset_bots Sample.e_ok
         {| w_tables := set_airline [] Sample.t0;
            w_counters := w_counters Sample.w0; w_log := []; w_rng := 0 |})
  = jsonify 200 true "No bot airlines found to reset".
Proof.
  apply reset_bots_without_bots; reflexivity.
Defined.

(** With one bot, the batch reset and the reset of that bot leave the same
    tables. *)
Theorem reset_bots_of_one_bot (bot : bot_row) (e : env) (w : world) :
  select_bots (w_tables w) = [bot] ->
  hd_error (select_bot (b_id bot) (w_tables w)) = Some bot ->
  success (fst (reset_bots e w)) = true ->
  success (fst (reset_single_bot (b_id bot) e w)) = true ->
  w_tables (snd (reset_bots e w))
  = w_tables (snd (reset_single_bot (b_id bot) e w)).
Proof.
  intros Hb Hh Hs1 Hs2. pose proof (reset_bots_run e w Hs1) as H.
  cbv zeta in H. rewrite Hb in H. destruct H as [-> _].
  destruct (reset_single_bot_success _ e w Hs2) as (bot' & Hb' & _ & -> & _).
  assert (bot' = bot) by congruence. subst bot'.
  rewrite reset_tables_rebuild. reflexivity.
Qed.

Lemma reset_bots_of_one_bot_witness :
  w_tables (snd (reset_bots Sample.e_ok Sample_one.w1))
  = w_tables (snd (reset_single_bot 1 Sample.e_ok Sample_one.w1)).
Proof.
  exact (reset_bots_of_one_bot Sample_one.bot1 Sample.e_ok Sample_one.w1
           eq_refl eq_refl eq_refl eq_refl).
Defined.

(** *** A reset after a reset *)

Lemma rebuild_given a cc cc' cy drawn t n :
  given cc = given cc' ->
  rebuild a cc cy drawn t n = rebuild a cc' cy drawn t n.
Proof.
  intros H. unfold rebuild, hq_airport_of, base_tables. rewrite H.
  reflexivity.
Qed.

Lemma rebuild_dependents a cc cy drawn t n :
  link_assignment (fst (rebuild a cc cy drawn t n))
  = filter (fun r => negb (mem (la_link r) (links_of a t)))
           (link_assignment t) /\
  link_consumption (fst (rebuild a cc cy drawn t n))
  = filter (fun r => negb (mem (lc_link r) (links_of a t)))
           (link_consumption t) /\
  airplane_configuration (fst (rebuild a cc cy drawn t n))
  = filter (fun r => negb (mem (ac_airplane r) (airplanes_of a t)))
           (airplane_configuration t).
Proof.
  unfold rebuild.
  match goal with
  | |- context [insert_fleet ?ms ?o ?c ?h ?t0 ?n0] =>
      destruct (insert_fleet_tables ms o c h t0 n0)
        as (_ & _ & _ & _ & H1 & _ & H2 & H3)
  end.
  rewrite H1, H2, H3. unfold base_tables.
  destruct (given_id _); [destruct (given _)|]; repeat split.
Qed.

Lemma filter_idem {A} (p : A -> bool) (l : list A) :
  filter p (filter p l) = filter p l.
Proof.
  induction l as [|x l IH]; simpl; [reflexivity|].
  destruct (p x) eqn:E; simpl; [rewrite E; f_equal|]; exact IH.
Qed.

Lemma filter_all {A} (l : list A) : filter (fun _ => true) l = l.
Proof. induction l as [|x l IH]; simpl; [| f_equal]; auto. Qed.

Lemma filter_keeps {A} (p : A -> bool) (l : list A) :
  (forall x, In x l -> p x = true) -> filter p l = l.
Proof.
  induction l as [|x l IH]; intros H; simpl; [reflexivity|].
  rewrite (H x (or_introl eq_refl)). f_equal.
  apply IH. intros y Hy. apply H. right. exact Hy.
Qed.

Lemma reset_info_idem a g l :
  map (fun i => if ai_airline i =? a then reset_info g i else i)
    (map (fun i => if ai_airline i =? a then reset_info g i else i) l)
  = map (fun i => if ai_airline i =? a then reset_info g i else i) l.
Proof.
  rewrite map_map. apply map_ext. intros i.
  destruct (ai_airline i =? a) eqn:E; [| rewrite E; reflexivity].
  cbn [reset_info ai_airline]. rewrite E. unfold reset_info.
  destruct g; reflexivity.
Qed.

Lemma hq_airport_of_catalogs cc t t' :
  same_catalogs t t' -> hq_airport_of cc t' = hq_airport_of cc t.
Proof.
  intros (_ & H & _). unfold hq_airport_of, select_largest_airport.
  rewrite H. reflexivity.
Qed.

Lemma reset_cycle_catalogs t t' :
  same_catalogs t t' -> reset_cycle t' = reset_cycle t.
Proof.
  intros (_ & _ & _ & H). unfold reset_cycle, select_max_cycle.
  rewrite H. reflexivity.
Qed.

Lemma select_cheap_models_catalogs t t' :
  same_catalogs t t' -> select_cheap_models t' = select_cheap_models t.
Proof.
  intros (_ & _ & H & _). unfold select_cheap_models. rewrite H.
  reflexivity.
Qed.

(** The second of two resets with the same country changes neither the
    profile, nor the base, nor any table of routes. *)
Lemma rebuild_twice a cc cy d1 d2 t n n' :
  let t1 := fst (rebuild a cc cy d1 t n) in
  let t2 := fst (rebuild a cc cy d2 t1 n') in
  airline_info t2 = airline_info t1 /\
  airline_base t2 = airline_base t1 /\
  link t2 = link t1 /\
  link_assignment t2 = link_assignment t1 /\
  link_consumption t2 = link_consumption t1 /\
  airline_appeal t2 = airline_appeal t1.
Proof.
  intros t1 t2.
  destruct (rebuild_tables a cc cy d1 t n) as (A1 & A2 & _ & A4 & A5).
  destruct (rebuild_tables a cc cy d2 t1 n') as (B1 & B2 & _ & B4 & B5).
  destruct (rebuild_dependents a cc cy d2 t1 n') as (C1 & C2 & _).
  fold t1 in A1, A2, A4, A5. fold t2 in B1, B2, B4, B5, C1, C2.
  rewrite (hq_airport_of_catalogs cc t t1 (rebuild_catalogs _ _ _ _ _ _))
    in B2.
  assert (L : links_of a t1 = []).
  { unfold links_of. rewrite A4, filter_deleted. reflexivity. }
  rewrite L in C1, C2. cbn [mem existsb negb] in C1, C2.
  rewrite filter_all in C1. rewrite filter_all in C2.
  split; [rewrite B1, A1; apply reset_info_idem|].
  split.
  { rewrite B2, A2, filter_app, filter_idem.
    destruct (given_id _); [destruct (given _)|]; simpl;
      try rewrite Z.eqb_refl; simpl; rewrite ?app_nil_r; reflexivity. }
  split; [rewrite B4, A4; apply filter_idem|].
  split; [exact C1|]. split; [exact C2|].
  rewrite B5, A5. apply filter_idem.
Qed.

Lemma profiles_updated a g l :
  filter (fun i => ai_airline i =? a)
    (map (fun i => if ai_airline i =? a then reset_info g i else i) l)
  = map (reset_info g) (filter (fun i => ai_airline i =? a) l).
Proof.
  induction l as [|i l IH]; simpl; [reflexivity|].
  destruct (ai_airline i =? a) eqn:E; simpl; rewrite E; [f_equal|];
    exact IH.
Qed.

Lemma given_some o c : given o = Some c -> given (Some c) = Some c.
Proof.
  unfold given. destruct (str_true o) eqn:E; [| discriminate].
  intros ->. rewrite E. reflexivity.
Qed.

(** After the reset of a bot, the row that the next reset reads gives the
    same country: the stored code is the one the reset wrote, or the name
    is looked up again. *)
Lemma select_bot_after_rebuild a bot cy d t n :
  hd_error (select_bot a t) = Some bot ->
  exists bot1,
    hd_error (select_bot a (fst (rebuild a (reset_country bot) cy d t n)))
    = Some bot1 /\
    given (reset_country bot1) = given (reset_country bot).
Proof.
  intros Hb.
  destruct (rebuild_catalogs a (reset_country bot) cy d t n) as (Ha & _).
  destruct (rebuild_tables a (reset_country bot) cy d t n) as (Hi & _).
  unfold select_bot in *. rewrite Ha.
  destruct (filter (fun al => al_id al =? a) (airline t)) as [|al0 rest] eqn:F;
    [discriminate Hb|].
  assert (Hid : al_id al0 = a).
  { assert (Hin : In al0 (filter (fun al => al_id al =? a) (airline t)))
      by (rewrite F; left; reflexivity).
    apply filter_In in Hin. apply Z.eqb_eq. apply Hin. }
  cbn [flat_map] in *. unfold left_join_info at 1 in Hb.
  unfold left_join_info at 1. rewrite Hi, Hid in *.
  rewrite profiles_updated.
  destruct (filter (fun i => ai_airline i =? a) (airline_info t))
    as [|i0 infos].
  - cbn in Hb |- *. inversion Hb; subst bot. eexists. split; reflexivity.
  - cbn [map app hd_error] in Hb |- *. inversion Hb as [Hbot].
    eexists. split; [reflexivity|].
    unfold reset_country at 1. cbn [b_country_code b_name reset_info
                                     ai_country_code].
    rewrite Hbot.
    destruct (given (reset_country bot)) as [c|] eqn:G.
    + pose proof (given_some _ _ G) as G'. unfold given in G'.
      unfold infer_country, given.
      destruct (str_true (Some c)) eqn:E; [| discriminate G'].
      cbn [negb]. rewrite E. reflexivity.
    + rewrite <- G. subst bot. reflexivity.
Qed.

(** A reset after a reset changes the airplanes of the bot and the
    airplane configurations that name one of them, and nothing else. When
    the reset of a bot that has just been reset succeeds again, whatever the
    draws, the profiles, the bases, the routes with their assignments and
    consumptions, the appeal records and the catalogs are those the first
    reset left; the airplanes of the other airlines are the same; the
    configurations are those the first reset left without the rows that
    name an airplane of the bot, which are all of them when no row names
    one; and the bot has as many airplanes as before. *)
Theorem reset_single_bot_twice (a : Z) (e1 e2 : env) (w : world) :
  let w1 := snd (reset_single_bot a e1 w) in
  let t1 := w_tables w1 in
  let t2 := w_tables (snd (reset_single_bot a e2 w1)) in
  success (fst (reset_single_bot a e1 w)) = true ->
  success (fst (reset_single_bot a e2 w1)) = true ->
  airline_info t2 = airline_info t1 /\
  airline_base t2 = airline_base t1 /\
  link t2 = link t1 /\
  link_assignment t2 = link_assignment t1 /\
  link_consumption t2 = link_consumption t1 /\
  airline_appeal t2 = airline_appeal t1 /\
  same_catalogs t1 t2 /\
  (forall x, x <> a -> fleet_of x t2 = fleet_of x t1) /\
  airplane_configuration t2
  = filter (fun r => negb (mem (ac_airplane r) (airplanes_of a t1)))
           (airplane_configuration t1) /\
  ((forall r, In r (airplane_configuration t1) ->
              ~ In (ac_airplane r) (airplanes_of a t1)) ->
   airplane_configuration t2 = airplane_configuration t1) /\
  List.length (fleet_of a t2) = List.length (fleet_of a t1).
Proof.
  intros w1 t1 t2 Hs1 Hs2. subst t2 t1 w1.
  destruct (reset_single_bot_success a e1 w Hs1) as (bot & Hb & _ & Ht1 & _).
  remember (snd (reset_single_bot a e1 w)) as w1 eqn:Ew. clear Ew.
  destruct (reset_single_bot_success a e2 w1 Hs2)
    as (bot1 & Hb1 & _ & Ht2 & _).
  remember (w_tables w1) as t1 eqn:Et1.
  remember (w_tables (snd (reset_single_bot a e2 w1))) as t2 eqn:Et2.
  clear Et2.
  assert (Hcfg : airplane_configuration t2
                 = filter (fun r => negb (mem (ac_airplane r)
                                              (airplanes_of a t1)))
                          (airplane_configuration t1)).
  { rewrite Ht2, Et1.
    exact (proj2 (proj2 (proj2 (reset_tables_dependents a bot1 e2 w1)))). }
  rewrite reset_tables_rebuild in Ht1, Ht2.
  rewrite <- Et1 in Ht2.
  set (cc := reset_country bot) in *.
  set (cy := reset_cycle (w_tables w)) in *.
  assert (Hcat : same_catalogs (w_tables w) t1).
  { rewrite Ht1. apply rebuild_catalogs. }
  destruct (select_bot_after_rebuild a bot cy (reset_fleet e1 w)
              (w_tables w) (w_counters w) Hb) as (bot1' & Hb1' & Hg).
  fold cc in Hb1', Hg. rewrite <- Ht1 in Hb1'.
  assert (bot1' = bot1) by congruence. subst bot1'.
  rewrite (rebuild_given a _ cc _ _ _ _ Hg) in Ht2.
  rewrite (reset_cycle_catalogs _ _ Hcat) in Ht2. fold cy in Ht2.
  assert (Hcat2 : same_catalogs t1 t2).
  { rewrite Ht2. apply rebuild_catalogs. }
  pose proof (rebuild_twice a cc cy (reset_fleet e1 w) (reset_fleet e2 w1)
                (w_tables w) (w_counters w) (w_counters w1)) as H.
  cbv zeta in H. rewrite <- Ht1 in H. rewrite <- Ht2 in H.
  destruct H as (H1 & H2 & H3 & H4 & H5 & H6).
  repeat (split; [assumption|]).
  split.
  { intros x Hx. rewrite Ht2.
    exact (proj1 (proj2 (proj2 (rebuild_same_rows a cc cy _ t1 _ x Hx)))). }
  split; [exact Hcfg|].
  split.
  { intros Hn. rewrite Hcfg. apply filter_keeps. intros r Hr.
    apply negb_true_iff. destruct (mem _ _) eqn:E; [| reflexivity].
    apply mem_In in E. destruct (Hn r Hr E). }
  assert (F : forall d t0 n0,
             List.length (fleet_of a (fst (rebuild a cc cy d t0 n0)))
             = List.length d).
  { intros d t0 n0. unfold fleet_of.
    destruct (rebuild_tables a cc cy d t0 n0) as (_ & _ & -> & _).
    rewrite filter_app, filter_deleted, fleet_rows_owned.
    apply fleet_rows_length. }
  rewrite Ht2, Ht1, !F. unfold reset_fleet.
  rewrite !(proj1 (drawn_models_sample _ _ _)).
  rewrite <- Et1. rewrite (select_cheap_models_catalogs _ _ Hcat).
  reflexivity.
Qed.

Lemma reset_single_bot_twice_witness :
  airline_base
    (w_tables
       (snd (reset_single_bot 1 Sample.e_ok
               (snd (reset_single_bot 1 Sample.e_ok Sample.w0)))))
  = airline_base (w_tables (snd (reset_single_bot 1 Sample.e_ok Sample.w0)))
  /\
  airplane_configuration
    (w_tables
       (snd (reset_single_bot 1 Sample.e_ok
               (snd (reset_single_bot 1 Sample.e_ok Sample.w0)))))
  = airplane_configuration
      (w_tables (snd (reset_single_bot 1 Sample.e_ok Sample.w0))).
Proof.
  destruct (reset_single_bot_twice 1 Sample.e_ok Sample.e_ok Sample.w0
              eq_refl eq_refl)
    as (_ & Hb & _ & _ & _ & _ & _ & _ & _ & Hc & _).
  split; [exact Hb|]. apply Hc.
  intros r Hr. vm_compute in Hr.
  destruct Hr as [<- | []]. vm_compute.
  intros H. repeat (destruct H as [H | H]; [discriminate H|]). exact H.
Defined.

(** *** What a create adds *)

Lemma create_tables_rest body hq cc e w :
  let t := w_tables w in
  let t' := create_tables body hq cc e w in
  link t' = link t /\ link_assignment t' = link_assignment t /\
  link_consumption t' = link_consumption t /\
  airplane_configuration t' = airplane_configuration t /\
  airline_appeal t' = airline_appeal t /\ airport t' = airport t /\
  airplane_model t' = airplane_model t /\ cycle t' = cycle t.
Proof.
  intros t t'. unfold t', create_tables.
  match goal with
  | |- context [insert_fleet ?ms ?o ?c ?h ?t0 ?n0] =>
      destruct (insert_fleet_tables ms o c h t0 n0)
        as (_ & _ & _ & _ & H1 & H2 & H3 & H4);
      destruct (insert_fleet_rest ms o c h t0 n0) as (H5 & H6 & H7 & H8 & _)
  end.
  rewrite H1, H2, H3, H4, H5, H6, H7, H8. repeat split.
Qed.

Lemma fleet_rows_home start ms owner cy home :
  Forall (fun p => ap_owner p = owner /\ ap_home p = home)
         (fleet_rows start ms owner cy home).
Proof.
  revert start. induction ms as [|m ms IH]; intros start; simpl;
    constructor; [split; reflexivity | apply IH].
Qed.

(** A create that succeeds only adds rows: one airline, with the id that
    the answer gives, one profile, one base, and at most 5 airplanes, all
    of the new airline and based at its headquarters; every row from before
    is still there, in its place, and the other tables are untouched. *)
Theorem create_bot_appends (body : request_json) (e : env) (w : world) :
  let t := w_tables w in
  let t' := w_tables (snd (create_bot body e w)) in
  success (fst (create_bot body e w)) = true ->
  exists a profile base fleet,
    airline_id (fst (create_bot body e w)) = Some a /\
    airline t'
    = airline t ++ [{| al_id := a; al_name := create_name body;
                       al_airline_type := 2 |}] /\
    airline_info t' = airline_info t ++ [profile] /\
    ai_airline profile = a /\
    airline_base t' = airline_base t ++ [base] /\
    ab_airline base = a /\
    ai_country_code profile = Some (ab_country base) /\
    airplane t' = airplane t ++ fleet /\
    (List.length fleet <= 5)%nat /\
    Forall (fun p => ap_owner p = a /\ ap_home p = Some (ab_airport base))
           fleet /\
    link t' = link t /\ link_assignment t' = link_assignment t /\
    link_consumption t' = link_consumption t /\
    airplane_configuration t' = airplane_configuration t /\
    airline_appeal t' = airline_appeal t /\ airport t' = airport t /\
    airplane_model t' = airplane_model t /\ cycle t' = cycle t.
Proof.
  intros t t' Hs.
  destruct (create_bot_success body e w Hs) as (hq & cc & _ & Hid & Ht & _).
  destruct (create_tables_fields body hq cc e w) as (H1 & H2 & H3 & H4).
  pose proof (create_tables_rest body hq cc e w) as Hrest.
  cbv zeta in Hrest.
  unfold t'. rewrite Ht.
  exists (next_airline_id (w_counters w)). eexists. eexists. eexists.
  split; [exact Hid|]. split; [exact H1|]. split; [exact H2|].
  split; [reflexivity|]. split; [exact H3|]. split; [reflexivity|].
  split; [reflexivity|]. split; [exact H4|].
  split; [rewrite fleet_rows_length; apply reset_fleet_bound|].
  split; [| exact Hrest].
  apply fleet_rows_home.
Qed.

Lemma create_bot_appends_witness :
  exists a,
    airline_id (fst (create_bot (Some [("name", "Polar Air")]) Sample.e_ok
                                Sample.w0)) = Some a /\
    map al_id
      (airline (w_tables (snd (create_bot (Some [("name", "Polar Air")])
                                          Sample.e_ok Sample.w0))))
    = map al_id (airline Sample.t0) ++ [a].
Proof.
  destruct (create_bot_appends (Some [("name", "Polar Air")]) Sample.e_ok
              Sample.w0 eq_refl)
    as (a & profile & base & fleet & Ha & Hl & _).
  exists a. split; [exact Ha|].
  rewrite Hl, map_app. reflexivity.
Defined.

(** An airport hint wins over the country code: with the hint, the country
    code of the request is not read. The new bot is based at the first
    airport with the IATA code of the hint, and its country is that of the
    airport. *)
Theorem create_bot_hint_wins (body1 body2 : request_json) (iata : string)
  (e : env) (w : world) :
  create_name body1 = create_name body2 ->
  given (dict_get (create_data body1) "airport_iata") = Some iata ->
  given (dict_get (create_data body2) "airport_iata") = Some iata ->
  create_bot body1 e w = create_bot body2 e w /\
  (success (fst (create_bot body1 e w)) = true ->
   exists row a,
     hd_error (filter (fun p => String.eqb (apt_iata p) iata)
                      (airport (w_tables w))) = Some row /\
     airline_id (fst (create_bot body1 e w)) = Some a /\
     bases_of a (w_tables (snd (create_bot body1 e w)))
     = bases_of a (w_tables w)
       ++ [{| ab_airport := apt_id row; ab_airline := a; ab_scale := 1;
              ab_founded_cycle := reset_cycle (w_tables w);
              ab_headquarter := 1;
              ab_country := apt_country_code row |}]).
Proof.
  intros Hn H1 H2. split.
  - unfold create_bot. f_equal. unfold create_bot_body. cbv zeta.
    change (match body1 with Some d => d | None => [] end)
      with (create_data body1).
    change (match body2 with Some d => d | None => [] end)
      with (create_data body2).
    change (match dict_get (create_data body1) "name" with
            | Some v => v | None => "New Bot Airline" end)
      with (create_name body1).
    change (match dict_get (create_data body2) "name" with
            | Some v => v | None => "New Bot Airline" end)
      with (create_name body2).
    rewrite H1, H2, Hn. reflexivity.
  - intros Hs.
    destruct (create_bot_success body1 e w Hs)
      as (hq & cc & Hh & Hid & Ht & _).
    unfold create_home in Hh. rewrite H1 in Hh.
    unfold select_airport_by_iata in Hh.
    destruct (hd_error (filter (fun p => String.eqb (apt_iata p) iata)
                               (airport (w_tables w)))) as [row|];
      [| discriminate Hh].
    inversion Hh; subst hq cc.
    exists row, (next_airline_id (w_counters w)).
    split; [reflexivity|]. split; [exact Hid|].
    rewrite Ht.
    destruct (create_tables_fields body1 (apt_id row) (apt_country_code row)
                e w) as (_ & _ & H3 & _).
    unfold bases_of. rewrite H3, filter_app. simpl.
    rewrite Z.eqb_refl. reflexivity.
Qed.

(** A create with the hint ORY, with and without a country code. *)
Lemma create_bot_hint_wins_witness :
  create_bot (Some [("airport_iata", "ORY"); ("country_code", "US")])
             Sample.e_ok Sample.w0
  = create_bot (Some [("airport_iata", "ORY")]) Sample.e_ok Sample.w0.
Proof.
  exact (proj1 (create_bot_hint_wins
                  (Some [("airport_iata", "ORY"); ("country_code", "US")])
                  (Some [("airport_iata", "ORY")]) "ORY"
                  Sample.e_ok Sample.w0 eq_refl eq_refl eq_refl)).
Defined.

(** ** The country of an airline name *)

Lemma lower_app (s1 s2 : string) :
  Py.lower (s1 ++ s2) = (Py.lower s1 ++ Py.lower s2)%string.
Proof.
  induction s1 as [|c s1 IH]; simpl; [reflexivity | rewrite IH; reflexivity].
Qed.

Lemma prefix_empty (s : string) : String.prefix EmptyString s = true.
Proof. destruct s; reflexivity. Qed.

Lemma prefix_app (k n post : string) :
  String.prefix k n = true -> String.prefix k (n ++ post) = true.
Proof.
  revert n. induction k as [|c k IH]; intros n H; [apply prefix_empty|].
  destruct n as [|d n]; [discriminate H|].
  simpl in *. destruct (ascii_dec c d); [apply IH; exact H | discriminate H].
Qed.

Lemma contains_app_r (k n post : string) :
  Py.contains k n = true -> Py.contains k (n ++ post) = true.
Proof.
  induction n as [|d n IH]; intros H.
  - destruct k as [|c k]; [destruct post; reflexivity|].
    simpl in H. discriminate H.
  - cbn [Py.contains] in H. apply orb_true_iff in H.
    change (Py.contains k (String d n ++ post))
      with (String.prefix k (String d (n ++ post))
            || Py.contains k (n ++ post)).
    apply orb_true_iff. destruct H as [H | H].
    + left. exact (prefix_app k (String d n) post H).
    + right. apply IH. exact H.
Qed.

Lemma contains_app_l (k pre n : string) :
  Py.contains k n = true -> Py.contains k (pre ++ n) = true.
Proof.
  intros H. induction pre as [|d pre IH]; [exact H|].
  change (Py.contains k (String d pre ++ n))
    with (String.prefix k (String d (pre ++ n))
          || Py.contains k (pre ++ n)).
  apply orb_true_iff. right. exact IH.
Qed.

(** A name that gives a country still gives one with text before and after
    it (the country can be another one: the first entry of the table that
    matches decides). *)
Theorem get_country_for_airline_in_context (name pre post : string) :
  get_country_for_airline name <> None ->
  get_country_for_airline (pre ++ name ++ post) <> None.
Proof.
  unfold get_country_for_airline. intros H Hnone.
  destruct (find (fun entry => Py.contains (Py.lower (fst entry))
                                           (Py.lower name))
                 AIRLINE_COUNTRY_MAP) as [entry|] eqn:E;
    [| apply H; reflexivity].
  apply find_some in E. destruct E as [Hin Hc].
  destruct (find (fun entry => Py.contains (Py.lower (fst entry))
                                 (Py.lower (pre ++ name ++ post)))
                 AIRLINE_COUNTRY_MAP) as [entry'|] eqn:E';
    [discriminate Hnone|].
  pose proof (find_none _ _ E' entry Hin) as Hf. cbv beta in Hf.
  rewrite !lower_app in Hf.
  rewrite (contains_app_l _ _ _ (contains_app_r _ _ _ Hc)) in Hf.
  discriminate Hf.
Qed.

Lemma get_country_for_airline_in_context_witness :
  get_country_for_airline ("The " ++ "Qantas" ++ " Group") <> None.
Proof.
  apply get_country_for_airline_in_context. discriminate.
Defined.

(** Every name of the table, in any letter case, gives its own country: no
    entry is hidden by an earlier one. And a country that a name gives is a
    code of the table, never an empty one: the reset takes it. *)
Theorem get_country_for_airline_known_names :
  (forall key code name,
     In (key, code) AIRLINE_COUNTRY_MAP ->
     Py.lower name = Py.lower key ->
     get_country_for_airline name = Some code) /\
  (forall name code,
     get_country_for_airline name = Some code ->
     In code (map snd AIRLINE_COUNTRY_MAP) /\
     given (Some code) = Some code).
Proof.
  split.
  - intros key code name Hin Hl. unfold get_country_for_airline.
    rewrite Hl. clear name Hl.
    change (get_country_for_airline key = Some code).
    unfold AIRLINE_COUNTRY_MAP in Hin. simpl in Hin.
    repeat (destruct Hin as [Hin | Hin];
            [inversion Hin; vm_compute; reflexivity|]).
    contradiction.
  - intros name code H. unfold get_country_for_airline in H.
    destruct (find _ AIRLINE_COUNTRY_MAP) as [entry|] eqn:E;
      [| discriminate H].
    inversion H; subst code. apply find_some in E. destruct E as [Hin _].
    split; [apply in_map; exact Hin|].
    unfold AIRLINE_COUNTRY_MAP in Hin. simpl in Hin.
    repeat (destruct Hin as [Hin | Hin]; [subst entry; reflexivity|]).
    contradiction.
Qed.

Lemma get_country_for_airline_known_names_witness :
  get_country_for_airline "TURKISH AIRLINES" = Some "TR".
Proof.
  apply (proj1 get_country_for_airline_known_names "Turkish Airlines");
    [| reflexivity].
  unfold AIRLINE_COUNTRY_MAP. simpl. tauto.
Defined.

(** ** The game clock *)

(** The week is between 1 and 52 and, with the year, gives the cycle back;
    from one cycle to the next the week goes up by one, and after week 52
    comes week 1 of the next year. Without a cycle row the clock shows
    cycle 0, week 1 of year 1. *)
Theorem get_current_cycle_calendar (t : tables) :
  let j := get_current_cycle t in
  1 <= cj_week j <= 52 /\
  cj_cycle j = (cj_year j - 1) * 52 + (cj_week j - 1) /\
  (cycle t = [] -> cj_cycle j = 0 /\ cj_week j = 1 /\ cj_year j = 1) /\
  (forall t',
     cj_cycle (get_current_cycle t') = cj_cycle j + 1 ->
     let j' := get_current_cycle t' in
     (cj_week j < 52 -> cj_week j' = cj_week j + 1 /\ cj_year j' = cj_year j)
     /\
     (cj_week j = 52 -> cj_week j' = 1 /\ cj_year j' = cj_year j + 1)).
Proof.
  unfold get_current_cycle. cbn [cj_cycle cj_week cj_year].
  set (c := match hd_error (select_cycle t) with
            | Some c => c | None => 0 end).
  split; [pose proof (Z.mod_pos_bound c 52); lia|].
  split; [pose proof (Z.div_mod c 52); lia|].
  split.
  - intros H. unfold c, select_cycle. rewrite H. repeat split.
  - intros t'.
    set (c' := match hd_error (select_cycle t') with
               | Some c => c | None => 0 end).
    intros H. rewrite H. clear H c'.
    pose proof (Z.mod_pos_bound c 52).
    pose proof (Z.mod_pos_bound (c + 1) 52).
    pose proof (Z.div_mod c 52). pose proof (Z.div_mod (c + 1) 52).
    split; intros Hw; nia.
Qed.

Lemma fold_max_le (cs : list Z) (c : Z) : c <= fold_left Z.max cs c.
Proof.
  revert c. induction cs as [|x cs IH]; intros c; simpl; [lia|].
  specialize (IH (Z.max c x)). lia.
Qed.

(** The clock reads the first row of the cycle table, a reset its largest
    cycle. With cycles that are not negative the clock is never ahead of the
    cycle a reset stamps on the rows it writes, and with at most one row they
    agree. *)
Theorem get_current_cycle_and_reset_cycle (t : tables) :
  (forall c, In c (cycle t) -> 0 <= c) ->
  cj_cycle (get_current_cycle t) <= reset_cycle t /\
  ((List.length (cycle t) <= 1)%nat ->
   cj_cycle (get_current_cycle t) = reset_cycle t).
Proof.
  intros H.
  unfold get_current_cycle, reset_cycle, select_cycle, select_max_cycle,
    current_cycle_of.
  destruct (cycle t) as [|c cs]; cbn; [split; [lia | reflexivity]|].
  pose proof (fold_max_le cs c) as Hm.
  pose proof (H c (or_introl eq_refl)) as Hc.
  destruct (fold_left Z.max cs c =? 0) eqn:E.
  - apply Z.eqb_eq in E. split; intros; lia.
  - split; [exact Hm|]. intros Hl.
    destruct cs; [reflexivity | simpl in Hl; lia].
Qed.

Lemma get_current_cycle_and_reset_cycle_witness :
  cj_cycle (get_current_cycle Sample.t0) <= reset_cycle Sample.t0.
Proof.
  apply get_current_cycle_and_reset_cycle.
  intros c Hc. simpl in Hc. lia.
Defined.

Lemma get_current_cycle_calendar_witness :
  cj_week (get_current_cycle (at_cycle 104)) = 1 /\
  cj_year (get_current_cycle (at_cycle 104)) = 3.
Proof.
  destruct (get_current_cycle_calendar (at_cycle 103)) as (_ & _ & _ & H).
  destruct (H (at_cycle 104) eq_refl) as [_ H52].
  exact (H52 eq_refl).
Defined.

(** ** The summary of the bots *)

Lemma fetched_zero (ty : coltype) :
  float_or_zero (fetched ty 0) = Py.Ok 0%float.
Proof.
  destruct ty as [|scale|]; unfold float_or_zero; cbn; try reflexivity.
Qed.

Lemma small_scale (scale : N) :
  (scale <=? 30)%N = true ->
  exists k, (k <= 30)%nat /\ scale = N.of_nat k.
Proof.
  intros H. apply N.leb_le in H. exists (N.to_nat scale).
  split; [lia | rewrite N2Nat.id; reflexivity].
Qed.

Ltac each_scale k :=
  do 31 (destruct k as [|k]; [vm_compute; reflexivity|]); lia.

Lemma fetched_balance (ty : coltype) :
  known_type ty = true ->
  float_or_zero (fetched ty 200000) = Py.Ok 200000%float.
Proof.
  destruct ty as [|scale|]; intros H; [reflexivity | | reflexivity].
  destruct (small_scale scale H) as (k & Hk & ->). each_scale k.
Qed.

Lemma fetched_service_quality (ty : coltype) :
  known_type ty = true ->
  float_or_zero (fetched ty 50) = Py.Ok 50%float.
Proof.
  destruct ty as [|scale|]; intros H; [reflexivity | | reflexivity].
  destruct (small_scale scale H) as (k & Hk & ->). each_scale k.
Qed.

Lemma personality_after_reset (sc : schema) :
  known sc = true ->
  determine_personality (fetched (balance_type sc) 200000)
                        (fetched (reputation_type sc) 0)
                        (fetched (service_quality_type sc) 50)
  = Py.Ok BUDGET.
Proof.
  unfold known. intros H.
  apply andb_true_iff in H. destruct H as [H Hs].
  apply andb_true_iff in H. destruct H as [Hb _].
  unfold determine_personality, convert_stats.
  rewrite (fetched_balance _ Hb), fetched_zero,
    (fetched_service_quality _ Hs).
  reflexivity.
Qed.

Lemma personality_without_profile (sc : schema) :
  determine_personality (fetched (balance_type sc) 0)
                        (fetched (reputation_type sc) 0)
                        (fetched (service_quality_type sc) 0)
  = Py.Ok BUDGET.
Proof.
  unfold determine_personality, convert_stats.
  rewrite !fetched_zero. reflexivity.
Qed.

Lemma count_one_classified (p : personality) (counts : personality -> Z) :
  classified (count_one p counts) = classified counts + 1.
Proof. unfold classified, count_one. destruct p; simpl; lia. Qed.

Lemma count_personalities_classified rows :
  forall counts counts',
    count_personalities rows counts = Py.Ok counts' ->
    classified counts' = classified counts + Z.of_nat (List.length rows) /\
    forall p, counts p <= counts' p.
Proof.
  induction rows as [|bot rows IH]; intros counts counts' H.
  - inversion H; subst. simpl. split; [lia | intros; lia].
  - cbn [count_personalities] in H.
    destruct (determine_personality _ _ _) as [p | e]; [| discriminate H].
    destruct (IH _ _ H) as [Hc Hm]. rewrite count_one_classified in Hc.
    split; [cbn [List.length]; lia|].
    intros q. specialize (Hm q). unfold count_one in Hm.
    destruct (same_personality q p); lia.
Qed.

Lemma float_or_zero_raises (ty : coltype) (z : Z) e :
  float_or_zero (fetched ty z) = Py.Raise e ->
  ty = INTEGER /\ e = Py.OverflowError.
Proof.
  unfold float_or_zero.
  destruct ty as [|scale|]; cbn [fetched];
    destruct (Py.truthy _); cbn [Py.float]; try discriminate.
  unfold Py.float_of_int. destruct (is_infinity _); [| discriminate].
  intros H. inversion H. split; reflexivity.
Qed.

Lemma determine_personality_raises (sc : schema) (b r s : Z) e :
  determine_personality (fetched (balance_type sc) b)
                        (fetched (reputation_type sc) r)
                        (fetched (service_quality_type sc) s)
  = Py.Raise e ->
  e = Py.OverflowError /\ has_integer sc.
Proof.
  unfold determine_personality, convert_stats, has_integer.
  destruct (float_or_zero (fetched (balance_type sc) b)) as [fb | eb] eqn:Eb.
  - destruct (float_or_zero (fetched (reputation_type sc) r))
      as [fr | er] eqn:Er.
    + destruct (float_or_zero (fetched (service_quality_type sc) s))
        as [fs | es] eqn:Es; [discriminate|].
      destruct (float_or_zero_raises _ _ _ Es) as [-> ->].
      intros H. inversion H. auto.
    + destruct (float_or_zero_raises _ _ _ Er) as [-> ->].
      intros H. inversion H. auto.
  - destruct (float_or_zero_raises _ _ _ Eb) as [-> ->].
    intros H. inversion H. auto.
Qed.

Lemma stats_row_shape (sc : schema) (t : tables) (row : stats_row) :
  In row (select_bot_stats sc t) ->
  exists b r s,
    s_balance row = fetched (balance_type sc) b /\
    s_reputation row = fetched (reputation_type sc) r /\
    s_service_quality row = fetched (service_quality_type sc) s.
Proof.
  unfold select_bot_stats. intros H. apply in_flat_map in H.
  destruct H as (a & _ & H). unfold left_join_stats in H.
  destruct (filter _ (airline_info t)) as [|i infos].
  - destruct H as [<- | []]. exists 0, 0, 0. cbn. auto.
  - apply in_map_iff in H. destruct H as (j & <- & _).
    exists (ai_balance j), (ai_reputation j), (ai_service_quality j).
    cbn. auto.
Qed.

Lemma count_personalities_raises (sc : schema) rows :
  (forall row, In row rows ->
     exists b r s,
       s_balance row = fetched (balance_type sc) b /\
       s_reputation row = fetched (reputation_type sc) r /\
       s_service_quality row = fetched (service_quality_type sc) s) ->
  forall counts e,
    count_personalities rows counts = Py.Raise e ->
    e = Py.OverflowError /\ has_integer sc.
Proof.
  induction rows as [|bot rows IH]; intros Hs counts e H; [discriminate H|].
  cbn [count_personalities] in H.
  destruct (determine_personality _ _ _) as [p | e'] eqn:E.
  - eapply IH; [| exact H]. intros row Hr. apply Hs. right. exact Hr.
  - inversion H; subst e'.
    destruct (Hs bot (or_introl eq_refl)) as (b & r & s & Hb & Hr & Hq).
    rewrite Hb, Hr, Hq in E.
    exact (determine_personality_raises _ _ _ _ _ E).
Qed.

Lemma left_join_stats_length (sc : schema) (t : tables) (a : airline_row) :
  (1 <= List.length (left_join_stats sc t a))%nat /\
  ((List.length (profiles_of (al_id a) t) <= 1)%nat ->
   List.length (left_join_stats sc t a) = 1%nat).
Proof.
  unfold left_join_stats, profiles_of.
  destruct (filter _ (airline_info t)) as [|i infos]; cbn [List.length map].
  - split; [lia | reflexivity].
  - rewrite length_map. split; [lia | intros H; lia].
Qed.

Lemma flat_map_count {A B} (f : A -> list B) (l : list A) :
  (forall a, In a l -> (1 <= List.length (f a))%nat) ->
  (List.length l <= List.length (flat_map f l))%nat.
Proof.
  induction l as [|a l IH]; intros H; simpl; [lia|].
  rewrite length_app.
  pose proof (H a (or_introl eq_refl)).
  assert (List.length l <= List.length (flat_map f l))%nat
    by (apply IH; intros b Hb; apply H; right; exact Hb).
  lia.
Qed.

Lemma flat_map_ones {A B} (f : A -> list B) (l : list A) :
  (forall a, In a l -> List.length (f a) = 1%nat) ->
  List.length (flat_map f l) = List.length l.
Proof.
  induction l as [|a l IH]; intros H; simpl; [reflexivity|].
  rewrite length_app, (H a (or_introl eq_refl)), IH; [reflexivity|].
  intros b Hb. apply H. right. exact Hb.
Qed.

(** The summary fails only when an integer column holds a number too large
    for a float. When it answers, every row of the bots' profiles is counted
    in exactly one category: the distribution adds up to at least the number
    of bots, and to the number of bots when no bot has two profile rows. *)
Theorem get_bots_summary_adds_up (sc : schema) (t : tables) :
  match get_bots_summary sc t with
  | Py.Ok s =>
      total_bots s = count_bots t /\
      (forall p, 0 <= personality_distribution s p) /\
      classified (personality_distribution s)
      = Z.of_nat (List.length (select_bot_stats sc t)) /\
      total_bots s <= classified (personality_distribution s) /\
      ((forall a, (List.length (profiles_of a t) <= 1)%nat) ->
       classified (personality_distribution s) = total_bots s)
  | Py.Raise e => e = Py.OverflowError /\ has_integer sc
  end.
Proof.
  unfold get_bots_summary.
  destruct (count_personalities (select_bot_stats sc t) no_counts)
    as [counts | e] eqn:E.
  - cbn [total_bots personality_distribution].
    destruct (count_personalities_classified _ _ _ E) as [Hc Hm].
    change (classified no_counts) with 0 in Hc.
    split; [reflexivity|].
    split; [intros p; specialize (Hm p); unfold no_counts in Hm; lia|].
    split; [lia|]. rewrite Hc. unfold count_bots, select_bot_stats.
    split.
    + apply Nat2Z.inj_le. cbn. apply flat_map_count.
      intros a _. apply left_join_stats_length.
    + intros H. cbn. f_equal. apply flat_map_ones.
      intros a _. apply left_join_stats_length. apply H.
  - eapply count_personalities_raises; [| exact E].
    intros row. apply stats_row_shape.
Qed.

Lemma get_bots_summary_adds_up_witness :
  match get_bots_summary game_schema Sample.t0 with
  | Py.Ok s => classified (personality_distribution s) = total_bots s
  | Py.Raise e => e = Py.OverflowError
  end.
Proof.
  pose proof (get_bots_summary_adds_up game_schema Sample.t0) as H.
  destruct (get_bots_summary game_schema Sample.t0) as [s | e];
    [| apply H].
  destruct H as (_ & _ & _ & _ & H). apply H.
  intros a. unfold profiles_of. cbn [airline_info Sample.t0 filter].
  cbn [ai_airline Sample.row filter].
  destruct (Z.eqb_spec 1 a), (Z.eqb_spec 2 a), (Z.eqb_spec 3 a),
    (Z.eqb_spec 4 a); cbn [List.length]; lia.
Defined.

Lemma reset_bots_leaves_wiped (e : env) (w : world) :
  success (fst (reset_bots e w)) = true ->
  (forall a, In a (bot_ids (w_tables w)) ->
             wiped a (w_tables (snd (reset_bots e w)))) /\
  airline (w_tables (snd (reset_bots e w))) = airline (w_tables w).
Proof.
  intros Hs. pose proof (reset_bots_run e w Hs) as H.
  cbv zeta in H. unfold bot_ids.
  destruct (select_bots (w_tables w)) as [|bot bots] eqn:Hb.
  - rewrite H. cbn [snd w_tables map].
    split; [intros a0 [] | reflexivity].
  - destruct H as [-> _]. split.
    + intros a Ha. apply batch_wiped. exact Ha.
    + apply batch_catalogs.
Qed.

Lemma bot_ids_spec (t : tables) (a : airline_row) :
  In a (airline t) -> al_airline_type a = 2 -> In (al_id a) (bot_ids t).
Proof.
  intros Hin Hty. unfold bot_ids, select_bots.
  apply in_map_iff.
  assert (exists bot, In bot (left_join_info t a) /\ b_id bot = al_id a)
    as (bot & Hb & Hi).
  { unfold left_join_info.
    destruct (filter _ (airline_info t)) as [|i infos].
    - eexists. split; [left; reflexivity | reflexivity].
    - eexists. split; [left; reflexivity | reflexivity]. }
  exists bot. split; [exact Hi|].
  apply in_flat_map. exists a. split; [| exact Hb].
  apply filter_In. split; [exact Hin | apply Z.eqb_eq; exact Hty].
Qed.

Lemma flat_map_none {A B} (f : A -> list B) (l : list A) :
  (forall a, In a l -> f a = []) -> flat_map f l = [].
Proof.
  induction l as [|a l IH]; intros H; simpl; [reflexivity|].
  rewrite (H a (or_introl eq_refl)), IH; [reflexivity|].
  intros b Hb. apply H. right. exact Hb.
Qed.

Lemma count_all_budget rows :
  (forall row, In row rows ->
     determine_personality (s_balance row) (s_reputation row)
                           (s_service_quality row) = Py.Ok BUDGET) ->
  forall counts,
  exists counts',
    count_personalities rows counts = Py.Ok counts' /\
    forall p, counts' p
              = counts p + (if same_personality p BUDGET
                            then Z.of_nat (List.length rows) else 0).
Proof.
  induction rows as [|bot rows IH]; intros H counts.
  - exists counts. split; [reflexivity|].
    intros p. cbn [List.length]. destruct (same_personality p BUDGET); lia.
  - cbn [count_personalities]. rewrite (H bot (or_introl eq_refl)).
    destruct (IH (fun row Hr => H row (or_intror Hr))
                 (count_one BUDGET counts)) as (counts' & E & Hc).
    exists counts'. split; [exact E|].
    intros p. rewrite Hc. unfold count_one. cbn [List.length].
    destruct (same_personality p BUDGET); lia.
Qed.

(** After a batch reset that succeeds, the summary answers, whatever the
    types of the profile columns: it shows the bots without a route and all
    of them, also those without a profile, in the category BUDGET. *)
Theorem get_bots_summary_after_reset_bots
  (sc : schema) (e : env) (w : world) :
  known sc = true ->
  success (fst (reset_bots e w)) = true ->
  exists s,
    get_bots_summary sc (w_tables (snd (reset_bots e w))) = Py.Ok s /\
    total_bots s = count_bots (w_tables w) /\
    total_routes s = 0 /\
    (forall p, personality_distribution s p
               = if same_personality p BUDGET
                 then Z.of_nat (List.length
                        (select_bot_stats sc
                           (w_tables (snd (reset_bots e w)))))
                 else 0).
Proof.
  intros Hk Hs. destruct (reset_bots_leaves_wiped e w Hs) as [Hw Ha].
  remember (w_tables (snd (reset_bots e w))) as t' eqn:Et'. clear Et'.
  unfold get_bots_summary.
  destruct (count_all_budget (select_bot_stats sc t')) with (counts := no_counts)
    as (counts & E & Hc).
  { intros row Hr. unfold select_bot_stats in Hr.
    apply in_flat_map in Hr. destruct Hr as (a & Hf & Hr).
    apply filter_In in Hf. destruct Hf as [Hin Hty].
    apply Z.eqb_eq in Hty. rewrite Ha in Hin.
    pose proof (Hw _ (bot_ids_spec _ _ Hin Hty)) as (_ & _ & Hp & _).
    unfold left_join_stats in Hr. unfold profiles_of in Hp.
    destruct (filter _ (airline_info t')) as [|i infos].
    - destruct Hr as [<- | []]. cbn. apply personality_without_profile.
    - apply in_map_iff in Hr. destruct Hr as (j & <- & Hj).
      rewrite Forall_forall in Hp. destruct (Hp j Hj) as (-> & -> & ->).
      cbn. apply personality_after_reset. exact Hk. }
  rewrite E. eexists. split; [reflexivity|].
  cbn [total_bots total_routes personality_distribution].
  split; [unfold count_bots; rewrite Ha; reflexivity|].
  split.
  - unfold count_bot_routes.
    replace (flat_map _ (link t')) with (@nil airline_row); [reflexivity|].
    symmetry. apply flat_map_none. intros l Hl.
    destruct (filter _ (airline t')) as [|a rest] eqn:Ef; [reflexivity|].
    assert (In a (filter (fun a => (ln_airline l =? al_id a) &&
                                   (al_airline_type a =? 2)) (airline t')))
      as Hf by (rewrite Ef; left; reflexivity).
    apply filter_In in Hf. destruct Hf as [Hin Hc'].
    apply andb_true_iff in Hc'. destruct Hc' as [Hid Hty].
    apply Z.eqb_eq in Hid. apply Z.eqb_eq in Hty. rewrite Ha in Hin.
    pose proof (Hw _ (bot_ids_spec _ _ Hin Hty)) as (Hr & _).
    assert (In l (routes_of (al_id a) t')) as Hl'.
    { unfold routes_of. apply filter_In. split; [exact Hl|].
      apply Z.eqb_eq. exact Hid. }
    rewrite Hr in Hl'. destruct Hl'.
  - intros p. rewrite Hc. unfold no_counts. lia.
Qed.

Lemma get_bots_summary_after_reset_bots_witness :
  exists s,
    get_bots_summary game_schema
      (w_tables (snd (reset_bots Sample.e_ok Sample.w0))) = Py.Ok s /\
    total_routes s = 0 /\ personality_distribution s REGIONAL = 0.
Proof.
  destruct (get_bots_summary_after_reset_bots
              game_schema Sample.e_ok Sample.w0 eq_refl eq_refl)
    as (s & E & _ & Hr & Hp).
  exists s. split; [exact E|]. split; [exact Hr | exact (Hp REGIONAL)].
Defined.

(** ** The alerts *)

(** With the three readings taken, the answer is a list of one to four
    alerts, each with one of the three levels and with the time at which it
    was made. The level "info" is that of the single alert of a system with
    nothing to report, and only of it. A level "critical" is there exactly
    when a usage is above 90 or the database does not connect. *)
Theorem get_alerts_levels (cpu memory disk : float) (db : option string)
  (now : nat -> string) :
  exists alerts,
    get_alerts (Measured cpu) (Measured memory) (Measured disk) db now
    = Alerts alerts /\
    (1 <= List.length alerts <= 4)%nat /\
    (forall k a, nth_error alerts k = Some a ->
       timestamp a = now k /\
       (level a = "critical" \/ level a = "warning" \/ level a = "info")) /\
    (In "info" (map level alerts) <->
     alerts = [{| level := "info";
                  alert_message := Plain "All systems operational";
                  timestamp := now 0%nat |}]) /\
    (In "info" (map level alerts) <->
     calm 75 cpu = true /\ calm 75 memory = true /\ calm 80 disk = true /\
     db = None) /\
    (In "critical" (map level alerts) <->
     (90 <? cpu)%float = true \/ (90 <? memory)%float = true \/
     (90 <? disk)%float = true \/ db <> None).
Proof.
  unfold get_alerts, check_usage, calm, append_alert.
  destruct (90 <? cpu)%float, (75 <? cpu)%float,
    (90 <? memory)%float, (75 <? memory)%float,
    (90 <? disk)%float, (80 <? disk)%float, db as [msg|];
    cbn -[String.append];
    (eexists; split; [reflexivity|]);
    (split; [cbn; lia|]);
    (split;
     [intros k a Hk;
      do 5 (destruct k as [|k]; cbn in Hk;
            [try (inversion Hk; subst a; cbn; auto) |]);
      try discriminate Hk;
      destruct k; discriminate Hk|]);
    cbn -[String.append];
    repeat split; intros;
    repeat match goal with
           | H : _ \/ _ |- _ => destruct H
           | H : _ /\ _ |- _ => destruct H
           | H : False |- _ => destruct H
           end;
    try discriminate; try congruence; auto 6;
    do 3 right; discriminate.
Qed.
